(** * SAT bulletin monitor: a shallow embedding of [lambda_function.py]

  The program scrapes one page for PDF links, skips the links whose dedup
  marker is already in the bucket, downloads and analyses the others,
  archives them, and mails the matches.

  Python [str] values are Rocq strings holding their UTF-8 encoding, so
  [str.encode()] is the identity, and substring and suffix tests agree
  with the tests on code points.  Effects are threaded through a state and
  exception monad over a [State] that records the bucket, the temporary
  directory and the trace of the calls that left the process.  What the
  outside world answers (the web server, S3, the mail server, the disk,
  the clock) and what the third-party libraries compute (BeautifulSoup,
  PyPDF2, [urljoin], [str.lower]) is read from an [Env]; every theorem
  holds for every [Env].  Calls to [logger] are left out. *)

From Stdlib Require Import ZArith Lia Ascii String.
From stdpp Require Import base tactics option list strings pretty gmap fin_maps.

Local Open Scope string_scope.
Local Open Scope list_scope.

(** ** Strings *)

Module Str.

(** [needle in hay] on Python strings. *)
Fixpoint contains (needle hay : string) : bool :=
  String.prefix needle hay ||
  match hay with
  | EmptyString => false
  | String _ hay' => contains needle hay'
  end.

(** [s.endswith(suffix)]. *)
Fixpoint endswith (s suffix : string) : bool :=
  String.eqb s suffix ||
  match s with
  | EmptyString => false
  | String _ s' => endswith s' suffix
  end.

(** [sep.join(parts)]. *)
Fixpoint join (sep : string) (parts : list string) : string :=
  match parts with
  | [] => ""
  | [p] => p
  | p :: rest => p +:+ sep +:+ join sep rest
  end.

(** The text after the last occurrence of [c], the whole string when
    there is none: [s.rsplit(c, 1)[-1]]. *)
Fixpoint after_last (c : ascii) (s : string) : string :=
  match s with
  | EmptyString => ""
  | String a s' =>
      if Ascii.eqb a c then after_last c s'
      else if contains (String c "") s' then after_last c s'
      else s
  end.

(** The truth value of a string: empty strings are falsy. *)
Definition truthy (s : string) : bool :=
  match s with EmptyString => false | _ => true end.

Definition bytes (s : string) : list Z :=
  map (fun a => Z.of_nat (nat_of_ascii a)) (list_ascii_of_string s).

End Str.

(** ** MD5 (RFC 1321), the function behind [hashlib.md5(..).hexdigest()] *)

Module MD5.
Local Open Scope Z_scope.

Definition w32 (x : Z) : Z := x mod 2 ^ 32.
Definition add32 (x y : Z) : Z := w32 (x + y).
Definition not32 (x : Z) : Z := Z.lxor x 0xffffffff.
Definition rotl32 (x n : Z) : Z :=
  Z.lor (w32 (Z.shiftl x n)) (Z.shiftr x (32 - n)).

Definition shifts : list Z :=
  [7; 12; 17; 22; 7; 12; 17; 22; 7; 12; 17; 22; 7; 12; 17; 22;
   5; 9; 14; 20; 5; 9; 14; 20; 5; 9; 14; 20; 5; 9; 14; 20;
   4; 11; 16; 23; 4; 11; 16; 23; 4; 11; 16; 23; 4; 11; 16; 23;
   6; 10; 15; 21; 6; 10; 15; 21; 6; 10; 15; 21; 6; 10; 15; 21].

Definition sines : list Z :=
  [0xd76aa478; 0xe8c7b756; 0x242070db; 0xc1bdceee;
   0xf57c0faf; 0x4787c62a; 0xa8304613; 0xfd469501;
   0x698098d8; 0x8b44f7af; 0xffff5bb1; 0x895cd7be;
   0x6b901122; 0xfd987193; 0xa679438e; 0x49b40821;
   0xf61e2562; 0xc040b340; 0x265e5a51; 0xe9b6c7aa;
   0xd62f105d; 0x02441453; 0xd8a1e681; 0xe7d3fbc8;
   0x21e1cde6; 0xc33707d6; 0xf4d50d87; 0x455a14ed;
   0xa9e3e905; 0xfcefa3f8; 0x676f02d9; 0x8d2a4c8a;
   0xfffa3942; 0x8771f681; 0x6d9d6122; 0xfde5380c;
   0xa4beea44; 0x4bdecfa9; 0xf6bb4b60; 0xbebfbc70;
   0x289b7ec6; 0xeaa127fa; 0xd4ef3085; 0x04881d05;
   0xd9d4d039; 0xe6db99e5; 0x1fa27cf8; 0xc4ac5665;
   0xf4292244; 0x432aff97; 0xab9423a7; 0xfc93a039;
   0x655b59c3; 0x8f0ccc92; 0xffeff47d; 0x85845dd1;
   0x6fa87e4f; 0xfe2ce6e0; 0xa3014314; 0x4e0811a1;
   0xf7537e82; 0xbd3af235; 0x2ad7d2bb; 0xeb86d391].

(** The message followed by 0x80, zeros up to 56 modulo 64, and the bit
    length as eight little-endian bytes. *)
Definition le_bytes (n : nat) (x : Z) : list Z :=
  map (fun i => Z.shiftr x (8 * Z.of_nat i) mod 256) (seq 0 n).

Definition pad (msg : list Z) : list Z :=
  let len := Z.of_nat (length msg) in
  let zeros := Z.to_nat ((55 - len) mod 64) in
  msg ++ [0x80] ++ repeat 0 zeros ++ le_bytes 8 ((8 * len) mod 2 ^ 64).

Fixpoint le_word (bs : list Z) : Z :=
  match bs with
  | [] => 0
  | b :: bs' => b + 256 * le_word bs'
  end.

(** The sixteen words of a 64-byte block. *)
Definition block_words (block : list Z) : list Z :=
  map (fun i => le_word (take 4 (drop (4 * i) block))) (seq 0 16).

Definition round (m : list Z) (st : Z * Z * Z * Z) (i : nat) : Z * Z * Z * Z :=
  let '(a, b, c, d) := st in
  let iz := Z.of_nat i in
  let '(f, g) :=
    if iz <? 16 then (Z.lor (Z.land b c) (Z.land (not32 b) d), iz)
    else if iz <? 32 then (Z.lor (Z.land d b) (Z.land (not32 d) c), (5 * iz + 1) mod 16)
    else if iz <? 48 then (Z.lxor (Z.lxor b c) d, (3 * iz + 5) mod 16)
    else (Z.lxor c (Z.lor b (not32 d)), (7 * iz) mod 16) in
  let f' := add32 (add32 (add32 f a) (nth i sines 0)) (nth (Z.to_nat g) m 0) in
  (d, add32 b (rotl32 f' (nth i shifts 0)), b, c).

Definition compress (st : Z * Z * Z * Z) (block : list Z) : Z * Z * Z * Z :=
  let '(a0, b0, c0, d0) := st in
  let '(a, b, c, d) := fold_left (round (block_words block)) (seq 0 64) st in
  (add32 a0 a, add32 b0 b, add32 c0 c, add32 d0 d).

Fixpoint blocks (n : nat) (bs : list Z) : list (list Z) :=
  match n with
  | O => []
  | S n' => take 64 bs :: blocks n' (drop 64 bs)
  end.

Definition digest (msg : list Z) : list Z :=
  let padded := pad msg in
  let '(a, b, c, d) :=
    fold_left compress (blocks (length padded / 64) padded)
              (0x67452301, 0xefcdab89, 0x98badcfe, 0x10325476) in
  le_bytes 4 a ++ le_bytes 4 b ++ le_bytes 4 c ++ le_bytes 4 d.

Definition hex_digit (x : Z) : ascii :=
  nth (Z.to_nat x) (list_ascii_of_string "0123456789abcdef") "0"%char.

Definition hex_byte (x : Z) : string :=
  String (hex_digit (x / 16)) (String (hex_digit (x mod 16)) "").

Definition hexdigest (s : string) : string :=
  fold_right (fun b acc => hex_byte b +:+ acc) "" (digest (Str.bytes s)).

End MD5.

(** ** Exceptions, values and the outside world *)

(** Exceptions, by the classes the handlers of the program tell apart.  All
    of them are subclasses of [Exception]. *)
Inductive exn :=
| SATMonitorError (msg : string)
| RequestException (msg : string)
| ClientError (code msg : string)
| OtherException (msg : string).

(** [str(e)] *)
Definition exn_str (e : exn) : string :=
  match e with
  | SATMonitorError m | RequestException m | ClientError _ m | OtherException m => m
  end.

Definition is_RequestException (e : exn) : bool :=
  match e with RequestException _ => true | _ => false end.

Definition is_ClientError (e : exn) : bool :=
  match e with ClientError _ _ => true | _ => false end.

Definition is_SATMonitorError (e : exn) : bool :=
  match e with SATMonitorError _ => true | _ => false end.

(** [requests.Response], the attributes the program reads. *)
Record Response := {
  status_code : Z;
  reason : string;
  text : string;
  content : string
}.

Inductive http_outcome :=
| HttpAnswer (r : Response)
| HttpRaise (e : exn).

(** A page of an opened PDF: [page.extract_text()] gives its text or raises. *)
Inductive page :=
| PageText (t : string)
| PageRaise (e : exn).

(** The entries of the [updates] list. *)
Record Update := {
  pdf : string;
  keywords : list string;
  url : string;
  processed_at : string
}.

(** The message handed to [server.sendmail]. *)
Record Mail := {
  mail_subject : string;
  mail_from : option string;
  mail_to : option string;
  mail_plain : string;
  mail_html : string
}.

(** The calls that leave the process, in the order they are made. *)
Inductive event :=
| EvGet (u : string)
| EvSleep (seconds : Z)
| EvHead (key : string)
| EvPut (key body : string)
| EvUpload (path key : string)
| EvTmpCreate (path : string)
| EvTmpWrite (path : string)
| EvUnlink (path : string)
| EvSendmail (m : Mail)
| EvNow.

(** What a call gives: a value, or the exception it raised. *)
Inductive result (A : Type) :=
| Ok (a : A)
| Raise (e : exn).
Arguments Ok {A} a.
Arguments Raise {A} e.

(** What the program does not decide.  Every answer may depend on the
    calls made so far. *)
Record Env := {
  (** [os.environ.get] *)
  environ : string -> option string;
  (** [requests.get(url, timeout=.., headers=..)] *)
  http_get : list event -> string -> http_outcome;
  (** a failure of [boto3.client("s3")]: no region, no credentials file *)
  client_fault : list event -> option exn;
  (** a failure of the S3 call [call] other than a missing key *)
  s3_fault : list event -> event -> option exn;
  (** the name [tempfile.NamedTemporaryFile] picks *)
  mkstemp : list event -> string;
  (** a failure of [tmp_file.write] or of the close that flushes it *)
  write_fault : list event -> string -> option exn;
  (** a failure of the SMTP session: connect, starttls, login, sendmail *)
  smtp_fault : list event -> option string -> Mail -> option exn;
  (** [datetime.now()], in microseconds *)
  clock : list event -> Z;
  isoformat : Z -> string;
  strftime : string -> Z -> string;
  format_2f : Z -> string;
  (** [repr] of a list of strings *)
  repr_list : list string -> string;
  (** [str.lower] *)
  lower : string -> string;
  (** [urllib.parse.urljoin], which raises [ValueError] on a reference it
      cannot parse, and [urlparse(..).path] *)
  urljoin : string -> string -> result string;
  urlparse_path : string -> string;
  (** [BeautifulSoup(text, "html.parser").find_all("a")]: the [href] of
      every anchor in document order, [None] for an anchor without one;
      or what the parser raised *)
  find_all_a : string -> result (list (option string));
  (** [PyPDF2.PdfReader] on the bytes of a file: the pages, or [None] when
      opening the document or walking its pages raises *)
  pdf_pages : string -> option (list page)
}.

(** The bucket, the local disk, the trace, and the one Python object that
    is mutated in place across an exception handler: the list bound to
    [updates] in [analyze_pdfs]. *)
Record State := {
  trace : list event;
  bucket : gmap string string;
  disk : gmap string string;
  updates : list Update
}.

Definition log_event (e : event) (s : State) : State :=
  {| trace := trace s ++ [e]; bucket := bucket s; disk := disk s; updates := updates s |}.

Definition set_bucket (b : gmap string string) (s : State) : State :=
  {| trace := trace s; bucket := b; disk := disk s; updates := updates s |}.

Definition set_disk (d : gmap string string) (s : State) : State :=
  {| trace := trace s; bucket := bucket s; disk := d; updates := updates s |}.

Definition set_updates (u : list Update) (s : State) : State :=
  {| trace := trace s; bucket := bucket s; disk := disk s; updates := u |}.

(** ** The state and exception monad *)

Definition M (A : Type) : Type := State -> result A * State.

Definition ret {A} (a : A) : M A := fun s => (Ok a, s).

Definition raise {A} (e : exn) : M A := fun s => (Raise e, s).

Definition bind {A B} (c : M A) (k : A -> M B) : M B :=
  fun s =>
    match c s with
    | (Ok a, s') => k a s'
    | (Raise e, s') => (Raise e, s')
    end.

Notation "x <- c ;; k" := (bind c (fun x => k))
  (at level 100, c at next level, right associativity).
Notation "c ;; k" := (bind c (fun _ => k))
  (at level 100, right associativity).

(** [try: c / except cls as e: h e], where [cls] is the class test. *)
Definition try_except {A} (cls : exn -> bool) (c : M A) (h : exn -> M A) : M A :=
  fun s =>
    match c s with
    | (Ok a, s') => (Ok a, s')
    | (Raise e, s') => if cls e then h e s' else (Raise e, s')
    end.

(** [except Exception] *)
Definition any_Exception (e : exn) : bool := true.

(** [try: c / finally: f]; an exception of [f] replaces the outcome of [c]. *)
Definition try_finally {A} (c : M A) (f : M unit) : M A :=
  fun s =>
    match c s with
    | (r, s') =>
        match f s' with
        | (Ok _, s'') => (r, s'')
        | (Raise e, s'') => (Raise e, s'')
        end
    end.

(** [for x in xs: body x] for a body without [break] or [return]. *)
Fixpoint for_each {X} (xs : list X) (body : X -> M unit) : M unit :=
  match xs with
  | [] => ret tt
  | x :: rest => body x ;; for_each rest body
  end.

Definition get_state : M State := fun s => (Ok s, s).
Definition modify (f : State -> State) : M unit := fun s => (Ok tt, f s).
Definition emit (e : event) : M unit := modify (log_event e).

(** ** Configuration *)

Definition SAT_URL : string :=
  "http://omawww.sat.gob.mx/sala_prensa/boletin_tecnico/Paginas/default.aspx".
Definition KEYWORDS : list string :=
  ["CFDI 4.0"; "Anexo 20"; "contabilidad electrónica"; "e.firma"].
Definition EMAIL_SUBJECT : string := "Actualización en Boletines Técnicos del SAT".
Definition REQUEST_TIMEOUT : Z := 30.
Definition MAX_RETRIES : Z := 3.
Definition RETRY_DELAY : Z := 2.

(** The line feed of the Python literals. *)
Definition nl : string := String (ascii_of_nat 10) "".

(** [e.response['Error']['Code']] *)
Definition error_code (e : exn) : string :=
  match e with ClientError code _ => code | _ => "" end.

(** The pure loops of the program, with the lists they append to. *)

(** [for keyword in KEYWORDS: if keyword.lower() in text.lower(): ...] *)
Fixpoint find_keywords (lower : string -> string) (kws : list string) (text : string)
    (found_keywords : list string) : list string :=
  match kws with
  | [] => found_keywords
  | keyword :: rest =>
      if Str.contains (lower keyword) (lower text)
      then find_keywords lower rest text (found_keywords ++ [keyword])
      else find_keywords lower rest text found_keywords
  end.

(** [for link in soup.find_all("a", href=True): ...] over all the anchors
    of the page: [href=True] passes over the anchors without [href].  The
    loop ends where [urljoin] raises. *)
Fixpoint collect_pdf_links (urljoin : string -> string -> result string)
    (anchors : list (option string)) (pdf_links : list string) : result (list string) :=
  match anchors with
  | [] => Ok pdf_links
  | None :: rest => collect_pdf_links urljoin rest pdf_links
  | Some href :: rest =>
      if Str.endswith href ".pdf"
      then match urljoin SAT_URL href with
           | Ok pdf_url => collect_pdf_links urljoin rest (pdf_links ++ [pdf_url])
           | Raise e => Raise e
           end
      else collect_pdf_links urljoin rest pdf_links
  end.

(** [range(n)] *)
Definition range (n : Z) : list Z := map Z.of_nat (seq 0 (Z.to_nat n)).

(** [os.path.basename] on a POSIX path. *)
Definition basename (path : string) : string := Str.after_last "/" path.

Definition processed_key (pdf_url : string) : string :=
  "processed/" +:+ MD5.hexdigest pdf_url +:+ ".txt".

(** The two bodies [send_email] composes. *)
Definition text_body (ups : list Update) : string :=
  fold_left
    (fun body update =>
       body +:+ "- " +:+ pdf update +:+ ": " +:+ Str.join ", " (keywords update) +:+ nl
            +:+ "  URL: " +:+ url update +:+ nl
            +:+ "  Procesado: " +:+ processed_at update +:+ nl +:+ nl)
    ups
    ("Se encontraron actualizaciones en los boletines técnicos del SAT:" +:+ nl +:+ nl).

Definition html_body (ups : list Update) : string :=
  fold_left
    (fun body update =>
       body +:+ nl
            +:+ "                <li>" +:+ nl
            +:+ "                    <strong>" +:+ pdf update +:+ "</strong><br>" +:+ nl
            +:+ "                    Palabras clave: " +:+ Str.join ", " (keywords update) +:+ "<br>" +:+ nl
            +:+ "                    <a href=" +:+ String (ascii_of_nat 34) "" +:+ url update
            +:+ String (ascii_of_nat 34) "" +:+ ">Ver documento</a><br>" +:+ nl
            +:+ "                    Procesado: " +:+ processed_at update +:+ nl
            +:+ "                </li>" +:+ nl
            +:+ "            ")
    ups
    (nl +:+ "        <html>" +:+ nl
        +:+ "        <body>" +:+ nl
        +:+ "            <h2>Actualizaciones en Boletines Técnicos del SAT</h2>" +:+ nl
        +:+ "            <p>Se encontraron las siguientes actualizaciones:</p>" +:+ nl
        +:+ "            <ul>" +:+ nl
        +:+ "        ")
  +:+ nl +:+ "            </ul>" +:+ nl
  +:+ "        </body>" +:+ nl
  +:+ "        </html>" +:+ nl
  +:+ "        ".

(** The dictionaries [lambda_handler] returns. *)
#[warnings="-register-all"]
Inductive value :=
| VInt (z : Z)
| VStr (s : string)
| VSeconds (microseconds : Z)
| VDict (d : list (string * value)).

(** [d[key]] *)
Definition item (key : string) (v : value) : option value :=
  match v with
  | VDict d => snd <$> List.find (fun kv => String.eqb (fst kv) key) d
  | _ => None
  end.

(** ** Counting the calls of a trace *)

Inductive kind :=
| KGet | KSleep | KHead | KPut | KUpload | KTmpCreate | KTmpWrite | KUnlink | KSendmail | KNow.

Definition kind_of (e : event) : kind :=
  match e with
  | EvGet _ => KGet
  | EvSleep _ => KSleep
  | EvHead _ => KHead
  | EvPut _ _ => KPut
  | EvUpload _ _ => KUpload
  | EvTmpCreate _ => KTmpCreate
  | EvTmpWrite _ => KTmpWrite
  | EvUnlink _ => KUnlink
  | EvSendmail _ => KSendmail
  | EvNow => KNow
  end.

Definition kind_eqb (a b : kind) : bool :=
  match a, b with
  | KGet, KGet | KSleep, KSleep | KHead, KHead | KPut, KPut | KUpload, KUpload
  | KTmpCreate, KTmpCreate | KTmpWrite, KTmpWrite | KUnlink, KUnlink
  | KSendmail, KSendmail | KNow, KNow => true
  | _, _ => false
  end.

(** The number of calls of kind [k] in [evs]. *)
Definition count (k : kind) (evs : list event) : nat :=
  length (List.filter (fun e => kind_eqb (kind_of e) k) evs).

(** The keys looked up in the dedup store, in the order of the calls. *)
Definition dedup_checks (evs : list event) : list string :=
  omap (fun e => match e with EvHead key => Some key | _ => None end) evs.

(** Budgets of calls, by kind. *)
Definition bzero : kind -> nat := fun _ => 0.
Definition bplus (b1 b2 : kind -> nat) : kind -> nat := fun k => b1 k + b2 k.
Definition bone (k0 : kind) : kind -> nat := fun k => if kind_eqb k0 k then 1 else 0.

(** Every call [c] makes satisfies [about], and [c] makes at most [b k]
    calls of kind [k], in every state. *)
Definition costs (about : event -> Prop) {A} (b : kind -> nat)
    (c : State -> result A * State) : Prop :=
  forall s, exists evs,
    trace (snd (c s)) = trace s ++ evs
    /\ Forall about evs
    /\ forall k, count k evs <= b k.

(** Every run of [c] takes a state to one that [R] relates to it. *)
Definition steps (R : State -> State -> Prop) {A} (c : State -> result A * State) : Prop :=
  forall s, R s (snd (c s)).

(** The files on disk are the same. *)
Definition same_disk (s s' : State) : Prop := disk s' = disk s.

(** ** The program *)

(** The state after the calls [evs]. *)
Definition add_events (evs : list event) (s : State) : State :=
  {| trace := trace s ++ evs; bucket := bucket s; disk := disk s; updates := updates s |}.

(** [k] failed attempts on [u], each followed by the pause. *)
Definition retry_trace (u : string) (k : nat) : list event :=
  concat (replicate k [EvGet u; EvSleep RETRY_DELAY]).

Section Program.

Variable env : Env.

(** *** The calls into the outside world *)

Definition now : M Z :=
  fun s => (Ok (clock env (trace s)), log_event EvNow s).

Definition sleep (seconds : Z) : M unit := emit (EvSleep seconds).

Definition requests_get (u : string) : M Response :=
  fun s =>
    match http_get env (trace s) u with
    | HttpAnswer r => (Ok r, log_event (EvGet u) s)
    | HttpRaise e => (Raise e, log_event (EvGet u) s)
    end.

(** [response.raise_for_status()]: an [HTTPError], which is a
    [RequestException], for the statuses 400 to 599. *)
Definition http_error (u : string) (r : Response) : option exn :=
  if (400 <=? status_code r)%Z && (status_code r <? 500)%Z
  then Some (RequestException
               (pretty (status_code r) +:+ " Client Error: " +:+ reason r +:+ " for url: " +:+ u))
  else if (500 <=? status_code r)%Z && (status_code r <? 600)%Z
  then Some (RequestException
               (pretty (status_code r) +:+ " Server Error: " +:+ reason r +:+ " for url: " +:+ u))
  else None.

Definition raise_for_status (u : string) (r : Response) : M unit :=
  match http_error u r with
  | Some e => raise e
  | None => ret tt
  end.

(** A computation without effect that gives [r]. *)
Definition lift {A} (r : result A) : M A := fun s => (r, s).

(** [boto3.client("s3")]: it talks to no one, and raises when the
    configuration it finds is no good. *)
Definition boto3_client : M unit :=
  fun s =>
    match client_fault env (trace s) with
    | Some e => (Raise e, s)
    | None => (Ok tt, s)
    end.

(** A call of the S3 client that reaches the service or fails on the way. *)
Definition s3_call (call : event) : M unit :=
  fun s =>
    match s3_fault env (trace s) call with
    | Some e => (Raise e, log_event call s)
    | None => (Ok tt, log_event call s)
    end.

Definition head_object (key : string) : M unit :=
  s3_call (EvHead key) ;;
  s <- get_state ;;
  match bucket s !! key with
  | Some _ => ret tt
  | None => raise (ClientError "404" "An error occurred (404) when calling the HeadObject operation: Not Found")
  end.

Definition put_object (key body : string) : M unit :=
  s3_call (EvPut key body) ;;
  modify (fun s => set_bucket (<[key := body]> (bucket s)) s).

Definition upload_file (path key : string) : M unit :=
  s <- get_state ;;
  match disk s !! path with
  | None => raise (OtherException ("[Errno 2] No such file or directory: " +:+ path))
  | Some data =>
      s3_call (EvUpload path key) ;;
      modify (fun s => set_bucket (<[key := data]> (bucket s)) s)
  end.

(** [tempfile.NamedTemporaryFile(delete=False, suffix=..)]: a new, empty
    file under a name that is not taken. *)
Definition NamedTemporaryFile (suffix : string) : M string :=
  fun s =>
    let name := mkstemp env (trace s) +:+ suffix in
    match disk s !! name with
    | Some _ => (Raise (OtherException ("[Errno 17] File exists: " +:+ name)), s)
    | None => (Ok name, set_disk (<[name := ""]> (disk s)) (log_event (EvTmpCreate name) s))
    end.

(** [tmp_file.write(data)] and the close at the end of the [with] block. *)
Definition file_write (path data : string) : M unit :=
  fun s =>
    match write_fault env (trace s) data with
    | Some e => (Raise e, log_event (EvTmpWrite path) s)
    | None => (Ok tt, set_disk (<[path := data]> (disk s)) (log_event (EvTmpWrite path) s))
    end.

Definition path_exists (path : string) : M bool :=
  s <- get_state ;;
  ret (bool_decide (is_Some (disk s !! path))).

Definition unlink (path : string) : M unit :=
  emit (EvUnlink path) ;;
  modify (fun s => set_disk (delete path (disk s)) s).

(** [open(path, 'rb')] followed by reading all of it. *)
Definition open_rb (path : string) : M string :=
  s <- get_state ;;
  match disk s !! path with
  | Some data => ret data
  | None => raise (OtherException ("[Errno 2] No such file or directory: " +:+ path))
  end.

Definition PdfReader (data : string) : M (list page) :=
  match pdf_pages env data with
  | Some pages => ret pages
  | None => raise (OtherException "PdfReadError")
  end.

Definition extract_text (p : page) : M string :=
  match p with
  | PageText t => ret t
  | PageRaise e => raise e
  end.

(** The SMTP session of [send_email]: nothing is delivered unless every
    step of it succeeds. *)
Definition sendmail (m : Mail) : M unit :=
  fun s =>
    match smtp_fault env (trace s) (environ env "EMAIL_PASSWORD") m with
    | Some e => (Raise e, s)
    | None => (Ok tt, log_event (EvSendmail m) s)
    end.

(** [x.attr] on the value [get_with_retries] returned, which is [None]
    when its loop ran out without returning. *)
Definition attr {A} (name : string) (f : Response -> A) (r : option Response) : M A :=
  match r with
  | Some r => ret (f r)
  | None => raise (OtherException ("'NoneType' object has no attribute '" +:+ name +:+ "'"))
  end.

(** *** [validate_environment] *)

Definition validate_environment : M unit :=
  let required_vars := ["S3_BUCKET"; "EMAIL_SENDER"; "EMAIL_RECIPIENT"; "EMAIL_PASSWORD"] in
  let missing_vars :=
    List.filter (fun var => negb (Str.truthy (default "" (environ env var)))) required_vars in
  match missing_vars with
  | [] => ret tt
  | _ => raise (SATMonitorError
                  ("Variables de entorno faltantes: " +:+ Str.join ", " missing_vars))
  end.

(** *** [get_with_retries] *)

(** The exception raised after the last attempt failed with [e]. *)
Definition download_error (u : string) (max_retries : Z) (e : exn) : exn :=
  SATMonitorError ("Error al descargar " +:+ u +:+ " después de "
                   +:+ pretty max_retries +:+ " intentos: " +:+ exn_str e).

(** The loop [for attempt in range(max_retries)], over the attempts left. *)
Fixpoint retry_loop (u : string) (max_retries : Z) (attempts : list Z)
    : M (option Response) :=
  match attempts with
  | [] => ret None
  | attempt :: rest =>
      try_except is_RequestException
        (response <- requests_get u ;;
         raise_for_status u response ;;
         ret (Some response))
        (fun e =>
           if (attempt =? max_retries - 1)%Z
           then raise (download_error u max_retries e)
           else sleep RETRY_DELAY ;; retry_loop u max_retries rest)
  end.

Definition get_with_retries (u : string) (max_retries : Z) : M (option Response) :=
  retry_loop u max_retries (range max_retries).

(** What one attempt gives when the calls [tr] came before it: the body
    of the [try] of [get_with_retries]. *)
Definition attempt_outcome (tr : list event) (u : string) : result Response :=
  match http_get env tr u with
  | HttpRaise e => Raise e
  | HttpAnswer response =>
      match http_error u response with
      | Some e => Raise e
      | None => Ok response
      end
  end.

(** *** [scrape_boletines] *)

Definition scrape_boletines : M (list string) :=
  try_except any_Exception
    (response <- get_with_retries SAT_URL MAX_RETRIES ;;
     html <- attr "text" text response ;;
     soup <- lift (find_all_a env html) ;;
     lift (collect_pdf_links (urljoin env) soup []))
    (fun e => raise (SATMonitorError ("Error al extraer boletines: " +:+ exn_str e))).

(** *** [extract_text_from_pdf] *)

Fixpoint extract_pages (pages : list page) (text_parts : list string) : M (list string) :=
  match pages with
  | [] => ret text_parts
  | p :: rest =>
      text_parts' <-
        try_except any_Exception
          (page_text <- extract_text p ;;
           if Str.truthy page_text then ret (text_parts ++ [page_text])%list else ret text_parts)
          (fun e => ret text_parts) ;;
      extract_pages rest text_parts'
  end.

Definition extract_text_from_pdf (pdf_path : string) : M string :=
  try_except any_Exception
    (file <- open_rb pdf_path ;;
     pages <- PdfReader file ;;
     text_parts <- extract_pages pages [] ;;
     ret (Str.join " " text_parts))
    (fun e => ret "").

(** The text a page adds to [text_parts], if any. *)
Definition good_text (p : page) : option string :=
  match p with
  | PageText t => if Str.truthy t then Some t else None
  | PageRaise _ => None
  end.

(** *** [file_already_processed] and [mark_as_processed] *)

Definition file_already_processed (pdf_url : string) : M bool :=
  try_except is_ClientError
    (let url_hash := MD5.hexdigest pdf_url in
     let key := "processed/" +:+ url_hash +:+ ".txt" in
     head_object key ;;
     ret true)
    (fun e => if String.eqb (error_code e) "404" then ret false else raise e).

Definition mark_as_processed (pdf_url : string) : M unit :=
  try_except any_Exception
    (let url_hash := MD5.hexdigest pdf_url in
     let key := "processed/" +:+ url_hash +:+ ".txt" in
     t <- now ;;
     put_object key ("Procesado: " +:+ isoformat env t +:+ nl +:+ "URL: " +:+ pdf_url))
    (fun e => ret tt).

(** *** [analyze_pdfs] *)

Definition append_update (u : Update) : M unit :=
  modify (fun s => set_updates (updates s ++ [u]) s).

(** [os.path.basename(urlparse(pdf_url).path) or "documento.pdf"] *)
Definition pdf_name_of (pdf_url : string) : string :=
  let name := basename (urlparse_path env pdf_url) in
  if Str.truthy name then name else "documento.pdf".

(** What the body of the loop does with a link that is not marked yet;
    [continue] ends it. *)
Definition analyze_link (pdf_url : string) : M unit :=
  pdf_response <- get_with_retries pdf_url MAX_RETRIES ;;
  let pdf_name := pdf_name_of pdf_url in
  tmp_path <- NamedTemporaryFile ".pdf" ;;
  data <- attr "content" content pdf_response ;;
  file_write tmp_path data ;;
  try_finally
    (text <- extract_text_from_pdf tmp_path ;;
     if negb (Str.truthy text) then ret tt
     else
       let found_keywords := find_keywords (lower env) KEYWORDS text [] in
       match found_keywords with
       | [] => ret tt
       | _ =>
           t <- now ;;
           append_update {| pdf := pdf_name; keywords := found_keywords;
                            url := pdf_url; processed_at := isoformat env t |}
       end ;;
       today <- now ;;
       let s3_key := "boletines/" +:+ strftime env "%Y%m%d" today +:+ "/" +:+ pdf_name in
       upload_file tmp_path s3_key ;;
       mark_as_processed pdf_url)
    (there <- path_exists tmp_path ;;
     if there : bool then unlink tmp_path else ret tt).

(** The body of the loop over the links. *)
Definition process_link (pdf_url : string) : M unit :=
  try_except any_Exception
    (already <- file_already_processed pdf_url ;;
     if already : bool then ret tt else analyze_link pdf_url)
    (fun e => ret tt).

(** What a call made while the link [u] is processed may look like: a
    request for [u], a look at or a write of its marker, an upload of its
    archive; the pauses, the clock and the temporary file are its own. *)
Definition event_about (u : string) (e : event) : Prop :=
  match e with
  | EvGet u' => u' = u
  | EvHead key => key = processed_key u
  | EvPut key _ => key = processed_key u
  | EvUpload _ key => exists day, key = "boletines/" +:+ day +:+ "/" +:+ pdf_name_of u
  | EvSendmail _ => False
  | EvSleep _ | EvTmpCreate _ | EvTmpWrite _ | EvUnlink _ | EvNow => True
  end.

(** The calls one link may cost. *)
Definition link_budget (k : kind) : nat :=
  match k with
  | KHead => 1
  | KGet => 3
  | KSleep => 2
  | KTmpCreate => 1
  | KTmpWrite => 1
  | KUpload => 1
  | KPut => 1
  | KUnlink => 1
  | KNow => 3
  | KSendmail => 0
  end.

(** The calls a link costs once it is known not to be marked. *)
Definition analyze_budget (k : kind) : nat :=
  match k with
  | KHead => 0
  | _ => link_budget k
  end.

(** An entry of [updates] as the loop makes them: the keywords found in
    some text, and at least one. *)
Definition matched (u : Update) : Prop :=
  keywords u <> []
  /\ exists text, keywords u = find_keywords (lower env) KEYWORDS text [].

(** The state grew by matched entries of [updates] only. *)
Definition appends_matches (s s' : State) : Prop :=
  exists new, updates s' = updates s ++ new /\ Forall matched new.

Definition analyze_pdfs (pdf_links : list string) : M (list Update) :=
  modify (set_updates []) ;;
  boto3_client ;;
  for_each (take 10 pdf_links) process_link ;;
  s <- get_state ;;
  ret (updates s).

(** *** [send_email] *)

(** The message [send_email] builds from the matches. *)
Definition compose_mail (ups : list Update) : Mail :=
  {| mail_subject := EMAIL_SUBJECT;
     mail_from := environ env "EMAIL_SENDER";
     mail_to := environ env "EMAIL_RECIPIENT";
     mail_plain := text_body ups;
     mail_html := html_body ups |}.

Definition send_email (ups : list Update) : M unit :=
  match ups with
  | [] => ret tt
  | _ =>
      try_except any_Exception
        (sendmail (compose_mail ups))
        (fun e => raise (SATMonitorError ("Error al enviar email: " +:+ exn_str e)))
  end.

(** *** [save_log] *)

Definition save_log (log_message log_type : string) : M unit :=
  try_except any_Exception
    (t <- now ;;
     let timestamp := strftime env "%Y%m%d_%H%M%S" t in
     let key := "logs/" +:+ log_type +:+ "_" +:+ timestamp +:+ ".txt" in
     put_object key log_message)
    (fun e => ret tt).

(** *** [lambda_handler] *)

(** [try: c / except cls1 as e: h1 e / except cls2 as e: h2 e]: the
    handlers see the exceptions of [c] only. *)
Definition try_except2 {A} (c : M A)
    (cls1 : exn -> bool) (h1 : exn -> M A) (cls2 : exn -> bool) (h2 : exn -> M A) : M A :=
  fun s =>
    match c s with
    | (Ok a, s') => (Ok a, s')
    | (Raise e, s') =>
        if cls1 e then h1 e s' else if cls2 e then h2 e s' else (Raise e, s')
    end.

Definition success_response (ups : list Update) (pdf_links : list string)
    (execution_time : Z) : value :=
  VDict [("statusCode", VInt 200);
         ("body", VDict [("status", VStr "success");
                         ("updates_found", VInt (Z.of_nat (length ups)));
                         ("pdfs_analyzed", VInt (Z.of_nat (length pdf_links)));
                         ("execution_time", VSeconds execution_time)])].

Definition error_response (message : string) : value :=
  VDict [("statusCode", VInt 500);
         ("body", VDict [("status", VStr "error"); ("message", VStr message)])].

(** The log entry of a run that succeeded at [t]; [execution_time] is in
    microseconds. *)
Definition success_log (t execution_time : Z) (pdf_links : list string)
    (ups : list Update) : string :=
  "Monitoreo ejecutado exitosamente: " +:+ isoformat env t +:+ nl
  +:+ "Tiempo de ejecución: " +:+ format_2f env execution_time +:+ " segundos" +:+ nl
  +:+ "PDFs encontrados: " +:+ pretty (length pdf_links) +:+ nl
  +:+ "Actualizaciones detectadas: " +:+ pretty (length ups) +:+ nl
  +:+ "Actualizaciones: " +:+ repr_list env (map pdf ups).

(** The body of the [try] of [lambda_handler]. *)
Definition monitoring (start_time : Z) : M value :=
  validate_environment ;;
  boto3_client ;;
  pdf_links <- scrape_boletines ;;
  ups <- analyze_pdfs pdf_links ;;
  send_email ups ;;
  finished <- now ;;
  let execution_time := (finished - start_time)%Z in
  t <- now ;;
  let log_message := success_log t execution_time pdf_links ups in
  save_log log_message "success" ;;
  ret (success_response ups pdf_links execution_time).

(** An [except] block of [lambda_handler]: log the error, answer 500. *)
Definition report (label : string) (e : exn) (message : string) : M value :=
  t <- now ;;
  let error_log := label +:+ exn_str e +:+ nl +:+ "Timestamp: " +:+ isoformat env t in
  try_except any_Exception (boto3_client ;; save_log error_log "error") (fun _ => ret tt) ;;
  ret (error_response message).

Definition lambda_handler : M value :=
  start_time <- now ;;
  try_except2
    (monitoring start_time)
    is_SATMonitorError
    (fun e => report "Error en monitoreo SAT: " e (exn_str e))
    any_Exception
    (fun e => report "Error inesperado: " e "Error interno del servidor").

End Program.

(** ** A small world to run the program in *)

Module Scenario.

(** Stand-ins for the library functions, right on the inputs used below:
    ASCII text, references that are absolute paths, URLs without a query. *)
Definition lower_ascii (a : ascii) : ascii :=
  let n := nat_of_ascii a in
  if (65 <=? n)%nat && (n <=? 90)%nat then ascii_of_nat (n + 32) else a.

Fixpoint lowercase (s : string) : string :=
  match s with
  | EmptyString => ""
  | String a s' => String (lower_ascii a) (lowercase s')
  end.

Definition host : string := "http://omawww.sat.gob.mx".

Definition join_url (base href : string) : result string :=
  if String.prefix "http://[" href && negb (Str.contains "]" href)
  then Raise (OtherException "Invalid IPv6 URL")
  else Ok (if String.prefix "http" href then href else host +:+ href).

Definition url_path (u : string) : string :=
  String.substring (String.length host) (String.length u - String.length host) u.

(** The world: the anchors of the page, how many requests fail before the
    server answers, whether the mail server and the disk work.  Every
    document carries the same text. *)
Definition world (anchors : list (option string)) (failures : nat)
    (mail_ok disk_ok : bool) : Env :=
  {| environ := fun var => Some ("value of " +:+ var);
     http_get := fun tr u =>
       if (count KGet tr <? failures)%nat then HttpRaise (RequestException "timed out")
       else HttpAnswer {| status_code := 200; reason := "OK"; text := "<html>";
                          content := "Cambios al Anexo 20 y al cfdi 4.0" |};
     client_fault := fun _ => None;
     s3_fault := fun _ _ => None;
     mkstemp := fun tr => "/tmp/tmp" +:+ pretty (length tr);
     write_fault := fun _ _ =>
       if disk_ok then None else Some (OtherException "[Errno 28] No space left on device");
     smtp_fault := fun _ _ _ =>
       if mail_ok then None else Some (OtherException "(535, b'5.7.8 Username and Password not accepted')");
     clock := fun tr => Z.of_nat (length tr);
     isoformat := pretty;
     strftime := fun _ t => pretty t;
     format_2f := pretty;
     repr_list := fun l => "[" +:+ Str.join ", " l +:+ "]";
     lower := lowercase;
     urljoin := join_url;
     urlparse_path := url_path;
     find_all_a := fun _ => Ok anchors;
     pdf_pages := fun data => Some [PageText data] |}.

(** The state a run starts in, over the bucket [b]. *)
Definition start (b : gmap string string) : State :=
  {| trace := []; bucket := b; disk := ∅; updates := [] |}.

(** Twenty-five references to documents, and one to something else. *)
Definition anchors25 : list (option string) :=
  map (fun i => Some ("/boletin/b" +:+ pretty i +:+ ".pdf")) (seq 1 25).

Definition anchors2 : list (option string) :=
  [Some "/boletin/a.pdf"; None; Some "/boletin/b.PDF"; Some "/boletin/c.pdf"].

(** A bucket with the markers of the two documents of [anchors2]. *)
Definition marked2 : gmap string string :=
  <[processed_key (host +:+ "/boletin/a.pdf") := "Procesado"]>
    (<[processed_key (host +:+ "/boletin/c.pdf") := "Procesado"]> ∅).

(** The links [scrape_boletines] makes of [anchors2]. *)
Definition links2 : list string :=
  [host +:+ "/boletin/a.pdf"; host +:+ "/boletin/c.pdf"].

End Scenario.

(** ** Further notions *)

(** The variables [validate_environment] asks for. *)
Definition required_vars : list string :=
  ["S3_BUCKET"; "EMAIL_SENDER"; "EMAIL_RECIPIENT"; "EMAIL_PASSWORD"].

(** A variable that is set, and not to the empty string. *)
Definition is_set (env : Env) (var : string) : Prop :=
  exists v, environ env var = Some v /\ v <> "".

(** What [send_email] adds to the plain body and to the HTML body for one
    entry, and what it puts around the blocks. *)
Definition text_header : string :=
  "Se encontraron actualizaciones en los boletines técnicos del SAT:" +:+ nl +:+ nl.

Definition text_block (update : Update) : string :=
  "- " +:+ pdf update +:+ ": " +:+ Str.join ", " (keywords update) +:+ nl
  +:+ "  URL: " +:+ url update +:+ nl
  +:+ "  Procesado: " +:+ processed_at update +:+ nl +:+ nl.

Definition html_header : string :=
  nl +:+ "        <html>" +:+ nl
  +:+ "        <body>" +:+ nl
  +:+ "            <h2>Actualizaciones en Boletines Técnicos del SAT</h2>" +:+ nl
  +:+ "            <p>Se encontraron las siguientes actualizaciones:</p>" +:+ nl
  +:+ "            <ul>" +:+ nl
  +:+ "        ".

Definition html_block (update : Update) : string :=
  nl +:+ "                <li>" +:+ nl
  +:+ "                    <strong>" +:+ pdf update +:+ "</strong><br>" +:+ nl
  +:+ "                    Palabras clave: " +:+ Str.join ", " (keywords update) +:+ "<br>" +:+ nl
  +:+ "                    <a href=" +:+ String (ascii_of_nat 34) "" +:+ url update
  +:+ String (ascii_of_nat 34) "" +:+ ">Ver documento</a><br>" +:+ nl
  +:+ "                    Procesado: " +:+ processed_at update +:+ nl
  +:+ "                </li>" +:+ nl
  +:+ "            ".

Definition html_footer : string :=
  nl +:+ "            </ul>" +:+ nl
  +:+ "        </body>" +:+ nl
  +:+ "        </html>" +:+ nl
  +:+ "        ".

(** The blocks of a list of entries, one after the other. *)
Definition all_blocks (block : Update -> string) (ups : list Update) : string :=
  fold_right (fun update rest => block update +:+ rest) "" ups.

(** The key under which the document of [u] is archived on [day]. *)
Definition archive_key (env : Env) (day u : string) : string :=
  "boletines/" +:+ day +:+ "/" +:+ pdf_name_of env u.

(** The entry [analyze_pdfs] makes for the link [u] when [text] has
    keywords and the clock says [t]. *)
Definition entry (env : Env) (u text : string) (t : Z) : Update :=
  {| pdf := pdf_name_of env u;
     keywords := find_keywords (lower env) KEYWORDS text [];
     url := u;
     processed_at := isoformat env t |}.

(** The list [l'] is [l], or [l] and the entry of [u] for a text with
    keywords. *)
Definition adds_entry (env : Env) (u : string) (l l' : list Update) : Prop :=
  l' = l
  \/ exists text t, l' = l ++ [entry env u text t]
                    /\ find_keywords (lower env) KEYWORDS text [] <> [].

(** The bucket [b'] is [b], or it has the archive of [u]. *)
Definition archives (env : Env) (u : string) (b b' : gmap string string) : Prop :=
  b' = b \/ exists day data, b' !! archive_key env day u = Some data.

(** The [finally] block of the loop body. *)
Definition cleanup (tmp_path : string) : M unit :=
  there <- path_exists tmp_path ;;
  if there : bool then unlink tmp_path else ret tt.

(** The text [extract_text_from_pdf] gets out of the bytes [data]. *)
Definition text_of (env : Env) (data : string) : string :=
  match pdf_pages env data with
  | Some pages => Str.join " " (omap good_text pages)
  | None => ""
  end.

(** The entries a text gives rise to at time [t]: one if it has keywords. *)
Definition entries (env : Env) (u text : string) (t : Z) : list Update :=
  match find_keywords (lower env) KEYWORDS text [] with
  | [] => []
  | _ => [entry env u text t]
  end.

(** The calls a whole run may cost. *)
Definition run_budget (k : kind) : nat :=
  match k with
  | KGet => 33
  | KSleep => 22
  | KHead => 10
  | KPut => 11
  | KUpload => 10
  | KTmpCreate => 10
  | KTmpWrite => 10
  | KUnlink => 10
  | KSendmail => 1
  | KNow => 34
  end.

(** More worlds: one without the mail settings, one where the documents
    have no text, one where the server is down. *)
Module Worlds.

Definition with_environ (environ : string -> option string) (W : Env) : Env :=
  {| environ := environ;
     http_get := http_get W;
     client_fault := client_fault W;
     s3_fault := s3_fault W;
     mkstemp := mkstemp W;
     write_fault := write_fault W;
     smtp_fault := smtp_fault W;
     clock := clock W;
     isoformat := isoformat W;
     strftime := strftime W;
     format_2f := format_2f W;
     repr_list := repr_list W;
     lower := lower W;
     urljoin := urljoin W;
     urlparse_path := urlparse_path W;
     find_all_a := find_all_a W;
     pdf_pages := pdf_pages W |}.

Definition with_pdf_pages (pdf_pages : string -> option (list page)) (W : Env) : Env :=
  {| environ := environ W;
     http_get := http_get W;
     client_fault := client_fault W;
     s3_fault := s3_fault W;
     mkstemp := mkstemp W;
     write_fault := write_fault W;
     smtp_fault := smtp_fault W;
     clock := clock W;
     isoformat := isoformat W;
     strftime := strftime W;
     format_2f := format_2f W;
     repr_list := repr_list W;
     lower := lower W;
     urljoin := urljoin W;
     urlparse_path := urlparse_path W;
     find_all_a := find_all_a W;
     pdf_pages := pdf_pages |}.

Definition plain : Env := Scenario.world Scenario.anchors2 0 true true.

Definition no_password : Env :=
  with_environ (fun var => if String.eqb var "EMAIL_PASSWORD" then Some ""
                           else if String.eqb var "EMAIL_SENDER" then None
                           else Some "set") plain.

Definition scanned : Env := with_pdf_pages (fun _ => Some [PageText ""]) plain.

Definition with_http_get (http_get : list event -> string -> http_outcome) (W : Env) : Env :=
  {| environ := environ W;
     http_get := http_get;
     client_fault := client_fault W;
     s3_fault := s3_fault W;
     mkstemp := mkstemp W;
     write_fault := write_fault W;
     smtp_fault := smtp_fault W;
     clock := clock W;
     isoformat := isoformat W;
     strftime := strftime W;
     format_2f := format_2f W;
     repr_list := repr_list W;
     lower := lower W;
     urljoin := urljoin W;
     urlparse_path := urlparse_path W;
     find_all_a := find_all_a W;
     pdf_pages := pdf_pages W |}.

(** The answer of the run over the twenty-five documents of
    [Scenario.anchors25]. *)
Definition answer25 : value :=
  VDict [("statusCode", VInt 200);
         ("body", VDict [("status", VStr "success");
                         ("updates_found", VInt 10);
                         ("pdfs_analyzed", VInt 25);
                         ("execution_time", VSeconds 103)])].

(** The page as the server of [plain] sends it. *)
Definition page : Response :=
  {| status_code := 200; reason := "OK"; text := "<html>";
     content := "Cambios al Anexo 20 y al cfdi 4.0" |}.

Definition with_s3_fault (s3_fault : list event -> event -> option exn) (W : Env) : Env :=
  {| environ := environ W;
     http_get := http_get W;
     client_fault := client_fault W;
     s3_fault := s3_fault;
     mkstemp := mkstemp W;
     write_fault := write_fault W;
     smtp_fault := smtp_fault W;
     clock := clock W;
     isoformat := isoformat W;
     strftime := strftime W;
     format_2f := format_2f W;
     repr_list := repr_list W;
     lower := lower W;
     urljoin := urljoin W;
     urlparse_path := urlparse_path W;
     find_all_a := find_all_a W;
     pdf_pages := pdf_pages W |}.

(** Uploads are refused; the other calls of S3 go through. *)
Definition no_upload : Env :=
  with_s3_fault (fun _ call =>
                   match call with
                   | EvUpload _ _ => Some (OtherException "S3UploadFailedError")
                   | _ => None
                   end) plain.

Definition with_client_fault (client_fault : list event -> option exn) (W : Env) : Env :=
  {| environ := environ W;
     http_get := http_get W;
     client_fault := client_fault;
     s3_fault := s3_fault W;
     mkstemp := mkstemp W;
     write_fault := write_fault W;
     smtp_fault := smtp_fault W;
     clock := clock W;
     isoformat := isoformat W;
     strftime := strftime W;
     format_2f := format_2f W;
     repr_list := repr_list W;
     lower := lower W;
     urljoin := urljoin W;
     urlparse_path := urlparse_path W;
     find_all_a := find_all_a W;
     pdf_pages := pdf_pages W |}.

(** No region is configured: the S3 client cannot be built. *)
Definition no_client : Env :=
  with_client_fault (fun _ => Some (OtherException "You must specify a region.")) plain.



(** The server is down for good. *)
Definition offline : Env :=
  with_http_get (fun _ _ => HttpRaise (RequestException "timed out")) plain.

End Worlds.

Lemma prefix_spec (p s : string) :
  String.prefix p s = true <-> exists post, s = p +:+ post.
Proof.
  revert s. induction p as [|a p IH]; intros s.
  - split; [intros _; exists s; reflexivity | intros _; by destruct s].
  - destruct s as [|b s]; simpl.
    + split; [discriminate | intros [post H]; discriminate].
    + destruct (ascii_dec a b) as [->|Hne].
      * rewrite IH. split; intros [post H]; exists post; [by rewrite H | by injection H].
      * split; [discriminate | intros [post H]; injection H; congruence].
Qed.

Lemma contains_cons (needle : string) (a : ascii) (hay : string) :
  Str.contains needle (String a hay)
  = String.prefix needle (String a hay) || Str.contains needle hay.
Proof. reflexivity. Qed.

Lemma contains_spec (needle hay : string) :
  Str.contains needle hay = true <-> exists pre post, hay = pre +:+ needle +:+ post.
Proof.
  induction hay as [|a hay IH].
  - change (Str.contains needle "") with (String.prefix needle "" || false).
    rewrite orb_false_r, prefix_spec. split.
    + intros [post H]. exists "", post. exact H.
    + intros (pre & post & H). destruct pre; simpl in H; [eauto | discriminate].
  - rewrite contains_cons, orb_true_iff, prefix_spec, IH. split.
    + intros [[post H] | (pre & post & H)].
      * exists "", post. exact H.
      * exists (String a pre), post. simpl. by rewrite H.
    + intros (pre & post & H). destruct pre as [|b pre]; simpl in H.
      * left. eauto.
      * right. injection H as _ H. eauto.
Qed.



(** ** Pure loops *)

Lemma find_keywords_acc (lower : string -> string) (kws : list string) (text : string)
    (acc : list string) :
  find_keywords lower kws text acc
  = (acc ++ List.filter (fun k => Str.contains (lower k) (lower text)) kws)%list.
Proof.
  revert acc. induction kws as [|k kws IH]; intros acc; simpl.
  - by rewrite app_nil_r.
  - destruct (Str.contains (lower k) (lower text)); rewrite IH; [|done].
    by rewrite <- app_assoc.
Qed.



(** ** Text extraction *)

Lemma extract_pages_run (pages : list page) (acc : list string) (s : State) :
  extract_pages pages acc s = (Ok (acc ++ omap good_text pages)%list, s).
Proof.
  revert acc. induction pages as [|p pages IH]; intros acc.
  - simpl. unfold ret. by rewrite app_nil_r.
  - cbn [extract_pages]. unfold bind at 1.
    assert (Hp : try_except any_Exception
              (page_text <- extract_text p ;;
               if Str.truthy page_text then ret (acc ++ [page_text])%list else ret acc)
              (fun _ => ret acc) s
            = (Ok (acc ++ from_option (fun t => [t]) [] (good_text p))%list, s)).
    { destruct p as [t|e]; unfold try_except, bind, extract_text, ret, raise; simpl.
      - destruct (Str.truthy t); simpl; [done | by rewrite app_nil_r].
      - by rewrite app_nil_r. }
    rewrite Hp, IH. f_equal. f_equal. rewrite <- app_assoc. f_equal.
    simpl. by destruct (good_text p).
Qed.

Lemma extract_text_from_pdf_run (env : Env) (pdf_path : string) (s : State) :
  extract_text_from_pdf env pdf_path s
  = (Ok match disk s !! pdf_path with
        | Some data =>
            match pdf_pages env data with
            | Some pages => Str.join " " (omap good_text pages)
            | None => ""
            end
        | None => ""
        end, s).
Proof.
  unfold extract_text_from_pdf, try_except, bind at 1, open_rb, bind at 1, get_state.
  destruct (disk s !! pdf_path) as [data|]; [|reflexivity].
  unfold ret at 1, bind at 1, PdfReader.
  destruct (pdf_pages env data) as [pages|]; [|reflexivity].
  unfold ret at 1, bind. by rewrite extract_pages_run.
Qed.

Lemma file_already_processed_run (env : Env) (pdf_url : string) (s : State) :
  let key := processed_key pdf_url in
  file_already_processed env pdf_url s
  = (match s3_fault env (trace s) (EvHead key) with
     | None => Ok (bool_decide (is_Some (bucket s !! key)))
     | Some e =>
         if is_ClientError e && String.eqb (error_code e) "404" then Ok false else Raise e
     end,
     log_event (EvHead key) s).
Proof.
  intros key. unfold file_already_processed, try_except, bind at 1, head_object.
  fold (processed_key pdf_url). fold key. unfold bind at 1, s3_call.
  destruct (s3_fault env (trace s) (EvHead key)) as [e|].
  - destruct e; simpl; try reflexivity.
    by destruct (String.eqb code "404").
  - unfold bind, get_state. cbn [bucket log_event].
    by destruct (bucket s !! key) as [body|].
Qed.

Lemma filter_sublist {A} (f : A -> bool) (l : list A) : sublist (List.filter f l) l.
Proof.
  induction l as [|x l IH]; simpl; [constructor|].
  destruct (f x); by constructor.
Qed.

Lemma filter_count_occ (f : string -> bool) (l : list string) (k : string) :
  count_occ string_dec (List.filter f l) k <= count_occ string_dec l k.
Proof.
  induction l as [|x l IH]; simpl; [lia|].
  destruct (f x); simpl; destruct (string_dec x k); lia.
Qed.

Lemma find_keywords_filter (lower : string -> string) (kws : list string) (text : string) :
  let found := find_keywords lower kws text [] in
  found = List.filter (fun k => Str.contains (lower k) (lower text)) kws
  /\ (forall k, In k found <->
                In k kws /\ exists pre post, lower text = pre +:+ lower k +:+ post)
  /\ sublist found kws
  /\ (forall k, count_occ string_dec found k <= count_occ string_dec kws k)
  /\ NoDup (find_keywords lower KEYWORDS text [])
  /\ (found = [] <-> forall k, In k kws -> Str.contains (lower k) (lower text) = false).
Proof.
  intros found. unfold found. rewrite !find_keywords_acc, !app_nil_l.
  split; [done|]. split; [|split; [|split; [|split]]].
  - intros k. rewrite filter_In, contains_spec. done.
  - apply filter_sublist.
  - apply filter_count_occ.
  - apply (sublist_NoDup _ KEYWORDS); [|apply filter_sublist].
    apply (bool_decide_unpack (NoDup KEYWORDS)). by vm_compute.
  - split.
    + intros Hnil k Hk. destruct (Str.contains (lower k) (lower text)) eqn:Hc; [|done].
      assert (In k []) as []. rewrite <- Hnil. apply filter_In. done.
    + intros Hall. induction kws as [|k kws IH]; [done|]. simpl.
      rewrite Hall by (by left). apply IH. intros k' Hk'. apply Hall. by right.
Qed.

(** ** States and traces *)

Lemma log_event_add (e : event) (s : State) : log_event e s = add_events [e] s.
Proof. reflexivity. Qed.

Lemma add_events_nil (s : State) : add_events [] s = s.
Proof. destruct s. unfold add_events. simpl. by rewrite app_nil_r. Qed.

Lemma add_events_app (e1 e2 : list event) (s : State) :
  add_events e2 (add_events e1 s) = add_events (e1 ++ e2) s.
Proof. unfold add_events. simpl. by rewrite app_assoc. Qed.

Lemma retry_trace_S (u : string) (k : nat) :
  retry_trace u (S k) = [EvGet u; EvSleep RETRY_DELAY] ++ retry_trace u k.
Proof. reflexivity. Qed.

Lemma boto3_client_state (env : Env) (s : State) : snd (boto3_client env s) = s.
Proof. unfold boto3_client. by destruct (client_fault env (trace s)). Qed.

Lemma boto3_client_run (env : Env) (s : State) :
  boto3_client env s
  = (match client_fault env (trace s) with Some e => Raise e | None => Ok tt end, s).
Proof. unfold boto3_client. by destruct (client_fault env (trace s)). Qed.

Lemma lift_run {A} (r : result A) (s : State) : lift r s = (r, s).
Proof. reflexivity. Qed.

(** ** The retry loop *)

(** One pass through the [try] of the loop. *)
Lemma attempt_run (env : Env) (u : string) (s : State) :
  (response <- requests_get env u ;; raise_for_status u response ;; ret (Some response)) s
  = (match attempt_outcome env (trace s) u with
     | Ok response => Ok (Some response)
     | Raise e => Raise e
     end, add_events [EvGet u] s).
Proof.
  unfold bind, requests_get, attempt_outcome, raise_for_status.
  destruct (http_get env (trace s) u) as [response|e]; [|done].
  by destruct (http_error u response).
Qed.

Lemma sleep_then {A} (seconds : Z) (c : M A) (s : State) :
  (sleep seconds ;; c) s = c (add_events [EvSleep seconds] s).
Proof. reflexivity. Qed.

Lemma retry_loop_run (env : Env) (u : string) (n i : nat) (s : State) :
  exists k : nat,
    k <= n
    /\ snd (retry_loop env u (Z.of_nat (i + S n)) (map Z.of_nat (seq i (S n))) s)
       = add_events (retry_trace u k ++ [EvGet u]) s
    /\ (forall j, j < k ->
          exists msg, attempt_outcome env (trace s ++ retry_trace u j) u
                      = Raise (RequestException msg))
    /\ match attempt_outcome env (trace s ++ retry_trace u k) u with
       | Ok response =>
           fst (retry_loop env u (Z.of_nat (i + S n)) (map Z.of_nat (seq i (S n))) s)
           = Ok (Some response)
       | Raise (RequestException msg) =>
           k = n
           /\ fst (retry_loop env u (Z.of_nat (i + S n)) (map Z.of_nat (seq i (S n))) s)
              = Raise (download_error u (Z.of_nat (i + S n)) (RequestException msg))
       | Raise e =>
           fst (retry_loop env u (Z.of_nat (i + S n)) (map Z.of_nat (seq i (S n))) s)
           = Raise e
       end.
Proof.
  revert i s. induction n as [|n IH]; intros i s.
  - exists 0. split; [lia|].
    cbn [seq map retry_loop]. unfold try_except. rewrite attempt_run.
    unfold retry_trace. cbn [replicate concat]. rewrite app_nil_r. cbn [app].
    replace (Z.of_nat i =? Z.of_nat (i + 1) - 1)%Z with true by (symmetry; apply Z.eqb_eq; lia).
    split; [|split; [intros j Hj; lia|]].
    + by destruct (attempt_outcome env (trace s) u) as [response|[]].
    + by destruct (attempt_outcome env (trace s) u) as [response|[]].
  - change (map Z.of_nat (seq i (S (S n))))
      with (Z.of_nat i :: map Z.of_nat (seq (S i) (S n))).
    specialize (IH (S i)). replace (S i + S n) with (i + S (S n)) in IH by lia.
    remember (map Z.of_nat (seq (S i) (S n))) as rest eqn:Hrest.
    remember (Z.of_nat (i + S (S n))) as max_retries eqn:Hmax.
    cbn [retry_loop]. unfold try_except. rewrite attempt_run.
    destruct (attempt_outcome env (trace s) u) as [response|e] eqn:Hout.
    { exists 0. unfold retry_trace. cbn [replicate concat]. rewrite app_nil_r, Hout.
      split_and!; [lia | done | intros j Hj; lia | done]. }
    destruct (is_RequestException e) eqn:Hcls.
    2:{ exists 0. unfold retry_trace. cbn [replicate concat]. rewrite app_nil_r, Hout.
        split_and!; [lia | done | intros j Hj; lia |]. by destruct e. }
    destruct e as [m|msg|c m|m]; try discriminate.
    replace (Z.of_nat i =? max_retries - 1)%Z with false
      by (symmetry; apply Z.eqb_neq; lia).
    rewrite sleep_then, add_events_app.
    destruct (IH (add_events ([EvGet u] ++ [EvSleep RETRY_DELAY]) s))
      as (k & Hk & Hsnd & Hbefore & Hres).
    exists (S k). rewrite retry_trace_S.
    cbn [trace add_events] in Hbefore, Hres.
    change ([EvGet u] ++ [EvSleep RETRY_DELAY]) with [EvGet u; EvSleep RETRY_DELAY] in *.
    split_and!.
    + lia.
    + by rewrite Hsnd, add_events_app.
    + intros [|j] Hj.
      * unfold retry_trace. cbn [replicate concat]. rewrite app_nil_r. eauto.
      * rewrite retry_trace_S. destruct (Hbefore j) as [m' Hm']; [lia|].
        exists m'. rewrite <- Hm'. f_equal. by rewrite <- !app_assoc.
    + rewrite app_assoc.
      destruct (attempt_outcome env ((trace s ++ [EvGet u; EvSleep RETRY_DELAY]) ++ retry_trace u k) u)
        as [response|[m'|msg'|c' m'|m']]; try done.
      destruct Hres as [-> Hres]. done.
Qed.

Lemma range_pos (n : Z) :
  (1 <= n)%Z -> range n = map Z.of_nat (seq 0 (S (Z.to_nat n - 1))).
Proof. intros Hn. unfold range. do 2 f_equal. lia. Qed.

Lemma get_with_retries_none (env : Env) (u : string) (max_retries : Z) (s : State) :
  (max_retries <= 0)%Z -> get_with_retries env u max_retries s = (Ok None, s).
Proof.
  intros Hn. unfold get_with_retries, range.
  replace (Z.to_nat max_retries) with 0 by lia. reflexivity.
Qed.

(** C7: with [max_retries] at least 1, [get_with_retries] makes at most
    [max_retries] requests for the URL, with a pause of [RETRY_DELAY]
    seconds, always the same, after each one that failed but the last.  The
    requests before the last one failed with a [RequestException].  When
    the last one succeeded its response is returned; when it failed with a
    [RequestException] it was request number [max_retries], and a
    [SATMonitorError] is raised whose message has the URL, [max_retries]
    and the text of that last failure; an exception of another class is
    raised as it is. *)
Theorem get_with_retries_spec (env : Env) (u : string) (max_retries : Z) (s : State) :
  (1 <= max_retries)%Z ->
  exists k : nat,
    (Z.of_nat k < max_retries)%Z
    /\ snd (get_with_retries env u max_retries s)
       = add_events (retry_trace u k ++ [EvGet u]) s
    /\ (forall j, j < k ->
          exists msg, attempt_outcome env (trace s ++ retry_trace u j) u
                      = Raise (RequestException msg))
    /\ match attempt_outcome env (trace s ++ retry_trace u k) u with
       | Ok response =>
           fst (get_with_retries env u max_retries s) = Ok (Some response)
       | Raise (RequestException msg) =>
           Z.of_nat k = (max_retries - 1)%Z
           /\ fst (get_with_retries env u max_retries s)
              = Raise (SATMonitorError
                         ("Error al descargar " +:+ u +:+ " después de "
                          +:+ pretty max_retries +:+ " intentos: " +:+ msg))
       | Raise e => fst (get_with_retries env u max_retries s) = Raise e
       end.
Proof.
  intros Hn. unfold get_with_retries. rewrite (range_pos _ Hn).
  destruct (retry_loop_run env u (Z.to_nat max_retries - 1) 0 s)
    as (k & Hk & Hsnd & Hbefore & Hres).
  replace (Z.of_nat (0 + S (Z.to_nat max_retries - 1))) with max_retries in * by lia.
  exists k. split_and!; [lia | done | done |].
  destruct (attempt_outcome env (trace s ++ retry_trace u k) u)
    as [response|[m|msg|c m|m]]; try done.
  destruct Hres as [-> Hres]. split; [lia | done].
Qed.

(** ** What a computation may call *)

Lemma count_nil (k : kind) : count k [] = 0.
Proof. reflexivity. Qed.

Lemma count_app (k : kind) (e1 e2 : list event) :
  count k (e1 ++ e2) = count k e1 + count k e2.
Proof. unfold count. by rewrite List.filter_app, length_app. Qed.

Lemma count_one (k : kind) (e : event) :
  count k [e] = if kind_eqb (kind_of e) k then 1 else 0.
Proof. unfold count. simpl. by destruct (kind_eqb (kind_of e) k). Qed.

Section Costs.

Context {about : event -> Prop}.

Lemma costs_weaken {A} (b b' : kind -> nat) (c : M A) :
  costs about b c -> (forall k, b k <= b' k) -> costs about b' c.
Proof.
  intros Hc Hle s. destruct (Hc s) as (evs & Ht & Ha & Hb).
  exists evs. split_and!; [done | done |]. intros k. specialize (Hb k). specialize (Hle k). lia.
Qed.

Lemma costs_silent {A} (c : M A) :
  (forall s, trace (snd (c s)) = trace s) -> costs about bzero c.
Proof.
  intros H s. exists []. rewrite H, app_nil_r. split_and!; [done | constructor |].
  intros k. unfold bzero. by rewrite count_nil.
Qed.

Lemma costs_ret {A} (a : A) : costs about bzero (ret a).
Proof. by apply costs_silent. Qed.

Lemma costs_raise {A} (e : exn) : costs about bzero (@raise A e).
Proof. by apply costs_silent. Qed.

Lemma costs_one {A} (e : event) (c : M A) :
  about e -> (forall s, trace (snd (c s)) = trace s ++ [e]) -> costs about (bone (kind_of e)) c.
Proof.
  intros He H s. exists [e]. split_and!; [done | by repeat constructor |].
  intros k. by rewrite count_one.
Qed.

Lemma costs_bind {A B} (b1 b2 : kind -> nat) (c : M A) (k : A -> M B) :
  costs about b1 c -> (forall a, costs about b2 (k a)) -> costs about (bplus b1 b2) (bind c k).
Proof.
  intros Hc Hk s. unfold bind.
  destruct (Hc s) as (e1 & Ht1 & Ha1 & Hb1).
  destruct (c s) as [[a|e] s1]; simpl in Ht1.
  - destruct (Hk a s1) as (e2 & Ht2 & Ha2 & Hb2).
    exists (e1 ++ e2). split_and!.
    + by rewrite Ht2, Ht1, app_assoc.
    + by apply Forall_app.
    + intros k0. rewrite count_app. specialize (Hb1 k0). specialize (Hb2 k0).
      unfold bplus. lia.
  - exists e1. split_and!; [done | done |].
    intros k0. specialize (Hb1 k0). unfold bplus. lia.
Qed.

Lemma costs_try_except {A} (b1 b2 : kind -> nat) (cls : exn -> bool)
    (c : M A) (h : exn -> M A) :
  costs about b1 c -> (forall e, costs about b2 (h e)) -> costs about (bplus b1 b2) (try_except cls c h).
Proof.
  intros Hc Hh s. unfold try_except.
  destruct (Hc s) as (e1 & Ht1 & Ha1 & Hb1).
  destruct (c s) as [[a|e] s1]; simpl in Ht1.
  - exists e1. split_and!; [done | done |].
    intros k0. specialize (Hb1 k0). unfold bplus. lia.
  - destruct (cls e).
    + destruct (Hh e s1) as (e2 & Ht2 & Ha2 & Hb2).
      exists (e1 ++ e2). split_and!.
      * by rewrite Ht2, Ht1, app_assoc.
      * by apply Forall_app.
      * intros k0. rewrite count_app. specialize (Hb1 k0). specialize (Hb2 k0).
        unfold bplus. lia.
    + exists e1. split_and!; [done | done |].
      intros k0. specialize (Hb1 k0). unfold bplus. lia.
Qed.

Lemma costs_try_finally {A} (b1 b2 : kind -> nat) (c : M A) (f : M unit) :
  costs about b1 c -> costs about b2 f -> costs about (bplus b1 b2) (try_finally c f).
Proof.
  intros Hc Hf s. unfold try_finally.
  destruct (Hc s) as (e1 & Ht1 & Ha1 & Hb1).
  destruct (c s) as [r s1]; simpl in Ht1.
  destruct (Hf s1) as (e2 & Ht2 & Ha2 & Hb2).
  exists (e1 ++ e2). split_and!.
  - destruct (f s1) as [[[]|e] s2]; simpl in *; by rewrite Ht2, Ht1, app_assoc.
  - by apply Forall_app.
  - intros k0. rewrite count_app. specialize (Hb1 k0). specialize (Hb2 k0).
    unfold bplus. lia.
Qed.

Lemma costs_if {A} (b : kind -> nat) (x : bool) (c1 c2 : M A) :
  costs about b c1 -> costs about b c2 -> costs about b (if x then c1 else c2).
Proof. by destruct x. Qed.

Lemma costs_if_ret_l {A} (b : kind -> nat) (x : bool) (a : A) (c : M A) :
  costs about b c -> costs about b (if x then ret a else c).
Proof.
  intros Hc. apply costs_if; [|done].
  eapply costs_weaken; [apply costs_ret | intros k; unfold bzero; lia].
Qed.

Lemma costs_if_ret_r {A} (b : kind -> nat) (x : bool) (a : A) (c : M A) :
  costs about b c -> costs about b (if x then c else ret a).
Proof.
  intros Hc. apply costs_if; [done|].
  eapply costs_weaken; [apply costs_ret | intros k; unfold bzero; lia].
Qed.

End Costs.

(** ** The calls of each operation *)

Section Calls.

Variable env : Env.
Variable about : event -> Prop.

Lemma now_costs : about EvNow -> costs about (bone KNow) (now env).
Proof. intros H. by apply (costs_one EvNow). Qed.

Lemma s3_call_costs (call : event) :
  about call -> costs about (bone (kind_of call)) (s3_call env call).
Proof.
  intros H. apply costs_one; [done|]. intros s. unfold s3_call.
  by destruct (s3_fault env (trace s) call).
Qed.

Lemma modify_costs (f : State -> State) :
  (forall s, trace (f s) = trace s) -> costs about bzero (modify f).
Proof. intros H. by apply costs_silent. Qed.

Lemma boto3_client_costs : costs about bzero (boto3_client env).
Proof. apply costs_silent. intros s. by rewrite boto3_client_state. Qed.

Lemma head_object_costs (key : string) :
  about (EvHead key) -> costs about (bone KHead) (head_object env key).
Proof.
  intros H. eapply costs_weaken.
  - unfold head_object. eapply costs_bind; [by apply s3_call_costs|]. intros _.
    eapply costs_bind; [by apply costs_silent|]. intros s'.
    destruct (bucket s' !! key); [apply costs_ret | apply costs_raise].
  - intros k. unfold bplus, bzero. simpl. lia.
Qed.

Lemma put_object_costs (key body : string) :
  about (EvPut key body) -> costs about (bone KPut) (put_object env key body).
Proof.
  intros H. eapply costs_weaken.
  - unfold put_object. eapply costs_bind; [by apply s3_call_costs|]. intros _.
    by apply modify_costs.
  - intros k. unfold bplus, bzero. simpl. lia.
Qed.

Lemma upload_file_costs (path key : string) :
  about (EvUpload path key) -> costs about (bone KUpload) (upload_file env path key).
Proof.
  intros H. eapply costs_weaken.
  - unfold upload_file. eapply costs_bind; [by apply costs_silent|]. intros s'.
    destruct (disk s' !! path) as [data|].
    + eapply costs_bind; [by apply s3_call_costs|]. intros _. by apply modify_costs.
    + eapply costs_weaken; [apply costs_raise|]. intros k. unfold bzero. lia.
  - intros k. unfold bplus, bzero. simpl. lia.
Qed.

Lemma NamedTemporaryFile_costs (suffix : string) :
  (forall path, about (EvTmpCreate path)) ->
  costs about (bone KTmpCreate) (NamedTemporaryFile env suffix).
Proof.
  intros H s. unfold NamedTemporaryFile.
  destruct (disk s !! (mkstemp env (trace s) +:+ suffix)).
  - exists []. simpl. rewrite app_nil_r. split_and!; [done | constructor |].
    intros k. rewrite count_nil. lia.
  - eexists [_]. simpl. split_and!; [done | by repeat constructor |].
    intros k. by rewrite count_one.
Qed.

Lemma file_write_costs (path data : string) :
  about (EvTmpWrite path) -> costs about (bone KTmpWrite) (file_write env path data).
Proof.
  intros H. apply (costs_one (EvTmpWrite path)); [done|]. intros s. unfold file_write.
  by destruct (write_fault env (trace s) data).
Qed.

Lemma unlink_costs (path : string) :
  about (EvUnlink path) -> costs about (bone KUnlink) (unlink path).
Proof. intros H. by apply (costs_one (EvUnlink path)). Qed.

Lemma extract_text_from_pdf_costs (path : string) :
  costs about bzero (extract_text_from_pdf env path).
Proof. apply costs_silent. intros s. by rewrite extract_text_from_pdf_run. Qed.

Lemma attr_costs {A} (name : string) (f : Response -> A) (r : option Response) :
  costs about bzero (attr name f r).
Proof. destruct r; [apply costs_ret | apply costs_raise]. Qed.

Lemma file_already_processed_costs (u : string) :
  about (EvHead (processed_key u)) ->
  costs about (bone KHead) (file_already_processed env u).
Proof.
  intros H. apply (costs_one (EvHead (processed_key u))); [done|].
  intros s. by rewrite file_already_processed_run.
Qed.

Lemma mark_as_processed_costs (u : string) :
  about EvNow -> (forall body, about (EvPut (processed_key u) body)) ->
  costs about (bplus (bone KNow) (bone KPut)) (mark_as_processed env u).
Proof.
  intros Hn Hp. eapply costs_weaken.
  - unfold mark_as_processed. eapply costs_try_except; [|intros e; apply costs_ret].
    eapply costs_bind; [by apply now_costs|]. intros t. by apply put_object_costs.
  - intros k. unfold bplus, bzero. lia.
Qed.

Lemma count_retry_trace (k : kind) (u : string) (n : nat) :
  count k (retry_trace u n ++ [EvGet u])
  = match k with KGet => S n | KSleep => n | _ => 0 end.
Proof.
  induction n as [|n IH].
  - by destruct k.
  - rewrite retry_trace_S, <- app_assoc, count_app, IH. by destruct k.
Qed.

Lemma get_with_retries_costs (u : string) :
  about (EvGet u) -> (forall d, about (EvSleep d)) ->
  costs about (fun k => match k with KGet => 3 | KSleep => 2 | _ => 0 end)
        (get_with_retries env u MAX_RETRIES).
Proof.
  intros Hg Hs s. unfold get_with_retries.
  destruct (retry_loop_run env u 2 0 s) as (k & Hk & Hsnd & _).
  change (map Z.of_nat (seq 0 3)) with (range MAX_RETRIES) in Hsnd.
  change (Z.of_nat (0 + 3)) with MAX_RETRIES in Hsnd.
  exists (retry_trace u k ++ [EvGet u]). rewrite Hsnd. split_and!; [done | |].
  - apply Forall_app. split; [|by repeat constructor].
    clear Hsnd. induction k as [|k IH]; [constructor|].
    rewrite retry_trace_S. repeat constructor; [done | done |]. apply IH. lia.
  - intros k0. rewrite count_retry_trace. destruct k0; lia.
Qed.

End Calls.

(** ** The calls of one link and of the loop *)

Lemma analyze_link_costs (env : Env) (u : string) :
  costs (event_about env u) analyze_budget (analyze_link env u).
Proof.
  eapply costs_weaken.
  - unfold analyze_link.
    eapply costs_bind; [by apply get_with_retries_costs|]. intros pdf_response.
    eapply costs_bind; [by apply NamedTemporaryFile_costs|]. intros tmp_path.
    eapply costs_bind; [apply attr_costs|]. intros data.
    eapply costs_bind; [by apply file_write_costs|]. intros _.
    eapply costs_try_finally.
    + eapply costs_bind; [apply extract_text_from_pdf_costs|]. intros text.
      apply costs_if_ret_l.
      eapply costs_bind.
      * destruct (find_keywords (lower env) KEYWORDS text []).
        -- eapply costs_weaken; [apply costs_ret|].
           intros k. instantiate (1 := bone KNow). unfold bzero. lia.
        -- eapply costs_weaken.
           ++ eapply costs_bind; [by apply now_costs|]. intros t. by apply modify_costs.
           ++ intros k. unfold bplus, bzero. lia.
      * intros _. eapply costs_bind; [by apply now_costs|]. intros today.
        eapply costs_bind; [apply upload_file_costs; by eexists|]. intros _.
        by apply mark_as_processed_costs.
    + eapply costs_bind; [by apply costs_silent|]. intros there.
      apply costs_if_ret_r. by apply unlink_costs.
  - intros []; vm_compute; lia.
Qed.

Lemma process_link_costs (env : Env) (u : string) :
  costs (event_about env u) link_budget (process_link env u).
Proof.
  eapply costs_weaken.
  - unfold process_link.
    eapply costs_try_except; [|intros e; apply costs_ret].
    eapply costs_bind; [by apply file_already_processed_costs|]. intros already.
    apply costs_if_ret_l. apply analyze_link_costs.
  - intros []; vm_compute; lia.
Qed.

Lemma for_each_costs (env : Env) (links : list string) :
  costs (fun e => exists u, In u links /\ event_about env u e)
        (fun k => length links * link_budget k)
        (for_each links (process_link env)).
Proof.
  induction links as [|u links IH].
  - eapply costs_weaken; [apply costs_ret|]. intros k. unfold bzero. simpl. lia.
  - cbn [for_each]. eapply costs_weaken.
    + eapply costs_bind.
      * intros s. destruct (process_link_costs env u s) as (evs & Ht & Ha & Hb).
        exists evs. split_and!; [done | | exact Hb].
        eapply Forall_impl; [exact Ha|]. intros e He. exists u. split; [by left | done].
      * intros _ s. destruct (IH s) as (evs & Ht & Ha & Hb).
        exists evs. split_and!; [done | | exact Hb].
        eapply Forall_impl; [exact Ha|]. intros e (u' & Hin & He). exists u'. split; [by right | done].
    + intros k. unfold bplus. simpl. lia.
Qed.

Lemma analyze_pdfs_costs (env : Env) (pdf_links : list string) :
  costs (fun e => exists u, In u (take 10 pdf_links) /\ event_about env u e)
        (fun k => 10 * link_budget k)
        (analyze_pdfs env pdf_links).
Proof.
  eapply costs_weaken.
  - unfold analyze_pdfs.
    eapply costs_bind; [by apply modify_costs|]. intros _.
    eapply costs_bind; [apply boto3_client_costs|]. intros _.
    eapply costs_bind; [apply for_each_costs|]. intros _.
    eapply costs_bind; [by apply costs_silent|]. intros s. apply costs_ret.
  - intros k. unfold bplus, bzero.
    assert (length (take 10 pdf_links) <= 10) by (rewrite length_take; lia).
    nia.
Qed.

(** ** Relations between the state before and after *)

Section Steps.

Context (R : State -> State -> Prop) `{!PreOrder R}.

Lemma steps_same {A} (c : M A) : (forall s, snd (c s) = s) -> steps R c.
Proof. intros H s. by rewrite H. Qed.

Lemma steps_ret {A} (a : A) : steps R (ret a).
Proof. by apply steps_same. Qed.

Lemma steps_raise {A} (e : exn) : steps R (@raise A e).
Proof. by apply steps_same. Qed.

Lemma steps_bind {A B} (c : M A) (k : A -> M B) :
  steps R c -> (forall a, steps R (k a)) -> steps R (bind c k).
Proof.
  intros Hc Hk s. unfold bind. specialize (Hc s).
  destruct (c s) as [[a|e] s1]; [|done].
  etrans; [exact Hc | apply Hk].
Qed.

Lemma steps_try_except {A} (cls : exn -> bool) (c : M A) (h : exn -> M A) :
  steps R c -> (forall e, steps R (h e)) -> steps R (try_except cls c h).
Proof.
  intros Hc Hh s. unfold try_except. specialize (Hc s).
  destruct (c s) as [[a|e] s1]; [done|].
  destruct (cls e); [|done]. etrans; [exact Hc | apply Hh].
Qed.

Lemma steps_try_finally {A} (c : M A) (f : M unit) :
  steps R c -> steps R f -> steps R (try_finally c f).
Proof.
  intros Hc Hf s. unfold try_finally. specialize (Hc s).
  destruct (c s) as [r s1]. specialize (Hf s1).
  destruct (f s1) as [[[]|e] s2]; by etrans.
Qed.

Lemma steps_try_except2 {A} (c : M A) (cls1 : exn -> bool) (h1 : exn -> M A)
    (cls2 : exn -> bool) (h2 : exn -> M A) :
  steps R c -> (forall e, steps R (h1 e)) -> (forall e, steps R (h2 e)) ->
  steps R (try_except2 c cls1 h1 cls2 h2).
Proof.
  intros Hc H1 H2 s. unfold try_except2. specialize (Hc s).
  destruct (c s) as [[a|e] s1]; [done|].
  destruct (cls1 e); [etrans; [exact Hc | apply H1]|].
  destruct (cls2 e); [etrans; [exact Hc | apply H2] | done].
Qed.

Lemma steps_for_each {X} (xs : list X) (body : X -> M unit) :
  (forall x, steps R (body x)) -> steps R (for_each xs body).
Proof.
  intros Hb. induction xs as [|x xs IH]; [apply steps_ret|].
  cbn [for_each]. by apply steps_bind.
Qed.

Lemma steps_if {A} (x : bool) (c1 c2 : M A) :
  steps R c1 -> steps R c2 -> steps R (if x then c1 else c2).
Proof. by destruct x. Qed.

End Steps.

(** ** The entries of [updates] *)

Section Updates.

Variable env : Env.

#[local] Instance appends_matches_preorder : PreOrder (appends_matches env).
Proof.
  split.
  - intros s. exists []. by rewrite app_nil_r.
  - intros s1 s2 s3 (n1 & H1 & F1) (n2 & H2 & F2).
    exists (n1 ++ n2). split; [by rewrite H2, H1, app_assoc | by apply Forall_app].
Qed.

(** An operation that leaves [updates] alone. *)
Lemma steps_updates {A} (c : M A) :
  (forall s, updates (snd (c s)) = updates s) -> steps (appends_matches env) c.
Proof. intros H s. exists []. by rewrite H, app_nil_r. Qed.

Lemma get_with_retries_updates (u : string) (s : State) :
  updates (snd (get_with_retries env u MAX_RETRIES s)) = updates s.
Proof.
  unfold get_with_retries.
  destruct (retry_loop_run env u 2 0 s) as (k & _ & Hsnd & _).
  change (map Z.of_nat (seq 0 3)) with (range MAX_RETRIES) in Hsnd.
  change (Z.of_nat (0 + 3)) with MAX_RETRIES in Hsnd.
  by rewrite Hsnd.
Qed.

Lemma s3_call_updates (call : event) (s : State) :
  updates (snd (s3_call env call s)) = updates s.
Proof. unfold s3_call. by destruct (s3_fault env (trace s) call). Qed.

Lemma upload_file_updates (path key : string) (s : State) :
  updates (snd (upload_file env path key s)) = updates s.
Proof.
  unfold upload_file, bind, get_state. destruct (disk s !! path); [|done].
  unfold s3_call. by destruct (s3_fault env (trace s) (EvUpload path key)).
Qed.

Lemma mark_as_processed_updates (u : string) (s : State) :
  updates (snd (mark_as_processed env u s)) = updates s.
Proof.
  unfold mark_as_processed, try_except, bind, now, put_object, bind, s3_call.
  cbn [trace log_event].
  by destruct (s3_fault env _ _).
Qed.

Lemma analyze_link_appends (u : string) :
  steps (appends_matches env) (analyze_link env u).
Proof.
  unfold analyze_link.
  apply steps_bind; [apply _ | |].
  { apply steps_updates. apply get_with_retries_updates. }
  intros pdf_response. apply steps_bind; [apply _ | |].
  { apply steps_updates. intros s. unfold NamedTemporaryFile. by destruct (disk s !! _). }
  intros tmp_path. apply steps_bind; [apply _ | |].
  { apply steps_updates. intros s. by destruct pdf_response. }
  intros data. apply steps_bind; [apply _ | |].
  { apply steps_updates. intros s. unfold file_write. by destruct (write_fault env _ _). }
  intros _. apply steps_try_finally; [apply _ | |].
  - apply steps_bind; [apply _ | |].
    { apply steps_updates. intros s. by rewrite extract_text_from_pdf_run. }
    intros text. apply steps_if; [apply steps_ret; apply _|].
    apply steps_bind; [apply _ | |].
    + destruct (find_keywords (lower env) KEYWORDS text []) as [|kw found] eqn:Hfound;
        [apply steps_ret; apply _|].
      intros s. unfold bind, now, append_update, modify. simpl.
      eexists [_]. split; [done|]. repeat constructor; simpl; [done|].
      exists text. exact (eq_sym Hfound).
    + intros _. apply steps_bind; [apply _ | |].
      { by apply steps_updates. }
      intros today. apply steps_bind; [apply _ | |].
      { apply steps_updates. apply upload_file_updates. }
      intros _. apply steps_updates. apply mark_as_processed_updates.
  - apply steps_bind; [apply _ | |].
    { by apply steps_updates. }
    intros there. apply steps_if; [by apply steps_updates | apply steps_ret; apply _].
Qed.

Lemma process_link_appends (u : string) :
  steps (appends_matches env) (process_link env u).
Proof.
  unfold process_link.
  apply steps_try_except; [apply _ | | intros e; apply steps_ret; apply _].
  apply steps_bind; [apply _ | |].
  { apply steps_updates. intros s. by rewrite file_already_processed_run. }
  intros already. apply steps_if; [apply steps_ret; apply _ | apply analyze_link_appends].
Qed.

Lemma try_except_swallows (c : M unit) (s : State) :
  fst (try_except any_Exception c (fun _ => ret tt) s) = Ok tt.
Proof. unfold try_except. by destruct (c s) as [[[]|e] s']. Qed.

Lemma process_link_ok (u : string) (s : State) :
  fst (process_link env u s) = Ok tt.
Proof. apply try_except_swallows. Qed.

Lemma for_each_process_link_ok (links : list string) (s : State) :
  fst (for_each links (process_link env) s) = Ok tt.
Proof.
  revert s. induction links as [|u links IH]; intros s; [done|].
  cbn [for_each]. unfold bind. pose proof (process_link_ok u s) as Hu.
  destruct (process_link env u s) as [[[]|e] s']; [apply IH | discriminate].
Qed.

Lemma analyze_pdfs_run (pdf_links : list string) (s : State) :
  analyze_pdfs env pdf_links s
  = match client_fault env (trace s) with
    | Some e => (Raise e, set_updates [] s)
    | None =>
        (Ok (updates (snd (for_each (take 10 pdf_links) (process_link env) (set_updates [] s)))),
         snd (for_each (take 10 pdf_links) (process_link env) (set_updates [] s)))
    end.
Proof.
  unfold analyze_pdfs, bind at 1, modify. unfold bind at 1. rewrite boto3_client_run.
  cbn [trace set_updates]. destruct (client_fault env (trace s)) as [e|]; [done|].
  unfold bind, get_state, ret.
  pose proof (for_each_process_link_ok (take 10 pdf_links) (set_updates [] s)) as Hok.
  destruct (for_each (take 10 pdf_links) (process_link env) (set_updates [] s))
    as [[[]|e] s1]; [done | discriminate].
Qed.

(** [analyze_pdfs] raises only what [boto3.client] raised. *)
Lemma analyze_pdfs_fst (pdf_links : list string) (s : State) :
  fst (analyze_pdfs env pdf_links s)
  = match client_fault env (trace s) with
    | Some e => Raise e
    | None => Ok (updates (snd (analyze_pdfs env pdf_links s)))
    end.
Proof. rewrite analyze_pdfs_run. by destruct (client_fault env (trace s)). Qed.

Lemma analyze_pdfs_ok (pdf_links : list string) (s s' : State) (ups : list Update) :
  analyze_pdfs env pdf_links s = (Ok ups, s') ->
  client_fault env (trace s) = None
  /\ ups = updates s'
  /\ s' = snd (for_each (take 10 pdf_links) (process_link env) (set_updates [] s)).
Proof.
  rewrite analyze_pdfs_run. destruct (client_fault env (trace s)); [discriminate|].
  by intros [= <- <-].
Qed.

Lemma analyze_pdfs_result (pdf_links : list string) (s : State) :
  Forall (matched env) (updates (snd (analyze_pdfs env pdf_links s))).
Proof.
  rewrite analyze_pdfs_run. destruct (client_fault env (trace s)); [constructor|]. cbn [snd].
  destruct (steps_for_each (appends_matches env) (take 10 pdf_links) (process_link env)
              process_link_appends (set_updates [] s)) as (new & Hnew & Hgood).
  by rewrite Hnew.
Qed.

End Updates.

(** ** The run *)

Section Run.

Variable env : Env.

Lemma validate_environment_state (s : State) :
  snd (validate_environment env s) = s.
Proof. unfold validate_environment. by destruct (List.filter _ _). Qed.

Lemma validate_environment_error (s : State) (e : exn) :
  fst (validate_environment env s) = Raise e -> is_SATMonitorError e = true.
Proof.
  unfold validate_environment. destruct (List.filter _ _); [discriminate|].
  by intros [= <-].
Qed.

Lemma prefix_app (p x : string) : String.prefix p (p +:+ x) = true.
Proof.
  induction p as [|a p IH]; [by destruct x|].
  simpl. by destruct (ascii_dec a a).
Qed.

Lemma save_log_run (log_message log_type : string) (s : State) :
  let key := "logs/" +:+ log_type +:+ "_"
             +:+ strftime env "%Y%m%d_%H%M%S" (clock env (trace s)) +:+ ".txt" in
  save_log env log_message log_type s
  = (Ok tt,
     match s3_fault env (trace s ++ [EvNow]) (EvPut key log_message) with
     | Some _ => add_events [EvNow; EvPut key log_message] s
     | None => set_bucket (<[key := log_message]> (bucket s))
                          (add_events [EvNow; EvPut key log_message] s)
     end).
Proof.
  intros key. unfold save_log, try_except, bind at 1, now. fold key.
  unfold put_object, bind, s3_call. cbn [trace log_event].
  destruct (s3_fault env (trace s ++ [EvNow]) (EvPut key log_message)); simpl.
  - unfold ret, log_event, add_events. simpl. by rewrite <- app_assoc.
  - unfold modify, ret, set_bucket, log_event, add_events. simpl. by rewrite <- app_assoc.
Qed.

Lemma save_log_ok (log_message log_type : string) (s : State) :
  fst (save_log env log_message log_type s) = Ok tt.
Proof. by rewrite save_log_run. Qed.

Lemma save_log_bucket (log_message log_type key : string) (s : State) :
  String.prefix "logs/" key = false ->
  bucket (snd (save_log env log_message log_type s)) !! key = bucket s !! key.
Proof.
  intros Hkey. rewrite save_log_run. cbn [snd].
  destruct (s3_fault env _ _); [done|]. cbn [bucket set_bucket].
  apply lookup_insert_ne. intros <-. by rewrite prefix_app in Hkey.
Qed.

Lemma save_log_trace (log_message log_type : string) (s : State) :
  exists key, trace (snd (save_log env log_message log_type s))
              = trace s ++ [EvNow; EvPut key log_message].
Proof.
  rewrite save_log_run. cbn [snd]. eexists.
  by destruct (s3_fault env _ _).
Qed.

Lemma report_run (label message : string) (e : exn) (s : State) :
  report env label e message s
  = (Ok (error_response message),
     match client_fault env (trace s ++ [EvNow]) with
     | Some _ => log_event EvNow s
     | None => snd (save_log env (label +:+ exn_str e +:+ nl +:+ "Timestamp: "
                                  +:+ isoformat env (clock env (trace s)))
                             "error" (log_event EvNow s))
     end).
Proof.
  unfold report, bind at 1, now. unfold bind at 1, try_except. unfold bind at 1.
  rewrite boto3_client_run. cbn [trace log_event].
  destruct (client_fault env (trace s ++ [EvNow])); [done|].
  by rewrite save_log_run.
Qed.

(** An [except] block that wraps what it caught raises nothing else. *)
Lemma try_except_wraps {A} (cls : exn -> bool) (c : M A) (wrap : exn -> exn)
    (P : exn -> Prop) (s : State) (e : exn) :
  (forall e', cls e' = true) -> (forall e', P (wrap e')) ->
  fst (try_except cls c (fun e' => raise (wrap e')) s) = Raise e -> P e.
Proof.
  intros Hcls Hwrap. unfold try_except.
  destruct (c s) as [[a|e'] s']; [discriminate|].
  rewrite Hcls. by intros [= <-].
Qed.

Lemma send_email_nil (s : State) : send_email env [] s = (Ok tt, s).
Proof. reflexivity. Qed.

Lemma send_email_run (ups : list Update) (s : State) :
  ups <> [] ->
  send_email env ups s
  = match smtp_fault env (trace s) (environ env "EMAIL_PASSWORD") (compose_mail env ups) with
    | Some e => (Raise (SATMonitorError ("Error al enviar email: " +:+ exn_str e)), s)
    | None => (Ok tt, add_events [EvSendmail (compose_mail env ups)] s)
    end.
Proof.
  intros Hups. destruct ups as [|u ups]; [done|].
  unfold send_email, try_except, sendmail.
  by destruct (smtp_fault env _ _ _).
Qed.

Lemma send_email_error (ups : list Update) (s : State) (e : exn) :
  fst (send_email env ups s) = Raise e -> is_SATMonitorError e = true.
Proof.
  destruct ups as [|u ups]; [discriminate|].
  rewrite send_email_run by done. destruct (smtp_fault env _ _ _); [|discriminate].
  by intros [= <-].
Qed.

Lemma scrape_boletines_error (s : State) (e : exn) :
  fst (scrape_boletines env s) = Raise e -> is_SATMonitorError e = true.
Proof.
  unfold scrape_boletines.
  apply (try_except_wraps any_Exception _
           (fun e' => SATMonitorError ("Error al extraer boletines: " +:+ exn_str e'))
           (fun e => is_SATMonitorError e = true)); done.
Qed.

(** The run up to the notification, then its success. *)
Lemma monitoring_success (start_time : Z) (s0 s1 s2 s3 : State)
    (links : list string) (ups : list Update) :
  fst (validate_environment env s0) = Ok tt ->
  client_fault env (trace s0) = None ->
  scrape_boletines env s0 = (Ok links, s1) ->
  analyze_pdfs env links s1 = (Ok ups, s2) ->
  send_email env ups s2 = (Ok tt, s3) ->
  let execution_time := (clock env (trace s3) - start_time)%Z in
  monitoring env start_time s0
  = (Ok (success_response ups links execution_time),
     snd (save_log env (success_log env (clock env (trace s3 ++ [EvNow])) execution_time links ups)
                   "success" (log_event EvNow (log_event EvNow s3)))).
Proof.
  intros Hv Hc Hs Ha He execution_time. unfold monitoring, bind at 1.
  pose proof (validate_environment_state s0) as Hst.
  destruct (validate_environment env s0) as [[[]|e] s0']; [|discriminate].
  simpl in Hst. subst s0'.
  unfold bind at 1. rewrite boto3_client_run, Hc.
  unfold bind at 1. rewrite Hs. unfold bind at 1. rewrite Ha.
  unfold bind at 1. rewrite He. unfold bind at 1, now.
  unfold bind at 1. cbn [trace log_event]. unfold bind.
  pose proof (save_log_ok (success_log env (clock env (trace s3 ++ [EvNow])) execution_time links ups)
                "success" (log_event EvNow (log_event EvNow s3))) as Hlog.
  fold execution_time. by destruct (save_log env _ _ _) as [[[]|e] s4].
Qed.

(** An [except] block of [lambda_handler] answers 500; it reads the
    clock and, if the S3 client can be built, reads it again and tries to
    write one log entry; it touches nothing else. *)
Lemma report_spec (label message : string) (e : exn) (s : State) :
  exists s',
    report env label e message s = (Ok (error_response message), s')
    /\ (exists key body,
          trace s' = trace s ++ EvNow :: match client_fault env (trace s ++ [EvNow]) with
                                         | Some _ => []
                                         | None => [EvNow; EvPut key body]
                                         end)
    /\ disk s' = disk s
    /\ forall key, String.prefix "logs/" key = false -> bucket s' !! key = bucket s !! key.
Proof.
  eexists. split; [apply report_run|].
  destruct (client_fault env (trace s ++ [EvNow])).
  { split_and!; [by exists "", "" | done | done]. }
  split; [|split].
  - destruct (save_log_trace (label +:+ exn_str e +:+ nl +:+ "Timestamp: "
                                +:+ isoformat env (clock env (trace s))) "error"
                             (log_event EvNow s)) as [key Hk].
    exists key, (label +:+ exn_str e +:+ nl +:+ "Timestamp: "
                 +:+ isoformat env (clock env (trace s))).
    rewrite Hk. cbn [trace log_event]. by rewrite <- app_assoc.
  - rewrite save_log_run. cbn [snd]. by destruct (s3_fault env _ _).
  - intros key Hkey. by rewrite save_log_bucket.
Qed.

(** A run whose body raises answers 500. *)
Lemma lambda_handler_error (s s' : State) (e : exn) :
  monitoring env (clock env (trace s)) (log_event EvNow s) = (Raise e, s') ->
  exists s'',
    lambda_handler env s
    = (Ok (error_response
             (if is_SATMonitorError e then exn_str e else "Error interno del servidor")), s'')
    /\ (exists key body,
          trace s'' = trace s' ++ EvNow :: match client_fault env (trace s' ++ [EvNow]) with
                                           | Some _ => []
                                           | None => [EvNow; EvPut key body]
                                           end)
    /\ disk s'' = disk s'
    /\ forall key, String.prefix "logs/" key = false -> bucket s'' !! key = bucket s' !! key.
Proof.
  intros Hrun. unfold lambda_handler, bind, now, try_except2. rewrite Hrun.
  destruct (is_SATMonitorError e); cbn [any_Exception]; apply report_spec.
Qed.

Lemma lambda_handler_ok (s s' : State) (v : value) :
  monitoring env (clock env (trace s)) (log_event EvNow s) = (Ok v, s') ->
  lambda_handler env s = (Ok v, s').
Proof.
  intros Hrun. unfold lambda_handler, bind, now, try_except2. by rewrite Hrun.
Qed.

End Run.

(** ** The loop over the links, link by link *)

Section Links.

Variable env : Env.

Lemma run_eq {A} (x : result A * State) (r : result A) : fst x = r -> x = (r, snd x).
Proof. intros <-. by destruct x. Qed.

Lemma process_link_run (u : string) (s : State) :
  let s1 := log_event (EvHead (processed_key u)) s in
  process_link env u s
  = (Ok tt,
     match fst (file_already_processed env u s) with
     | Ok false => snd (analyze_link env u s1)
     | _ => s1
     end).
Proof.
  intros s1. unfold process_link, try_except, bind.
  rewrite file_already_processed_run. cbn [fst]. fold s1.
  destruct (match s3_fault env (trace s) (EvHead (processed_key u)) with
            | Some e => _ | None => _ end) as [[]|e]; [done | | done].
  by destruct (analyze_link env u s1) as [[[]|e] s2].
Qed.

Lemma dedup_checks_app (e1 e2 : list event) :
  dedup_checks (e1 ++ e2) = dedup_checks e1 ++ dedup_checks e2.
Proof. apply omap_app. Qed.

Lemma dedup_checks_none (evs : list event) :
  count KHead evs = 0 -> dedup_checks evs = [].
Proof.
  induction evs as [|e evs IH]; [done|].
  change (e :: evs) with ([e] ++ evs). rewrite count_app, dedup_checks_app.
  intros H. rewrite IH by lia. by destruct e.
Qed.

(** Every link of the loop is looked up once, first thing. *)
Lemma process_link_checks (u : string) (s : State) :
  exists evs,
    trace (snd (process_link env u s)) = trace s ++ evs
    /\ dedup_checks evs = [processed_key u].
Proof.
  rewrite process_link_run. cbn [snd].
  assert (Hs1 : exists evs, trace (log_event (EvHead (processed_key u)) s) = trace s ++ evs
                            /\ dedup_checks evs = [processed_key u]).
  { by exists [EvHead (processed_key u)]. }
  destruct (fst (file_already_processed env u s)) as [[]|e]; try exact Hs1.
  destruct (analyze_link_costs env u (log_event (EvHead (processed_key u)) s))
    as (evs & Ht & _ & Hb).
  exists ([EvHead (processed_key u)] ++ evs). rewrite Ht. cbn [trace log_event].
  split; [by rewrite <- app_assoc|].
  rewrite dedup_checks_app, (dedup_checks_none evs); [done|].
  specialize (Hb KHead). simpl in Hb. lia.
Qed.

Lemma for_each_checks (links : list string) (s : State) :
  exists evs,
    trace (snd (for_each links (process_link env) s)) = trace s ++ evs
    /\ dedup_checks evs = map processed_key links.
Proof.
  revert s. induction links as [|u links IH]; intros s.
  - exists []. by rewrite app_nil_r.
  - cbn [for_each]. unfold bind.
    destruct (process_link_checks u s) as (e1 & Ht1 & Hc1).
    pose proof (process_link_ok env u s) as Hok.
    destruct (process_link env u s) as [[[]|e] s1]; [|discriminate].
    destruct (IH s1) as (e2 & Ht2 & Hc2). cbn [snd] in Ht1.
    exists (e1 ++ e2). rewrite Ht2, Ht1, dedup_checks_app, Hc1, Hc2.
    by rewrite <- app_assoc.
Qed.

(** The calls of [analyze_pdfs]: the first ten links are looked up, in
    order, and every call is about one of them. *)
Lemma analyze_pdfs_calls (pdf_links : list string) (s : State) :
  exists evs,
    trace (snd (analyze_pdfs env pdf_links s)) = trace s ++ evs
    /\ dedup_checks evs = match client_fault env (trace s) with
                          | Some _ => []
                          | None => map processed_key (take 10 pdf_links)
                          end
    /\ Forall (fun e => exists u, In u (take 10 pdf_links) /\ event_about env u e) evs
    /\ forall k, count k evs <= 10 * link_budget k.
Proof.
  destruct (analyze_pdfs_costs env pdf_links s) as (evs & Ht & Ha & Hb).
  exists evs. split_and!; try done.
  rewrite analyze_pdfs_run in Ht. destruct (client_fault env (trace s)).
  { cbn [snd trace set_updates] in Ht. rewrite <- (app_nil_r (trace s)) in Ht at 1.
    apply app_inv_head in Ht. by subst evs. }
  cbn [snd] in Ht.
  destruct (for_each_checks (take 10 pdf_links) (set_updates [] s)) as (evs' & Ht' & Hc').
  rewrite Ht' in Ht. cbn [trace set_updates] in Ht.
  apply app_inv_head in Ht. by subst evs'.
Qed.

(** When the marker of every link is there, the loop only looks. *)
Lemma for_each_all_processed (links : list string) (s : State) :
  (forall u s', In u links -> bucket s' = bucket s ->
                fst (file_already_processed env u s') = Ok true) ->
  for_each links (process_link env) s
  = (Ok tt, add_events (map (fun u => EvHead (processed_key u)) links) s).
Proof.
  revert s. induction links as [|u links IH]; intros s Hall.
  - cbn [for_each map]. by rewrite add_events_nil.
  - cbn [for_each map]. unfold bind. rewrite process_link_run.
    rewrite (Hall u s) by (done || by left).
    rewrite IH.
    + by rewrite log_event_add, add_events_app.
    + intros u' s' Hin Hb. apply Hall; [by right | done].
Qed.

Lemma analyze_pdfs_all_processed (pdf_links : list string) (s : State) :
  client_fault env (trace s) = None ->
  (forall u s', In u pdf_links -> bucket s' = bucket s ->
                fst (file_already_processed env u s') = Ok true) ->
  analyze_pdfs env pdf_links s
  = (Ok [], add_events (map (fun u => EvHead (processed_key u)) (take 10 pdf_links))
                       (set_updates [] s)).
Proof.
  intros Hc Hall. rewrite analyze_pdfs_run, Hc, for_each_all_processed; [done|].
  intros u s' Hin Hb. apply Hall; [|done].
  apply list_elem_of_In. eapply (subseteq_take 10). by apply list_elem_of_In.
Qed.

End Links.

(** ** The outcomes of a run *)

Section Outcomes.

Variable env : Env.

Lemma validate_environment_any (s s' : State) :
  fst (validate_environment env s) = fst (validate_environment env s').
Proof. unfold validate_environment. by destruct (List.filter _ _). Qed.

(** A run that gets through the notification answers 200. *)
Lemma lambda_handler_success (s s1 s2 s3 : State) (links : list string) (ups : list Update) :
  fst (validate_environment env s) = Ok tt ->
  client_fault env (trace (log_event EvNow s)) = None ->
  scrape_boletines env (log_event EvNow s) = (Ok links, s1) ->
  analyze_pdfs env links s1 = (Ok ups, s2) ->
  send_email env ups s2 = (Ok tt, s3) ->
  exists s',
    lambda_handler env s
    = (Ok (success_response ups links (clock env (trace s3) - clock env (trace s))), s')
    /\ (exists key body, trace s' = trace s3 ++ [EvNow; EvNow; EvNow; EvPut key body])
    /\ disk s' = disk s3
    /\ forall key, String.prefix "logs/" key = false -> bucket s' !! key = bucket s3 !! key.
Proof.
  intros Hv Hc Hs Ha He. rewrite (validate_environment_any s (log_event EvNow s)) in Hv.
  eexists. split.
  { apply lambda_handler_ok. by eapply monitoring_success. }
  cbn [snd]. split_and!.
  - destruct (save_log_trace env (success_log env (clock env (trace s3 ++ [EvNow]))
                (clock env (trace s3) - clock env (trace s)) links ups) "success"
                (log_event EvNow (log_event EvNow s3))) as [key Hk].
    eexists key, _. rewrite Hk. cbn [trace log_event]. by rewrite <- !app_assoc.
  - rewrite save_log_run. cbn [snd]. by destruct (s3_fault env _ _).
  - intros key Hkey. by rewrite save_log_bucket.
Qed.

(** A run whose notification fails answers 500 with the wrapped error. *)
Lemma lambda_handler_send_fails (s s1 s2 s3 : State) (links : list string)
    (ups : list Update) (e : exn) :
  fst (validate_environment env s) = Ok tt ->
  client_fault env (trace (log_event EvNow s)) = None ->
  scrape_boletines env (log_event EvNow s) = (Ok links, s1) ->
  analyze_pdfs env links s1 = (Ok ups, s2) ->
  send_email env ups s2 = (Raise e, s3) ->
  exists s',
    lambda_handler env s = (Ok (error_response (exn_str e)), s')
    /\ (exists key body,
          trace s' = trace s3 ++ EvNow :: match client_fault env (trace s3 ++ [EvNow]) with
                                          | Some _ => []
                                          | None => [EvNow; EvPut key body]
                                          end)
    /\ disk s' = disk s3
    /\ forall key, String.prefix "logs/" key = false -> bucket s' !! key = bucket s3 !! key.
Proof.
  intros Hv Hc Hs Ha He. rewrite (validate_environment_any s (log_event EvNow s)) in Hv.
  assert (Hrun : monitoring env (clock env (trace s)) (log_event EvNow s) = (Raise e, s3)).
  { unfold monitoring, bind at 1.
    pose proof (validate_environment_state env (log_event EvNow s)) as Hst.
    destruct (validate_environment env (log_event EvNow s)) as [[[]|e0] s0']; [|discriminate].
    simpl in Hst. subst s0'.
    unfold bind at 1. rewrite boto3_client_run, Hc.
    unfold bind at 1. rewrite Hs. unfold bind at 1. rewrite Ha.
    unfold bind at 1. by rewrite He. }
  destruct (lambda_handler_error env s s3 e Hrun) as (s' & Hl & Hrest).
  exists s'. split; [|exact Hrest].
  rewrite Hl. pose proof (send_email_error env ups s2 e) as Hcls.
  rewrite He in Hcls. by rewrite Hcls.
Qed.

(** What a run that answered 200 went through. *)
Lemma lambda_handler_inv (s s' : State) (v : value) :
  lambda_handler env s = (Ok v, s') ->
  item "statusCode" v = Some (VInt 200) ->
  exists links s1 ups s2 s3,
    client_fault env (trace (log_event EvNow s)) = None
    /\ scrape_boletines env (log_event EvNow s) = (Ok links, s1)
    /\ analyze_pdfs env links s1 = (Ok ups, s2)
    /\ send_email env ups s2 = (Ok tt, s3)
    /\ v = success_response ups links (clock env (trace s3) - clock env (trace s)).
Proof.
  unfold lambda_handler, bind at 1, now, try_except2.
  destruct (monitoring env (clock env (trace s)) (log_event EvNow s)) as [[v0|e] sm] eqn:Hm.
  2:{ destruct (is_SATMonitorError e); cbn [any_Exception]; rewrite report_run;
        intros [= <- _]; discriminate. }
  intros [= -> ->] _. revert Hm. unfold monitoring, bind at 1.
  pose proof (validate_environment_state env (log_event EvNow s)) as Hst.
  destruct (validate_environment env (log_event EvNow s)) as [[[]|e0] s0']; [|discriminate].
  simpl in Hst. subst s0'. unfold bind at 1. rewrite boto3_client_run.
  destruct (client_fault env (trace (log_event EvNow s))) eqn:Hc; [discriminate|].
  unfold bind at 1.
  destruct (scrape_boletines env (log_event EvNow s)) as [[links|e1] s1] eqn:Hs; [|discriminate].
  unfold bind at 1.
  destruct (analyze_pdfs env links s1) as [[ups|e2] s2] eqn:Ha; [|discriminate].
  unfold bind at 1.
  destruct (send_email env ups s2) as [[[]|e3] s3] eqn:He; [|discriminate].
  unfold bind at 1, now. unfold bind at 1. cbn [trace log_event]. unfold bind.
  destruct (save_log env _ _ _) as [[[]|e4] s4]; [|discriminate].
  intros [= <- <-]. by exists links, s1, ups, s2, s3.
Qed.

End Outcomes.

(** ** The temporary files *)

Section Disk.

Variable env : Env.

#[local] Instance same_disk_preorder : PreOrder same_disk.
Proof.
  split.
  - by intros s.
  - intros s1 s2 s3 H1 H2. unfold same_disk in *. congruence.
Qed.

Lemma get_with_retries_state (u : string) (s : State) :
  exists evs, snd (get_with_retries env u MAX_RETRIES s) = add_events evs s.
Proof.
  unfold get_with_retries.
  destruct (retry_loop_run env u 2 0 s) as (k & _ & Hsnd & _). eauto.
Qed.

(** With three attempts the loop returns a response or raises. *)
Lemma get_with_retries_some (u : string) (s : State) :
  fst (get_with_retries env u MAX_RETRIES s) <> Ok None.
Proof.
  unfold get_with_retries.
  destruct (retry_loop_run env u 2 0 s) as (k & _ & _ & _ & Hres).
  change (map Z.of_nat (seq 0 3)) with (range MAX_RETRIES) in Hres.
  change (Z.of_nat (0 + 3)) with MAX_RETRIES in Hres.
  destruct (attempt_outcome env (trace s ++ retry_trace u k) u) as [response|[m|m|c m|m]];
    try (rewrite Hres; discriminate).
  destruct Hres as [_ ->]. discriminate.
Qed.

Lemma steps_disk {A} (c : M A) :
  (forall s, disk (snd (c s)) = disk s) -> steps same_disk c.
Proof. intros H s. apply H. Qed.

Lemma mark_as_processed_disk (u : string) (s : State) :
  disk (snd (mark_as_processed env u s)) = disk s.
Proof.
  unfold mark_as_processed, try_except, bind, now, put_object, bind, s3_call.
  cbn [trace log_event].
  by destruct (s3_fault env _ _).
Qed.

Lemma upload_file_disk (path key : string) (s : State) :
  disk (snd (upload_file env path key s)) = disk s.
Proof.
  unfold upload_file, bind, get_state. destruct (disk s !! path); [|done].
  unfold s3_call. by destruct (s3_fault env (trace s) (EvUpload path key)).
Qed.

(** The [try] block of [analyze_link] leaves the disk alone. *)
Lemma analysis_disk (u tmp_path : string) :
  steps same_disk
    (text <- extract_text_from_pdf env tmp_path ;;
     if negb (Str.truthy text) then ret tt
     else
       let found_keywords := find_keywords (lower env) KEYWORDS text [] in
       match found_keywords with
       | [] => ret tt
       | _ =>
           t <- now env ;;
           append_update {| pdf := pdf_name_of env u; keywords := found_keywords;
                            url := u; processed_at := isoformat env t |}
       end ;;
       today <- now env ;;
       let s3_key := "boletines/" +:+ strftime env "%Y%m%d" today +:+ "/" +:+ pdf_name_of env u in
       upload_file env tmp_path s3_key ;;
       mark_as_processed env u).
Proof.
  apply steps_bind; [apply _ | |].
  { apply steps_disk. intros s. by rewrite extract_text_from_pdf_run. }
  intros text. apply steps_if; [apply steps_ret; apply _|].
  apply steps_bind; [apply _ | |].
  - destruct (find_keywords (lower env) KEYWORDS text []); [apply steps_ret; apply _|].
    by apply steps_disk.
  - intros _. apply steps_bind; [apply _ | |].
    { by apply steps_disk. }
    intros today. apply steps_bind; [apply _ | |].
    { apply steps_disk. apply upload_file_disk. }
    intros _. apply steps_disk. apply mark_as_processed_disk.
Qed.

(** The [finally] block removes the file. *)
Lemma cleanup_run (tmp_path : string) (s : State) :
  disk (snd ((there <- path_exists tmp_path ;;
              if there : bool then unlink tmp_path else ret tt) s))
  = delete tmp_path (disk s).
Proof.
  unfold bind, path_exists, get_state, ret, unlink, bind, emit, modify. cbn [fst snd].
  destruct (bool_decide_reflect (is_Some (disk s !! tmp_path))) as [Hin|Hout]; [done|].
  cbn [snd]. symmetry. apply delete_id. by apply eq_None_not_Some.
Qed.

(** Unless the write fails, a link leaves no file behind. *)
Lemma analyze_link_disk (u : string) (s : State) :
  (forall tr data, write_fault env tr data = None) ->
  disk (snd (analyze_link env u s)) = disk s.
Proof.
  intros Hwrite. unfold analyze_link, bind at 1.
  destruct (get_with_retries_state u s) as [evs Hs1].
  pose proof (get_with_retries_some u s) as Hsome.
  destruct (get_with_retries env u MAX_RETRIES s) as [[[response|]|e] s1];
    cbn [fst snd] in *; subst s1; [|done|done].
  unfold bind at 1, NamedTemporaryFile. cbn [disk trace add_events].
  set (name := mkstemp env (trace s ++ evs) +:+ ".pdf").
  destruct (disk s !! name) eqn:Hfree; [done|].
  unfold bind at 1, attr, ret at 1. unfold bind at 1, file_write. rewrite Hwrite.
  unfold try_finally.
  match goal with |- context [bind (extract_text_from_pdf env name) ?k ?st] =>
    pose proof (analysis_disk u name st) as Hbody;
    destruct (bind (extract_text_from_pdf env name) k st) as [r s2]
  end.
  pose proof (cleanup_run name s2) as Hclean.
  destruct ((there <- path_exists name ;; if there : bool then unlink name else ret tt) s2)
    as [[[]|e] s3]; cbn [snd] in *; rewrite Hclean, Hbody; cbn [disk set_disk log_event];
    by rewrite insert_insert_eq, delete_insert_id.
Qed.

Lemma process_link_disk (u : string) (s : State) :
  (forall tr data, write_fault env tr data = None) ->
  disk (snd (process_link env u s)) = disk s.
Proof.
  intros Hwrite. rewrite process_link_run. cbn [snd].
  destruct (fst (file_already_processed env u s)) as [[]|e]; try done.
  by rewrite analyze_link_disk.
Qed.

Lemma analyze_pdfs_disk (pdf_links : list string) (s : State) :
  (forall tr data, write_fault env tr data = None) ->
  disk (snd (analyze_pdfs env pdf_links s)) = disk s.
Proof.
  intros Hwrite. rewrite analyze_pdfs_run.
  destruct (client_fault env (trace s)); [done|]. cbn [snd].
  change (disk s) with (disk (set_updates [] s)).
  apply (steps_for_each same_disk). intros u s'. by apply process_link_disk.
Qed.

Lemma save_log_disk (log_message log_type : string) (s : State) :
  disk (snd (save_log env log_message log_type s)) = disk s.
Proof. rewrite save_log_run. cbn [snd]. by destruct (s3_fault env _ _). Qed.

Lemma scrape_boletines_disk (s : State) :
  disk (snd (scrape_boletines env s)) = disk s.
Proof.
  unfold scrape_boletines, try_except, bind at 1.
  destruct (get_with_retries_state SAT_URL s) as [evs Hs1].
  destruct (get_with_retries env SAT_URL MAX_RETRIES s) as [[[response|]|e] s1];
    cbn [snd] in Hs1; subst s1; [|done|done].
  unfold bind, attr, ret, lift.
  destruct (find_all_a env (text response)) as [soup|e]; [|done].
  by destruct (collect_pdf_links (urljoin env) soup []).
Qed.

Lemma send_email_disk (ups : list Update) (s : State) :
  disk (snd (send_email env ups s)) = disk s.
Proof.
  destruct ups as [|u ups]; [done|]. rewrite send_email_run by done.
  by destruct (smtp_fault env _ _ _).
Qed.

Lemma report_disk (label message : string) (e : exn) (s : State) :
  disk (snd (report env label e message s)) = disk s.
Proof.
  rewrite report_run. cbn [snd]. destruct (client_fault env _); [done|].
  by rewrite save_log_disk.
Qed.

(** Unless a write fails, a run leaves the disk as it found it. *)
Lemma lambda_handler_disk (s : State) :
  (forall tr data, write_fault env tr data = None) ->
  disk (snd (lambda_handler env s)) = disk s.
Proof.
  intros Hwrite. revert s. change (steps same_disk (lambda_handler env)).
  unfold lambda_handler.
  apply steps_bind; [apply _ | by apply steps_disk |]. intros start_time.
  apply steps_try_except2; [apply _ | | |];
    try (intros e; apply steps_disk; intros s; apply report_disk).
  unfold monitoring.
  apply steps_bind; [apply _ | |].
  { apply steps_disk. intros s. by rewrite validate_environment_state. }
  intros _. apply steps_bind; [apply _ | |].
  { apply steps_disk. intros s. by rewrite boto3_client_state. }
  intros _. apply steps_bind; [apply _ | apply steps_disk, scrape_boletines_disk |].
  intros pdf_links. apply steps_bind; [apply _ | |].
  { apply steps_disk. intros s. by apply analyze_pdfs_disk. }
  intros ups. apply steps_bind; [apply _ | apply steps_disk, send_email_disk |].
  intros _. apply steps_bind; [apply _ | by apply steps_disk |].
  intros finished. apply steps_bind; [apply _ | by apply steps_disk |].
  intros t. apply steps_bind; [apply _ | apply steps_disk, save_log_disk |].
  intros _. apply steps_ret; apply _.
Qed.

End Disk.

(** ** The fingerprint *)

Lemma hexdigest_empty : MD5.hexdigest "" = "d41d8cd98f00b204e9800998ecf8427e".
Proof. by vm_compute. Qed.

Lemma hexdigest_abc : MD5.hexdigest "abc" = "900150983cd24fb0d6963f7d28e17f72".
Proof. by vm_compute. Qed.

(** A message of more than one block. *)
Lemma hexdigest_two_blocks :
  MD5.hexdigest "aaaaaaaaaaaaaaaaaaaaaaaaaaaaaaaaaaaaaaaaaaaaaaaaaaaaaaaaaaaaaaaa"
  = "014842d480b571495a4a0363793f7367".
Proof. by vm_compute. Qed.

Lemma count_heads (k : kind) (keys : list string) :
  k <> KHead -> count k (map EvHead keys) = 0.
Proof.
  intros Hk. induction keys as [|key keys IH]; [done|].
  change (map EvHead (key :: keys)) with ([EvHead key] ++ map EvHead keys).
  rewrite count_app, IH, count_one. by destruct k.
Qed.

(** ** The claims *)

(** C1, at a run in which the write to the temporary file fails.  The page
    lists two documents, neither is marked, both downloads succeed, and
    [tmp_file.write] raises for lack of space.  The run answers 200 and
    the two files [NamedTemporaryFile] made are still on the disk, which
    was empty before: the [with] block that writes stands before the [try]
    whose [finally] removes the file, so nothing removes it. *)
Theorem temp_file_left_when_write_fails :
  let run := lambda_handler (Scenario.world Scenario.anchors2 0 true false) (Scenario.start ∅) in
  fst run = Ok (success_response [] Scenario.links2 10)
  /\ disk (Scenario.start ∅) = ∅
  /\ map fst (map_to_list (disk (snd run))) = ["/tmp/tmp4.pdf"; "/tmp/tmp8.pdf"]
  /\ count KTmpCreate (trace (snd run)) = 2
  /\ count KUnlink (trace (snd run)) = 0.
Proof. by vm_compute. Qed.

(** C2: when the environment is configured, the S3 client can be built,
    the page gives [links], and the dedup check answers [true] for each of
    them whenever it is asked over the bucket of that moment, the run
    answers 200 with status
    "success" and [updates_found] 0, the match list is empty, and after the
    page was read the run only looks up the markers of the first ten links,
    reads the clock and writes its log entry: it requests no document,
    uploads nothing and sends no mail. *)
Theorem all_processed_run (env : Env) (s s1 : State) (links : list string) :
  fst (validate_environment env s) = Ok tt ->
  (forall tr, client_fault env tr = None) ->
  scrape_boletines env (log_event EvNow s) = (Ok links, s1) ->
  (forall u s', In u links -> bucket s' = bucket s1 ->
                fst (file_already_processed env u s') = Ok true) ->
  exists v s' evs key body,
    lambda_handler env s = (Ok v, s')
    /\ fst (analyze_pdfs env links s1) = Ok []
    /\ item "statusCode" v = Some (VInt 200)
    /\ (item "body" v ≫= item "status") = Some (VStr "success")
    /\ (item "body" v ≫= item "updates_found") = Some (VInt 0)
    /\ trace s' = trace s1 ++ evs
    /\ evs = map EvHead (map processed_key (take 10 links))
             ++ [EvNow; EvNow; EvNow; EvPut key body]
    /\ count KGet evs = 0 /\ count KUpload evs = 0 /\ count KSendmail evs = 0.
Proof.
  intros Hv Hc Hs Hall.
  pose proof (analyze_pdfs_all_processed env links s1 (Hc _) Hall) as Ha.
  destruct (lambda_handler_success env s s1 _ _ links [] Hv (Hc _) Hs Ha (send_email_nil env _))
    as (s' & Hl & (key & body & Ht) & _).
  eexists _, s', _, key, body. split; [exact Hl|]. split; [by rewrite Ha|].
  split_and!; try reflexivity.
  - rewrite Ht. cbn [trace add_events set_updates].
    by rewrite <- app_assoc, <- map_map.
  - rewrite count_app, count_heads by done. reflexivity.
  - rewrite count_app, count_heads by done. reflexivity.
  - rewrite count_app, count_heads by done. reflexivity.
Qed.

(** C3: [analyze_pdfs] runs as it would on the first ten links alone; it
    looks up the markers of exactly those, in the order of the list, or of
    none when the S3 client cannot be built; every call it makes, be it a
    request, a look at the dedup store, a write to it or an upload, is
    about one of those ten; and there are at most ten lookups, thirty
    requests, ten uploads and ten marker writes. *)
Theorem analyze_pdfs_cap (env : Env) (pdf_links : list string) (s : State) :
  analyze_pdfs env pdf_links s = analyze_pdfs env (take 10 pdf_links) s
  /\ exists evs,
       trace (snd (analyze_pdfs env pdf_links s)) = trace s ++ evs
       /\ dedup_checks evs = match client_fault env (trace s) with
                             | Some _ => []
                             | None => map processed_key (take 10 pdf_links)
                             end
       /\ Forall (fun e => exists u, In u (take 10 pdf_links) /\ event_about env u e) evs
       /\ count KHead evs <= 10 /\ count KGet evs <= 30
       /\ count KUpload evs <= 10 /\ count KPut evs <= 10.
Proof.
  split.
  - unfold analyze_pdfs. by rewrite take_take.
  - destruct (analyze_pdfs_calls env pdf_links s) as (evs & Ht & Hc & Ha & Hb).
    exists evs. split_and!; [done | done | done | | | |].
    + apply (Hb KHead).
    + apply (Hb KGet).
    + apply (Hb KUpload).
    + apply (Hb KPut).
Qed.



(** C5: the keywords found in a text are the keywords of the list whose
    lowercased form occurs in the lowercased text, in the order of the
    list and no more often than the list has them, so without duplicates
    for a list without, as [KEYWORDS] is; none is found exactly when none
    occurs; and every entry [analyze_pdfs] returns carries the keywords
    found in some text, at least one. *)
Theorem find_keywords_spec (env : Env) (lower : string -> string) (kws : list string)
    (text : string) (pdf_links : list string) (s : State) :
  let found := find_keywords lower kws text [] in
  found = List.filter (fun k => Str.contains (lower k) (lower text)) kws
  /\ (forall k, In k found <->
                In k kws /\ exists pre post, lower text = pre +:+ lower k +:+ post)
  /\ sublist found kws
  /\ (NoDup kws -> NoDup found)
  /\ NoDup (find_keywords lower KEYWORDS text [])
  /\ (found = [] <-> forall k, In k kws -> Str.contains (lower k) (lower text) = false)
  /\ Forall (matched env) (updates (snd (analyze_pdfs env pdf_links s))).
Proof.
  intros found.
  destruct (find_keywords_filter lower kws text) as (Hf & Hin & Hsub & _ & Hnd & Hnil).
  split_and!; try done.
  - intros Hkws. by apply (sublist_NoDup _ kws).
  - apply analyze_pdfs_result.
Qed.

(** C6: [extract_text_from_pdf] returns a string in every state and
    changes nothing; the string is empty when the file or the document
    cannot be opened, and otherwise the texts of the pages that gave a
    non-empty one, joined by single spaces: the loop over the pages passes
    over a page that raises and over an empty text, and goes on. *)
Theorem extract_text_from_pdf_total (env : Env) (pdf_path : string) (s : State)
    (pages : list page) (acc : list string) :
  extract_text_from_pdf env pdf_path s
  = (Ok match disk s !! pdf_path with
        | Some data =>
            match pdf_pages env data with
            | Some pages => Str.join " " (omap good_text pages)
            | None => ""
            end
        | None => ""
        end, s)
  /\ extract_pages pages acc s = (Ok (acc ++ omap good_text pages), s)
  /\ (forall e, good_text (PageRaise e) = None)
  /\ good_text (PageText "") = None
  /\ (forall t, t <> "" -> good_text (PageText t) = Some t).
Proof.
  split_and!.
  - apply extract_text_from_pdf_run.
  - apply extract_pages_run.
  - done.
  - done.
  - intros t Ht. by destruct t.
Qed.

(** C8: [file_already_processed] looks up the key
    processed/<md5 of the URL>.txt once; when the call goes through it
    answers whether the bucket has that key; when the call fails with a
    [ClientError] of code 404 it answers [False]; it raises every other
    failure. *)
Theorem file_already_processed_spec (env : Env) (pdf_url : string) (s : State) :
  let key := "processed/" +:+ MD5.hexdigest pdf_url +:+ ".txt" in
  file_already_processed env pdf_url s
  = (match s3_fault env (trace s) (EvHead key) with
     | None => Ok (bool_decide (is_Some (bucket s !! key)))
     | Some e =>
         if is_ClientError e && String.eqb (error_code e) "404" then Ok false else Raise e
     end,
     log_event (EvHead key) s).
Proof. apply file_already_processed_run. Qed.

(** C9, for an S3 client that can be built: [send_email] on an empty list
    does nothing, and a run whose match list is empty goes on to answer 200
    without sending mail.  When the
    list is not empty and the SMTP session fails with [e], [send_email]
    raises a [SATMonitorError] that wraps [e], and the run answers 500 with
    that message after trying to write an error log; what the analysis
    put in the bucket before, archives and markers, is still there. *)
Theorem notification_outcomes (env : Env) (s s1 s2 : State) (links : list string)
    (ups : list Update) :
  fst (validate_environment env s) = Ok tt ->
  (forall tr, client_fault env tr = None) ->
  scrape_boletines env (log_event EvNow s) = (Ok links, s1) ->
  analyze_pdfs env links s1 = (Ok ups, s2) ->
  (forall s0, send_email env [] s0 = (Ok tt, s0))
  /\ (ups = [] ->
      exists t s' key body,
        lambda_handler env s = (Ok (success_response [] links t), s')
        /\ trace s' = trace s2 ++ [EvNow; EvNow; EvNow; EvPut key body])
  /\ (forall e,
        ups <> [] ->
        smtp_fault env (trace s2) (environ env "EMAIL_PASSWORD") (compose_mail env ups) = Some e ->
        send_email env ups s2
        = (Raise (SATMonitorError ("Error al enviar email: " +:+ exn_str e)), s2)
        /\ exists s' key body,
             lambda_handler env s
             = (Ok (error_response ("Error al enviar email: " +:+ exn_str e)), s')
             /\ item "statusCode" (error_response ("Error al enviar email: " +:+ exn_str e))
                = Some (VInt 500)
             /\ trace s' = trace s2 ++ [EvNow; EvNow; EvPut key body]
             /\ forall k, String.prefix "logs/" k = false -> bucket s' !! k = bucket s2 !! k).
Proof.
  intros Hv Hc Hs Ha. split_and!.
  - apply send_email_nil.
  - intros ->.
    destruct (lambda_handler_success env s s1 s2 s2 links [] Hv (Hc _) Hs Ha (send_email_nil env s2))
      as (s' & Hl & (key & body & Ht) & _).
    by eexists _, s', key, body.
  - intros e Hne Hsmtp.
    assert (Hsend : send_email env ups s2
                    = (Raise (SATMonitorError ("Error al enviar email: " +:+ exn_str e)), s2)).
    { rewrite send_email_run by done. by rewrite Hsmtp. }
    split; [exact Hsend|].
    destruct (lambda_handler_send_fails env s s1 s2 s2 links ups _ Hv (Hc _) Hs Ha Hsend)
      as (s' & Hl & (key & body & Ht) & _ & Hb).
    rewrite Hc in Ht. by exists s', key, body.
Qed.

(** C10: a run that answered 200 read [links] from the page, and the
    [pdfs_analyzed] of its answer is the length of [links], whatever that
    is, while its analysis looked up the markers of the first ten links
    only and made at most thirty requests. *)
Theorem pdfs_analyzed_counts_links (env : Env) (s s' : State) (v : value) :
  lambda_handler env s = (Ok v, s') ->
  item "statusCode" v = Some (VInt 200) ->
  exists links s1 evs,
    scrape_boletines env (log_event EvNow s) = (Ok links, s1)
    /\ (item "body" v ≫= item "pdfs_analyzed") = Some (VInt (Z.of_nat (length links)))
    /\ trace (snd (analyze_pdfs env links s1)) = trace s1 ++ evs
    /\ dedup_checks evs = map processed_key (take 10 links)
    /\ count KHead evs <= 10 /\ count KGet evs <= 30.
Proof.
  intros Hrun Hstatus.
  destruct (lambda_handler_inv env s s' v Hrun Hstatus)
    as (links & s1 & ups & s2 & s3 & _ & Hs & Ha & He & ->).
  destruct (analyze_pdfs_calls env links s1) as (evs & Ht & Hc & _ & Hb).
  destruct (analyze_pdfs_ok env links s1 s2 ups Ha) as (Hcl & _). rewrite Hcl in Hc.
  exists links, s1, evs. split_and!; [done | done | | done | |].
  - exact Ht.
  - apply (Hb KHead).
  - apply (Hb KGet).
Qed.

(** ** The claims at work *)

(** C2 in a world where the page lists two documents and the bucket has
    the marker of both: the page is read at the third attempt, and nothing
    is requested after that. *)
Lemma all_processed_run_witness :
  exists v s' evs,
    lambda_handler (Scenario.world Scenario.anchors2 2 true true) (Scenario.start Scenario.marked2)
    = (Ok v, s')
    /\ item "statusCode" v = Some (VInt 200)
    /\ (item "body" v ≫= item "updates_found") = Some (VInt 0)
    /\ trace s'
       = trace (snd (scrape_boletines (Scenario.world Scenario.anchors2 2 true true)
                       (log_event EvNow (Scenario.start Scenario.marked2)))) ++ evs
    /\ count KGet evs = 0 /\ count KSendmail evs = 0.
Proof.
  destruct (all_processed_run
              (Scenario.world Scenario.anchors2 2 true true)
              (Scenario.start Scenario.marked2)
              (snd (scrape_boletines (Scenario.world Scenario.anchors2 2 true true)
                      (log_event EvNow (Scenario.start Scenario.marked2))))
              Scenario.links2)
    as (v & s' & evs & key & body & Hl & _ & Hst & _ & Hup & Ht & _ & Hg & _ & Hm).
  - vm_compute. reflexivity.
  - intros tr. reflexivity.
  - apply run_eq. vm_compute. reflexivity.
  - intros u s' Hin Hb. rewrite file_already_processed_run. cbn [fst].
    rewrite Hb. destruct Hin as [<-|[<-|[]]]; vm_compute; reflexivity.
  - exists v, s', evs. split; [exact Hl|]. split; [exact Hst|]. split; [exact Hup|].
    split; [exact Ht|]. split; [exact Hg | exact Hm].
Defined.

(** C7 in a world where the first two requests time out. *)
Lemma get_with_retries_spec_witness :
  exists k : nat,
    (Z.of_nat k < MAX_RETRIES)%Z
    /\ trace (snd (get_with_retries (Scenario.world Scenario.anchors2 2 true true)
                     SAT_URL MAX_RETRIES (Scenario.start ∅)))
       = retry_trace SAT_URL k ++ [EvGet SAT_URL].
Proof.
  destruct (get_with_retries_spec (Scenario.world Scenario.anchors2 2 true true)
              SAT_URL MAX_RETRIES (Scenario.start ∅))
    as (k & Hk & Hsnd & _).
  - unfold MAX_RETRIES. lia.
  - exists k. split; [exact Hk|]. rewrite Hsnd. reflexivity.
Defined.

(** C9 in a world where the mail server turns the login down: the two
    documents have matches, the run answers 500, and the archive and the
    marker of the first document are in the bucket. *)
Lemma notification_outcomes_witness :
  exists s',
    lambda_handler (Scenario.world Scenario.anchors2 0 false true) (Scenario.start ∅)
    = (Ok (error_response
             "Error al enviar email: (535, b'5.7.8 Username and Password not accepted')"), s')
    /\ bucket s' !! "boletines/7/a.pdf" = Some "Cambios al Anexo 20 y al cfdi 4.0"
    /\ is_Some (bucket s' !! processed_key (Scenario.host +:+ "/boletin/a.pdf")).
Proof.
  destruct (notification_outcomes
              (Scenario.world Scenario.anchors2 0 false true)
              (Scenario.start ∅)
              (snd (scrape_boletines (Scenario.world Scenario.anchors2 0 false true)
                      (log_event EvNow (Scenario.start ∅))))
              (snd (analyze_pdfs (Scenario.world Scenario.anchors2 0 false true) Scenario.links2
                      (snd (scrape_boletines (Scenario.world Scenario.anchors2 0 false true)
                              (log_event EvNow (Scenario.start ∅))))))
              Scenario.links2
              (updates
                 (snd (analyze_pdfs (Scenario.world Scenario.anchors2 0 false true) Scenario.links2
                         (snd (scrape_boletines (Scenario.world Scenario.anchors2 0 false true)
                                 (log_event EvNow (Scenario.start ∅))))))))
    as (_ & _ & Hfail).
  - vm_compute. reflexivity.
  - intros tr. reflexivity.
  - apply run_eq. vm_compute. reflexivity.
  - apply run_eq. vm_compute. reflexivity.
  - destruct (Hfail (OtherException "(535, b'5.7.8 Username and Password not accepted')"))
      as (_ & s' & key & body & Hl & _ & _ & Hb).
    + vm_compute. discriminate.
    + vm_compute. reflexivity.
    + exists s'. split; [exact Hl|]. split.
      * rewrite Hb by reflexivity. vm_compute. reflexivity.
      * rewrite Hb by (vm_compute; reflexivity). eexists. vm_compute. reflexivity.
Defined.

(** C10 in a world where the page lists twenty-five documents: the answer
    says 25, and ten markers were looked up. *)
Lemma pdfs_analyzed_counts_links_witness :
  exists links s1 evs,
    scrape_boletines (Scenario.world Scenario.anchors25 0 true true)
      (log_event EvNow (Scenario.start ∅)) = (Ok links, s1)
    /\ length links = 25
    /\ trace (snd (analyze_pdfs (Scenario.world Scenario.anchors25 0 true true) links s1))
       = trace s1 ++ evs
    /\ length (dedup_checks evs) = 10.
Proof.
  destruct (pdfs_analyzed_counts_links
              (Scenario.world Scenario.anchors25 0 true true) (Scenario.start ∅)
              (snd (lambda_handler (Scenario.world Scenario.anchors25 0 true true)
                      (Scenario.start ∅)))
              (VDict [("statusCode", VInt 200);
                      ("body", VDict [("status", VStr "success");
                                      ("updates_found", VInt 10);
                                      ("pdfs_analyzed", VInt 25);
                                      ("execution_time", VSeconds 103)])]))
    as (links & s1 & evs & Hs & Hn & Ht & Hc & _).
  - apply run_eq. vm_compute. reflexivity.
  - reflexivity.
  - assert (Hlen : length links = 25).
    { cbn in Hn. injection Hn as Hn. lia. }
    exists links, s1, evs. split; [exact Hs|]. split; [exact Hlen|]. split; [exact Ht|].
    rewrite Hc, length_map, length_take, Hlen. reflexivity.
Defined.


(** ** The configuration check *)

Lemma filter_nil_iff {A} (f : A -> bool) (l : list A) :
  List.filter f l = [] <-> Forall (fun x => f x = false) l.
Proof.
  induction l as [|x l IH]; simpl.
  - split; [constructor | done].
  - destruct (f x) eqn:Hx.
    + split; [done|]. intros H. inversion H; congruence.
    + rewrite IH. split; [by constructor | by inversion 1].
Qed.

Lemma truthy_iff (env : Env) (var : string) :
  negb (Str.truthy (default "" (environ env var))) = false <-> is_set env var.
Proof.
  unfold is_set. destruct (environ env var) as [[|a v]|]; simpl.
  - split; [done | by intros (v & [= <-] & Hv)].
  - split; [by eexists | done].
  - split; [done | by intros (v & [=] & _)].
Qed.

Lemma validate_environment_run (env : Env) (s : State) :
  let missing_vars :=
    List.filter (fun var => negb (Str.truthy (default "" (environ env var)))) required_vars in
  validate_environment env s
  = (match missing_vars with
     | [] => Ok tt
     | _ => Raise (SATMonitorError
                     ("Variables de entorno faltantes: " +:+ Str.join ", " missing_vars))
     end, s).
Proof.
  intros missing_vars. unfold validate_environment. fold required_vars. fold missing_vars.
  by destruct missing_vars.
Qed.

(** X1: [validate_environment] succeeds exactly when each of the four
    variables is set to a non-empty string; otherwise it raises a
    [SATMonitorError] that lists the variables that are unset or empty, in
    the order S3_BUCKET, EMAIL_SENDER, EMAIL_RECIPIENT, EMAIL_PASSWORD.
    Either way it does nothing else. *)
Theorem validate_environment_spec (env : Env) (s : State) :
  let missing_vars :=
    List.filter (fun var => negb (Str.truthy (default "" (environ env var)))) required_vars in
  (fst (validate_environment env s) = Ok tt <-> Forall (is_set env) required_vars)
  /\ (forall var, In var missing_vars <-> In var required_vars /\ ~ is_set env var)
  /\ sublist missing_vars required_vars
  /\ (forall e, fst (validate_environment env s) = Raise e ->
        e = SATMonitorError
              ("Variables de entorno faltantes: " +:+ Str.join ", " missing_vars)
        /\ missing_vars <> [])
  /\ snd (validate_environment env s) = s.
Proof.
  intros missing_vars. rewrite validate_environment_run. fold missing_vars. cbn [fst snd].
  split_and!.
  - transitivity (missing_vars = []).
    + by destruct missing_vars.
    + unfold missing_vars. rewrite filter_nil_iff.
      apply Forall_iff. intros var. apply truthy_iff.
  - intros var. unfold missing_vars. rewrite filter_In, <- truthy_iff. cbv beta.
    destruct (negb (Str.truthy (default "" (environ env var)))); intuition congruence.
  - apply filter_sublist.
  - intros e. destruct missing_vars; [discriminate|]. by intros [= <-].
  - done.
Qed.

(** ** Runs that end early *)

Section Early.

Variable env : Env.

(** X2: when a variable is missing, the run answers 500 with the message
    of [validate_environment]; it reads the clock twice and then, if the
    S3 client can be built, once more to try and write one error log, and
    that is all: no request, no look at the dedup store, no mail, and the
    disk and the bucket outside logs/ stay as they were. *)
Theorem misconfigured_run (s : State) (e : exn) :
  fst (validate_environment env s) = Raise e ->
  exists s' key body,
    lambda_handler env s = (Ok (error_response (exn_str e)), s')
    /\ item "statusCode" (error_response (exn_str e)) = Some (VInt 500)
    /\ trace s' = trace s ++ [EvNow; EvNow]
                   ++ match client_fault env (trace s ++ [EvNow; EvNow]) with
                      | Some _ => []
                      | None => [EvNow; EvPut key body]
                      end
    /\ disk s' = disk s
    /\ forall k, String.prefix "logs/" k = false -> bucket s' !! k = bucket s !! k.
Proof.
  intros He.
  pose proof (validate_environment_error env s e He) as Hcls.
  rewrite (validate_environment_any env s (log_event EvNow s)) in He.
  assert (Hrun : monitoring env (clock env (trace s)) (log_event EvNow s)
                 = (Raise e, log_event EvNow s)).
  { unfold monitoring, bind at 1.
    pose proof (validate_environment_state env (log_event EvNow s)) as Hst.
    destruct (validate_environment env (log_event EvNow s)) as [[[]|e0] s0'];
      cbn [fst snd] in *; [discriminate|]. by injection He as ->; subst. }
  destruct (lambda_handler_error env s _ e Hrun) as (s' & Hl & (key & body & Ht) & Hd & Hb).
  rewrite Hcls in Hl. exists s', key, body. split_and!; try done.
  rewrite Ht. cbn [trace log_event]. rewrite <- !app_assoc. cbn [app].
  by destruct (client_fault env (trace s ++ [EvNow; EvNow])).
Qed.

Lemma monitoring_answer (t : Z) (s s' : State) (v : value) :
  monitoring env t s = (Ok v, s') -> item "statusCode" v = Some (VInt 200).
Proof.
  unfold monitoring, bind at 1.
  destruct (validate_environment env s) as [[[]|e0] s0]; [|discriminate].
  unfold bind at 1. rewrite boto3_client_run.
  destruct (client_fault env (trace s0)); [discriminate|].
  unfold bind at 1.
  destruct (scrape_boletines env s0) as [[links|e1] s1]; [|discriminate].
  unfold bind at 1.
  destruct (analyze_pdfs env links s1) as [[ups|e2] s2]; [|discriminate].
  unfold bind at 1.
  destruct (send_email env ups s2) as [[[]|e3] s3]; [|discriminate].
  unfold bind at 1, now. unfold bind at 1. cbn [trace log_event]. unfold bind.
  destruct (save_log env _ _ _) as [[[]|e4] s4]; [|discriminate].
  by intros [= <- <-].
Qed.

(** X3: [lambda_handler] never raises: in every state it returns a
    dictionary whose statusCode is 200 or 500. *)
Theorem lambda_handler_answers (s : State) :
  exists v s',
    lambda_handler env s = (Ok v, s')
    /\ (item "statusCode" v = Some (VInt 200) \/ item "statusCode" v = Some (VInt 500)).
Proof.
  destruct (monitoring env (clock env (trace s)) (log_event EvNow s)) as [[v|e] s1] eqn:Hrun.
  - exists v, s1. split; [by apply lambda_handler_ok|].
    left. by eapply monitoring_answer.
  - destruct (lambda_handler_error env s s1 e Hrun) as (s' & Hl & _).
    eexists _, s'. split; [exact Hl|]. by right.
Qed.

End Early.

(** ** Fetching *)

Section Fetching.

Variable env : Env.

Lemma attempt_outcome_ok (tr : list event) (u : string) (r : Response) :
  attempt_outcome env tr u = Ok r -> http_error u r = None.
Proof.
  unfold attempt_outcome. destruct (http_get env tr u) as [r'|e]; [|discriminate].
  destruct (http_error u r') eqn:Herr; [discriminate|]. by intros [= <-].
Qed.

Lemma http_error_none (u : string) (r : Response) :
  http_error u r = None <-> ~ (400 <= status_code r < 600)%Z.
Proof.
  unfold http_error.
  destruct (400 <=? status_code r)%Z eqn:H1, (status_code r <? 500)%Z eqn:H2,
           (500 <=? status_code r)%Z eqn:H3, (status_code r <? 600)%Z eqn:H4;
    simpl; split; try done; try lia.
Qed.

(** X11: a response [get_with_retries] returns never has a status from
    400 to 599: such an answer counts as a failed attempt. *)
Theorem get_with_retries_status (u : string) (max_retries : Z) (s : State) (r : Response) :
  fst (get_with_retries env u max_retries s) = Ok (Some r) ->
  ~ (400 <= status_code r < 600)%Z.
Proof.
  intros Hr. apply (http_error_none u).
  destruct (Z.le_gt_cases max_retries 0) as [Hle|Hgt].
  { by rewrite get_with_retries_none in Hr. }
  unfold get_with_retries in Hr. rewrite range_pos in Hr by lia.
  destruct (retry_loop_run env u (Z.to_nat max_retries - 1) 0 s) as (k & _ & _ & _ & Hres).
  replace (Z.of_nat (0 + S (Z.to_nat max_retries - 1))) with max_retries in * by lia.
  destruct (attempt_outcome env (trace s ++ retry_trace u k) u) as [response|[m|m|c m|m]] eqn:Hout;
    try (rewrite Hres in Hr; discriminate).
  - rewrite Hres in Hr. injection Hr as <-. by eapply attempt_outcome_ok.
  - destruct Hres as [_ Hres]. rewrite Hres in Hr. discriminate.
Qed.

Lemma scrape_boletines_state (s : State) :
  snd (scrape_boletines env s) = snd (get_with_retries env SAT_URL MAX_RETRIES s).
Proof.
  unfold scrape_boletines, try_except, bind at 1.
  destruct (get_with_retries env SAT_URL MAX_RETRIES s) as [[[response|]|e] s1];
    [|done|done].
  unfold bind, attr, ret, lift.
  destruct (find_all_a env (text response)) as [soup|e]; [|done].
  by destruct (collect_pdf_links (urljoin env) soup []).
Qed.

(** X12: [scrape_boletines] makes at most three requests, all for the
    page, with a pause of two seconds after each but the last, and nothing
    else: bucket and disk stay as they were.  Whatever goes wrong, it
    raises a [SATMonitorError] whose message starts with
    "Error al extraer boletines: ". *)
Theorem scrape_boletines_frame (s : State) :
  exists k,
    k <= 2
    /\ snd (scrape_boletines env s) = add_events (retry_trace SAT_URL k ++ [EvGet SAT_URL]) s
    /\ bucket (snd (scrape_boletines env s)) = bucket s
    /\ disk (snd (scrape_boletines env s)) = disk s
    /\ forall e, fst (scrape_boletines env s) = Raise e ->
         exists msg, e = SATMonitorError ("Error al extraer boletines: " +:+ msg).
Proof.
  destruct (retry_loop_run env SAT_URL 2 0 s) as (k & Hk & Hsnd & _).
  exists k. rewrite scrape_boletines_state. unfold get_with_retries.
  change (range MAX_RETRIES) with (map Z.of_nat (seq 0 3)).
  change MAX_RETRIES with (Z.of_nat (0 + 3)). rewrite Hsnd.
  split_and!; try done.
  intros e. unfold scrape_boletines, try_except.
  destruct (bind _ _ s) as [[links|e'] s']; [discriminate|].
  cbn [any_Exception]. intros [= <-]. by eexists.
Qed.

(** Three failed requests. *)
Lemma get_with_retries_down (u msg : string) (s : State) :
  (forall tr, http_get env tr u = HttpRaise (RequestException msg)) ->
  get_with_retries env u MAX_RETRIES s
  = (Raise (download_error u MAX_RETRIES (RequestException msg)),
     add_events [EvGet u; EvSleep RETRY_DELAY; EvGet u; EvSleep RETRY_DELAY; EvGet u] s).
Proof.
  intros Hdown.
  assert (Hout : forall tr, attempt_outcome env tr u = Raise (RequestException msg)).
  { intros tr. unfold attempt_outcome. by rewrite Hdown. }
  unfold get_with_retries. change (range MAX_RETRIES) with [0; 1; 2]%Z.
  cbn [retry_loop]. unfold try_except at 1. rewrite attempt_run, Hout.
  cbn [is_RequestException]. change (0 =? MAX_RETRIES - 1)%Z with false. cbv iota.
  rewrite sleep_then. unfold try_except at 1. rewrite attempt_run, Hout.
  cbn [is_RequestException]. change (1 =? MAX_RETRIES - 1)%Z with false. cbv iota.
  rewrite sleep_then. unfold try_except at 1. rewrite attempt_run, Hout.
  cbn [is_RequestException]. change (2 =? MAX_RETRIES - 1)%Z with true. cbv iota.
  unfold raise. by rewrite !add_events_app.
Qed.

(** X4: when the environment is configured, the S3 client can be built
    and every request for the page fails with a [RequestException] of text
    [msg], the run asks three
    times, pausing two seconds twice, and answers 500; the message wraps
    twice: what [scrape_boletines] says about what [get_with_retries] says
    about [msg].  It looks at no marker, uploads nothing and sends no
    mail. *)
Theorem page_down_run (s : State) (msg : string) :
  fst (validate_environment env s) = Ok tt ->
  (forall tr, client_fault env tr = None) ->
  (forall tr, http_get env tr SAT_URL = HttpRaise (RequestException msg)) ->
  exists s' key body,
    lambda_handler env s
    = (Ok (error_response
             ("Error al extraer boletines: Error al descargar " +:+ SAT_URL
              +:+ " después de 3 intentos: " +:+ msg)), s')
    /\ trace s' = trace s ++ [EvNow; EvGet SAT_URL; EvSleep 2; EvGet SAT_URL; EvSleep 2;
                              EvGet SAT_URL; EvNow; EvNow; EvPut key body]
    /\ disk s' = disk s
    /\ forall k, String.prefix "logs/" k = false -> bucket s' !! k = bucket s !! k.
Proof.
  intros Hv Hc Hdown. rewrite (validate_environment_any env s (log_event EvNow s)) in Hv.
  set (e := SATMonitorError ("Error al extraer boletines: Error al descargar " +:+ SAT_URL
                             +:+ " después de 3 intentos: " +:+ msg)).
  set (s1 := add_events [EvGet SAT_URL; EvSleep RETRY_DELAY; EvGet SAT_URL;
                         EvSleep RETRY_DELAY; EvGet SAT_URL] (log_event EvNow s)).
  assert (Hrun : monitoring env (clock env (trace s)) (log_event EvNow s) = (Raise e, s1)).
  { unfold monitoring, bind at 1.
    pose proof (validate_environment_state env (log_event EvNow s)) as Hst.
    destruct (validate_environment env (log_event EvNow s)) as [[[]|e0] s0'];
      cbn [fst snd] in *; [|discriminate]. subst s0'.
    unfold bind at 1. rewrite boto3_client_run, Hc.
    unfold bind at 1, scrape_boletines, try_except, bind at 1.
    by rewrite (get_with_retries_down SAT_URL msg). }
  destruct (lambda_handler_error env s _ e Hrun) as (s' & Hl & (key & body & Ht) & Hd & Hb).
  rewrite Hc in Ht.
  exists s', key, body. split_and!; try done.
  rewrite Ht. unfold s1. cbn [trace log_event add_events]. by rewrite <- !app_assoc.
Qed.

(** X22: when the environment is configured but the S3 client cannot be
    built, the run makes no request at all: it answers 500, with the text
    "Error interno del servidor" unless the failure is a [SATMonitorError],
    after reading the clock twice; the error log is tried only if a client
    can be built then. *)
Theorem client_down_run (s : State) (e : exn) :
  fst (validate_environment env s) = Ok tt ->
  client_fault env (trace s ++ [EvNow]) = Some e ->
  exists s' key body,
    lambda_handler env s
    = (Ok (error_response
             (if is_SATMonitorError e then exn_str e else "Error interno del servidor")), s')
    /\ trace s' = trace s ++ [EvNow; EvNow]
                   ++ match client_fault env (trace s ++ [EvNow; EvNow]) with
                      | Some _ => []
                      | None => [EvNow; EvPut key body]
                      end
    /\ disk s' = disk s
    /\ forall k, String.prefix "logs/" k = false -> bucket s' !! k = bucket s !! k.
Proof.
  intros Hv Hc. rewrite (validate_environment_any env s (log_event EvNow s)) in Hv.
  assert (Hrun : monitoring env (clock env (trace s)) (log_event EvNow s)
                 = (Raise e, log_event EvNow s)).
  { unfold monitoring, bind at 1.
    pose proof (validate_environment_state env (log_event EvNow s)) as Hst.
    destruct (validate_environment env (log_event EvNow s)) as [[[]|e0] s0'];
      cbn [fst snd] in *; [|discriminate]. subst s0'.
    unfold bind at 1. rewrite boto3_client_run. cbn [trace log_event]. by rewrite Hc. }
  destruct (lambda_handler_error env s _ e Hrun) as (s' & Hl & (key & body & Ht) & Hd & Hb).
  exists s', key, body. split_and!; try done.
  rewrite Ht. cbn [trace log_event]. rewrite <- !app_assoc. cbn [app].
  by destruct (client_fault env (trace s ++ [EvNow; EvNow])).
Qed.

End Fetching.

(** ** Markers and logs *)

Section Markers.

Variable env : Env.

Lemma mark_as_processed_run (u : string) (s : State) :
  let key := processed_key u in
  let body := "Procesado: " +:+ isoformat env (clock env (trace s)) +:+ nl +:+ "URL: " +:+ u in
  mark_as_processed env u s
  = (Ok tt,
     match s3_fault env (trace s ++ [EvNow]) (EvPut key body) with
     | Some _ => add_events [EvNow; EvPut key body] s
     | None => set_bucket (<[key := body]> (bucket s)) (add_events [EvNow; EvPut key body] s)
     end).
Proof.
  intros key body. unfold mark_as_processed, try_except, bind at 1, now.
  fold (processed_key u). fold key. fold body.
  unfold put_object, bind, s3_call. cbn [trace log_event].
  destruct (s3_fault env (trace s ++ [EvNow]) (EvPut key body)); simpl.
  - unfold ret, log_event, add_events. simpl. by rewrite <- app_assoc.
  - unfold modify, ret, set_bucket, log_event, add_events. simpl. by rewrite <- app_assoc.
Qed.

(** X6: [mark_as_processed] never raises.  It reads the clock and tries
    one write, of the marker of the URL, with the time and the URL as body;
    when the write fails the bucket stays as it was; no other key, and
    nothing on disk, changes either way. *)
Theorem mark_as_processed_spec (u : string) (s : State) :
  let key := processed_key u in
  let body := "Procesado: " +:+ isoformat env (clock env (trace s)) +:+ nl +:+ "URL: " +:+ u in
  let s' := snd (mark_as_processed env u s) in
  fst (mark_as_processed env u s) = Ok tt
  /\ trace s' = trace s ++ [EvNow; EvPut key body]
  /\ disk s' = disk s
  /\ bucket s' !! key
     = match s3_fault env (trace s ++ [EvNow]) (EvPut key body) with
       | Some _ => bucket s !! key
       | None => Some body
       end
  /\ forall k, k <> key -> bucket s' !! k = bucket s !! k.
Proof.
  intros key body s'. unfold s'. rewrite mark_as_processed_run. fold key. fold body.
  cbn [fst snd].
  destruct (s3_fault env (trace s ++ [EvNow]) (EvPut key body)); cbn [trace disk bucket
    add_events set_bucket]; split_and!; try done.
  - apply lookup_insert_eq.
  - intros k Hk. by apply lookup_insert_ne.
Qed.

(** X5: a marker that [mark_as_processed] managed to write is found by
    [file_already_processed] when the lookup goes through, and the loop
    then passes over the link with that one lookup. *)
Theorem mark_then_check (u : string) (s : State) :
  let s' := snd (mark_as_processed env u s) in
  s3_fault env (trace s ++ [EvNow])
    (EvPut (processed_key u)
       ("Procesado: " +:+ isoformat env (clock env (trace s)) +:+ nl +:+ "URL: " +:+ u)) = None ->
  s3_fault env (trace s') (EvHead (processed_key u)) = None ->
  fst (file_already_processed env u s') = Ok true
  /\ process_link env u s' = (Ok tt, log_event (EvHead (processed_key u)) s').
Proof.
  intros s' Hput Hhead.
  assert (Hfound : fst (file_already_processed env u s') = Ok true).
  { rewrite file_already_processed_run. cbn [fst]. rewrite Hhead.
    unfold s'. rewrite mark_as_processed_run, Hput. cbn [snd bucket set_bucket].
    rewrite lookup_insert_eq. by rewrite bool_decide_eq_true_2. }
  split; [exact Hfound|]. by rewrite process_link_run, Hfound.
Qed.

(** X7: [save_log] never raises.  It reads the clock and tries one write,
    under logs/<type>_<timestamp>.txt; when the write fails the bucket
    stays as it was; the keys outside logs/ and the disk are never
    touched. *)
Theorem save_log_spec (log_message log_type : string) (s : State) :
  let key := "logs/" +:+ log_type +:+ "_"
             +:+ strftime env "%Y%m%d_%H%M%S" (clock env (trace s)) +:+ ".txt" in
  let s' := snd (save_log env log_message log_type s) in
  fst (save_log env log_message log_type s) = Ok tt
  /\ trace s' = trace s ++ [EvNow; EvPut key log_message]
  /\ disk s' = disk s
  /\ bucket s' !! key
     = match s3_fault env (trace s ++ [EvNow]) (EvPut key log_message) with
       | Some _ => bucket s !! key
       | None => Some log_message
       end
  /\ forall k, String.prefix "logs/" k = false -> bucket s' !! k = bucket s !! k.
Proof.
  intros key s'. split_and!.
  - apply save_log_ok.
  - unfold s'. rewrite save_log_run. fold key. cbn [snd].
    by destruct (s3_fault env _ _).
  - unfold s'. rewrite save_log_run. cbn [snd]. by destruct (s3_fault env _ _).
  - unfold s'. rewrite save_log_run. fold key. cbn [snd].
    destruct (s3_fault env _ _); cbn [bucket add_events set_bucket]; [done|].
    apply lookup_insert_eq.
  - intros k Hk. by apply save_log_bucket.
Qed.

End Markers.

(** ** The mail *)

Lemma append_nil_r (s : string) : s +:+ "" = s.
Proof.
  induction s as [|a s IH]; [done|].
  change (String a (s +:+ "") = String a s). by rewrite IH.
Qed.

Lemma append_assoc (s1 s2 s3 : string) : (s1 +:+ s2) +:+ s3 = s1 +:+ s2 +:+ s3.
Proof.
  induction s1 as [|a s1 IH]; [done|].
  change (String a ((s1 +:+ s2) +:+ s3) = String a (s1 +:+ s2 +:+ s3)). by rewrite IH.
Qed.

Lemma fold_left_append (block : Update -> string) (ups : list Update) (init : string) :
  fold_left (fun body update => body +:+ block update) ups init
  = init +:+ all_blocks block ups.
Proof.
  revert init. induction ups as [|u ups IH]; intros init.
  - cbn [fold_left all_blocks fold_right]. by rewrite append_nil_r.
  - cbn [fold_left]. rewrite IH. unfold all_blocks. cbn [fold_right]. apply append_assoc.
Qed.

Lemma all_blocks_app (block : Update -> string) (ups1 ups2 : list Update) :
  all_blocks block (ups1 ++ ups2) = all_blocks block ups1 +:+ all_blocks block ups2.
Proof.
  induction ups1 as [|u ups1 IH]; [done|].
  change (block u +:+ all_blocks block (ups1 ++ ups2)
          = (block u +:+ all_blocks block ups1) +:+ all_blocks block ups2).
  by rewrite IH, append_assoc.
Qed.

(** X8: the plain body of the mail is its heading followed by one block
    per entry, in the order of the list, and the HTML body is its opening,
    one list item per entry in that order, and its closing; so the bodies
    of a list continued by another are those of the first with the blocks
    of the second put in.  A run with matches that gets the mail out sends
    exactly this message, from EMAIL_SENDER to EMAIL_RECIPIENT. *)
Theorem mail_bodies (env : Env) (ups more : list Update) (s : State) :
  text_body ups = text_header +:+ all_blocks text_block ups
  /\ html_body ups = html_header +:+ all_blocks html_block ups +:+ html_footer
  /\ all_blocks text_block (ups ++ more) = all_blocks text_block ups +:+ all_blocks text_block more
  /\ all_blocks html_block (ups ++ more) = all_blocks html_block ups +:+ all_blocks html_block more
  /\ (ups <> [] ->
      smtp_fault env (trace s) (environ env "EMAIL_PASSWORD") (compose_mail env ups) = None ->
      send_email env ups s
      = (Ok tt,
         add_events [EvSendmail {| mail_subject := EMAIL_SUBJECT;
                                   mail_from := environ env "EMAIL_SENDER";
                                   mail_to := environ env "EMAIL_RECIPIENT";
                                   mail_plain := text_header +:+ all_blocks text_block ups;
                                   mail_html := html_header +:+ all_blocks html_block ups
                                                +:+ html_footer |}] s)).
Proof.
  assert (Ht : text_body ups = text_header +:+ all_blocks text_block ups).
  { unfold text_body. apply (fold_left_append text_block). }
  assert (Hh : html_body ups = html_header +:+ all_blocks html_block ups +:+ html_footer).
  { unfold html_body. change (fold_left _ ups _)
      with (fold_left (fun body update => body +:+ html_block update) ups html_header).
    rewrite (fold_left_append html_block ups html_header). apply append_assoc. }
  split_and!; [exact Ht | exact Hh | apply all_blocks_app | apply all_blocks_app |].
  intros Hne Hok. rewrite send_email_run by done. rewrite Hok.
  unfold compose_mail. by rewrite Ht, Hh.
Qed.

(** ** One part of the state at a time

    [proj] is the part looked at; a computation is quiet when it leaves
    that part alone, and moves it by [Q] otherwise. *)

Section Projection.

Context {X : Type} (proj : State -> X) (Q : X -> X -> Prop).
Hypothesis Qrefl : forall x, Q x x.

#[local] Instance quiet_preorder : PreOrder (fun s s' : State => proj s' = proj s).
Proof.
  split.
  - by intros s.
  - intros s1 s2 s3 H1 H2. congruence.
Qed.

Lemma quiet_bind {A B} (c : M A) (k : A -> M B) :
  steps (fun s s' => proj s' = proj s) c ->
  (forall a, steps (fun s s' => proj s' = proj s) (k a)) ->
  steps (fun s s' => proj s' = proj s) (bind c k).
Proof. apply steps_bind, _. Qed.

Lemma quiet_try_except {A} (cls : exn -> bool) (c : M A) (h : exn -> M A) :
  steps (fun s s' => proj s' = proj s) c ->
  (forall e, steps (fun s s' => proj s' = proj s) (h e)) ->
  steps (fun s s' => proj s' = proj s) (try_except cls c h).
Proof. apply steps_try_except, _. Qed.

Lemma quiet_try_finally {A} (c : M A) (f : M unit) :
  steps (fun s s' => proj s' = proj s) c ->
  steps (fun s s' => proj s' = proj s) f ->
  steps (fun s s' => proj s' = proj s) (try_finally c f).
Proof. apply steps_try_finally, _. Qed.

Lemma quiet_for_each {Y} (xs : list Y) (body : Y -> M unit) :
  (forall x, steps (fun s s' => proj s' = proj s) (body x)) ->
  steps (fun s s' => proj s' = proj s) (for_each xs body).
Proof. apply steps_for_each, _. Qed.

Lemma moves_quiet {A} (c : M A) :
  steps (fun s s' => proj s' = proj s) c -> steps (fun s s' => Q (proj s) (proj s')) c.
Proof. intros H s. rewrite (H s). apply Qrefl. Qed.

Lemma moves_bind_l {A B} (c : M A) (k : A -> M B) :
  steps (fun s s' => proj s' = proj s) c ->
  (forall a, steps (fun s s' => Q (proj s) (proj s')) (k a)) ->
  steps (fun s s' => Q (proj s) (proj s')) (bind c k).
Proof.
  intros Hc Hk s. unfold bind. specialize (Hc s).
  destruct (c s) as [[a|e] s1]; cbn [snd] in *.
  - rewrite <- Hc. apply Hk.
  - rewrite Hc. apply Qrefl.
Qed.

Lemma moves_bind_r {A B} (c : M A) (k : A -> M B) :
  steps (fun s s' => Q (proj s) (proj s')) c ->
  (forall a, steps (fun s s' => proj s' = proj s) (k a)) ->
  steps (fun s s' => Q (proj s) (proj s')) (bind c k).
Proof.
  intros Hc Hk s. unfold bind. specialize (Hc s).
  destruct (c s) as [[a|e] s1]; cbn [snd] in *; [|done].
  by rewrite (Hk a s1).
Qed.

Lemma moves_try_finally {A} (c : M A) (f : M unit) :
  steps (fun s s' => Q (proj s) (proj s')) c ->
  steps (fun s s' => proj s' = proj s) f ->
  steps (fun s s' => Q (proj s) (proj s')) (try_finally c f).
Proof.
  intros Hc Hf s. unfold try_finally. specialize (Hc s).
  destruct (c s) as [r s1]. specialize (Hf s1).
  destruct (f s1) as [[[]|e] s2]; cbn [snd] in *; by rewrite Hf.
Qed.

End Projection.

(** ** What one link adds *)

Section Entries.

Variable env : Env.

Lemma adds_entry_refl (u : string) (l : list Update) : adds_entry env u l l.
Proof. by left. Qed.

(** The list grew by nothing, or by the entry of [u] for some text with
    keywords. *)
Lemma analyze_link_entry (u : string) :
  steps (fun s s' => adds_entry env u (updates s) (updates s')) (analyze_link env u).
Proof.
  unfold analyze_link.
  apply (moves_bind_l updates (adds_entry env u) (adds_entry_refl u)).
  { intros s. apply get_with_retries_updates. }
  intros pdf_response.
  apply (moves_bind_l updates (adds_entry env u) (adds_entry_refl u)).
  { intros s. unfold NamedTemporaryFile. by destruct (disk s !! _). }
  intros tmp_path.
  apply (moves_bind_l updates (adds_entry env u) (adds_entry_refl u)).
  { intros s. by destruct pdf_response. }
  intros data.
  apply (moves_bind_l updates (adds_entry env u) (adds_entry_refl u)).
  { intros s. unfold file_write. by destruct (write_fault env _ _). }
  intros _. apply (moves_try_finally updates (adds_entry env u)).
  - apply (moves_bind_l updates (adds_entry env u) (adds_entry_refl u)).
    { intros s. by rewrite extract_text_from_pdf_run. }
    intros text. destruct (negb (Str.truthy text)); [intros s; by left|].
    apply (moves_bind_r updates (adds_entry env u)).
    + destruct (find_keywords (lower env) KEYWORDS text []) as [|kw found] eqn:Hfound;
        [intros s; by left|].
      intros s. right. exists text, (clock env (trace s)). unfold entry. rewrite Hfound.
      split; [reflexivity | done].
    + intros _. apply (quiet_bind updates); [by intros s|].
      intros today. apply (quiet_bind updates).
      * intros s. apply upload_file_updates.
      * intros _ s. apply mark_as_processed_updates.
  - intros s. unfold bind, path_exists, get_state, ret, unlink, bind, emit, modify.
    by destruct (bool_decide _).
Qed.

Lemma process_link_entry (u : string) (s : State) :
  adds_entry env u (updates s) (updates (snd (process_link env u s))).
Proof.
  rewrite process_link_run. cbn [snd].
  destruct (fst (file_already_processed env u s)) as [[]|e]; try by left.
  apply (analyze_link_entry u (log_event (EvHead (processed_key u)) s)).
Qed.

(** What [updates] gains in the loop: entries of the links, in their
    order, at most one for each. *)
Lemma for_each_entries (links : list string) (s : State) :
  exists new,
    updates (snd (for_each links (process_link env) s)) = updates s ++ new
    /\ sublist (map url new) links
    /\ Forall (fun upd => exists text t, upd = entry env (url upd) text t
                                         /\ keywords upd <> []) new.
Proof.
  revert s. induction links as [|u links IH]; intros s.
  - exists []. cbn. by rewrite app_nil_r.
  - cbn [for_each]. unfold bind.
    pose proof (process_link_entry u s) as Hu. pose proof (process_link_ok env u s) as Hok.
    destruct (process_link env u s) as [[[]|e] s1]; [|discriminate]. cbn [snd] in Hu.
    destruct (IH s1) as (new & Hnew & Hsub & Hall).
    destruct Hu as [Hsame|(text & t & Hadd & Hkw)].
    + exists new. rewrite Hnew, Hsame. split_and!; [done | by apply sublist_cons | done].
    + exists (entry env u text t :: new). rewrite Hnew, Hadd, <- app_assoc.
      split_and!; [done | by apply sublist_skip | ].
      constructor; [|done]. by exists text, t.
Qed.

Lemma analyze_pdfs_entries (pdf_links : list string) (s : State) (ups : list Update) :
  fst (analyze_pdfs env pdf_links s) = Ok ups ->
  sublist (map url ups) (take 10 pdf_links)
  /\ Forall (fun upd => exists text t, upd = entry env (url upd) text t
                                       /\ keywords upd <> []) ups.
Proof.
  rewrite analyze_pdfs_run. destruct (client_fault env (trace s)); [discriminate|].
  cbn [fst]. intros [= <-].
  destruct (for_each_entries (take 10 pdf_links) (set_updates [] s)) as (new & Hnew & Hsub & Hall).
  rewrite Hnew. cbn [updates set_updates app]. done.
Qed.

Lemma analyze_pdfs_length (pdf_links : list string) (s : State) (ups : list Update) :
  fst (analyze_pdfs env pdf_links s) = Ok ups ->
  length ups <= 10 /\ length ups <= length pdf_links.
Proof.
  intros Hups. destruct (analyze_pdfs_entries pdf_links s ups Hups) as [Hsub _].
  apply sublist_length in Hsub. rewrite length_map, length_take in Hsub. lia.
Qed.

(** X9: [analyze_pdfs] raises only when the S3 client cannot be built,
    and then what [boto3.client] raised, with nothing done.  Otherwise the
    list it returns has at most one entry for each of the first ten links,
    in the order of the links, so at most ten; the entry of a link has the
    link as its url, the file name of the link as its pdf, and as its
    keywords those found in some text, at least one. *)
Theorem analyze_pdfs_result_shape (pdf_links : list string) (s : State) :
  match client_fault env (trace s) with
  | Some e => analyze_pdfs env pdf_links s = (Raise e, set_updates [] s)
  | None =>
      exists ups,
        fst (analyze_pdfs env pdf_links s) = Ok ups
        /\ sublist (map url ups) (take 10 pdf_links)
        /\ length ups <= 10
        /\ Forall (fun upd =>
                     pdf upd = pdf_name_of env (url upd)
                     /\ keywords upd <> []
                     /\ exists text, keywords upd = find_keywords (lower env) KEYWORDS text [])
                  ups
  end.
Proof.
  pose proof (analyze_pdfs_fst env pdf_links s) as Hok.
  pose proof (analyze_pdfs_run env pdf_links s) as Hrun.
  destruct (client_fault env (trace s)) as [e|]; [exact Hrun|].
  exists (updates (snd (analyze_pdfs env pdf_links s))). split; [exact Hok|].
  destruct (analyze_pdfs_entries pdf_links s _ Hok) as [Hsub Hall].
  split_and!; [done | by apply (analyze_pdfs_length pdf_links s) |].
  eapply Forall_impl; [exact Hall|]. intros upd (text & t & Hupd & Hkw).
  split_and!; [by rewrite Hupd | done | exists text; by rewrite Hupd].
Qed.

(** X10: in an answer with statusCode 200, [updates_found] is at most 10
    and at most [pdfs_analyzed]. *)
Theorem updates_found_bound (s s' : State) (v : value) :
  lambda_handler env s = (Ok v, s') ->
  item "statusCode" v = Some (VInt 200) ->
  exists found analyzed : nat,
    (item "body" v ≫= item "updates_found") = Some (VInt (Z.of_nat found))
    /\ (item "body" v ≫= item "pdfs_analyzed") = Some (VInt (Z.of_nat analyzed))
    /\ found <= 10 /\ found <= analyzed.
Proof.
  intros Hrun Hstatus.
  destruct (lambda_handler_inv env s s' v Hrun Hstatus)
    as (links & s1 & ups & s2 & s3 & _ & Hs & Ha & He & ->).
  exists (length ups), (length links). split; [done|]. split; [done|].
  apply (analyze_pdfs_length links s1). by rewrite Ha.
Qed.

End Entries.

(** ** Archives and markers *)

Section Archives.

Variable env : Env.

Lemma upload_file_run (path key : string) (s : State) :
  upload_file env path key s
  = match disk s !! path with
    | None => (Raise (OtherException ("[Errno 2] No such file or directory: " +:+ path)), s)
    | Some data =>
        match s3_fault env (trace s) (EvUpload path key) with
        | Some e => (Raise e, log_event (EvUpload path key) s)
        | None => (Ok tt, set_bucket (<[key := data]> (bucket s)) (log_event (EvUpload path key) s))
        end
    end.
Proof.
  unfold upload_file, bind at 1, get_state. destruct (disk s !! path) as [data|]; [|done].
  unfold bind, s3_call. by destruct (s3_fault env (trace s) (EvUpload path key)).
Qed.

Lemma archive_key_processed_key (day u u' : string) : archive_key env day u <> processed_key u'.
Proof. unfold archive_key, processed_key. intros H. discriminate H. Qed.

Lemma archives_refl (u : string) (b : gmap string string) : archives env u b b.
Proof. by left. Qed.

(** The upload and the marker, one after the other. *)
Lemma upload_then_mark (u tmp_path day : string) :
  steps (fun s s' => archives env u (bucket s) (bucket s'))
        (upload_file env tmp_path (archive_key env day u) ;; mark_as_processed env u).
Proof.
  intros s. unfold bind. rewrite upload_file_run.
  destruct (disk s !! tmp_path) as [data|]; [|by left].
  destruct (s3_fault env (trace s) (EvUpload tmp_path (archive_key env day u))); [by left|].
  rewrite mark_as_processed_run. cbn [snd]. right. exists day, data.
  destruct (s3_fault env _ _); cbn [bucket set_bucket add_events log_event].
  - apply lookup_insert_eq.
  - rewrite lookup_insert_ne by (intros H; symmetry in H; by apply archive_key_processed_key in H).
    apply lookup_insert_eq.
Qed.

Lemma analyze_link_archives (u : string) :
  steps (fun s s' => archives env u (bucket s) (bucket s')) (analyze_link env u).
Proof.
  unfold analyze_link.
  apply (moves_bind_l bucket (archives env u) (archives_refl u)).
  { intros s. destruct (get_with_retries_state env u s) as [evs ->]. done. }
  intros pdf_response.
  apply (moves_bind_l bucket (archives env u) (archives_refl u)).
  { intros s. unfold NamedTemporaryFile. by destruct (disk s !! _). }
  intros tmp_path.
  apply (moves_bind_l bucket (archives env u) (archives_refl u)).
  { intros s. by destruct pdf_response. }
  intros data.
  apply (moves_bind_l bucket (archives env u) (archives_refl u)).
  { intros s. unfold file_write. by destruct (write_fault env _ _). }
  intros _. apply (moves_try_finally bucket (archives env u)).
  - apply (moves_bind_l bucket (archives env u) (archives_refl u)).
    { intros s. by rewrite extract_text_from_pdf_run. }
    intros text. destruct (negb (Str.truthy text)); [intros s; by left|].
    apply (moves_bind_l bucket (archives env u) (archives_refl u)).
    { by destruct (find_keywords (lower env) KEYWORDS text []). }
    intros _. apply (moves_bind_l bucket (archives env u) (archives_refl u)); [by intros s|].
    intros today. apply upload_then_mark.
  - intros s. unfold bind, path_exists, get_state, ret, unlink, bind, emit, modify.
    by destruct (bool_decide _).
Qed.

(** X14: a link gets its marker only after its document was archived:
    when the marker of the link was not in the bucket before the loop
    body ran and is there after, the bucket also has the document under
    boletines/<day>/<file name> for some day. *)
Theorem marked_after_archived (u : string) (s : State) :
  bucket s !! processed_key u = None ->
  is_Some (bucket (snd (process_link env u s)) !! processed_key u) ->
  exists day data,
    bucket (snd (process_link env u s)) !! ("boletines/" +:+ day +:+ "/" +:+ pdf_name_of env u)
    = Some data.
Proof.
  intros Hnew. rewrite process_link_run. cbn [snd].
  assert (Hs1 : ~ is_Some (bucket (log_event (EvHead (processed_key u)) s) !! processed_key u)).
  { cbn [bucket log_event]. rewrite Hnew. by intros [x Hx]. }
  destruct (fst (file_already_processed env u s)) as [[]|e]; try done.
  destruct (analyze_link_archives u (log_event (EvHead (processed_key u)) s)) as [Hsame|Harch].
  - rewrite Hsame. done.
  - intros _. exact Harch.
Qed.

(** When no document gives any text, a link changes neither the bucket
    nor the list. *)
Lemma analyze_link_no_text (u : string) :
  (forall data pages, pdf_pages env data = Some pages -> omap good_text pages = []) ->
  steps (fun s s' => (bucket s', updates s') = (bucket s, updates s)) (analyze_link env u).
Proof.
  intros Hnone. unfold analyze_link.
  apply (quiet_bind (fun s => (bucket s, updates s))).
  { intros s. destruct (get_with_retries_state env u s) as [evs ->]. done. }
  intros pdf_response. apply (quiet_bind (fun s => (bucket s, updates s))).
  { intros s. unfold NamedTemporaryFile. by destruct (disk s !! _). }
  intros tmp_path. apply (quiet_bind (fun s => (bucket s, updates s))).
  { intros s. by destruct pdf_response. }
  intros data. apply (quiet_bind (fun s => (bucket s, updates s))).
  { intros s. unfold file_write. by destruct (write_fault env _ _). }
  intros _. apply (quiet_try_finally (fun s => (bucket s, updates s))).
  - intros s.
    assert (Htext : match disk s !! tmp_path with
                    | Some file =>
                        match pdf_pages env file with
                        | Some pages => Str.join " " (omap good_text pages)
                        | None => ""
                        end
                    | None => ""
                    end = "").
    { destruct (disk s !! tmp_path) as [file|]; [|done].
      destruct (pdf_pages env file) as [pages|] eqn:Hpages; [|done].
      by rewrite (Hnone file pages Hpages). }
    match goal with
    | |- context [bind (extract_text_from_pdf env tmp_path) ?k] =>
        assert (Hrun : bind (extract_text_from_pdf env tmp_path) k s = (Ok tt, s))
    end.
    { unfold bind at 1. rewrite extract_text_from_pdf_run, Htext. reflexivity. }
    cbv beta. by rewrite Hrun.
  - intros s. unfold bind, path_exists, get_state, ret, unlink, bind, emit, modify.
    by destruct (bool_decide _).
Qed.

(** X15: when no document gives any text, because it does not open as a
    PDF or because its pages have none, [analyze_pdfs] returns no entry
    (or raises what [boto3.client] raised, when the S3 client cannot be
    built) and leaves the bucket as it was: nothing is archived and nothing
    is marked, so a later run finds the same links unmarked. *)
Theorem no_text_no_marker (pdf_links : list string) (s : State) :
  (forall data pages, pdf_pages env data = Some pages -> omap good_text pages = []) ->
  fst (analyze_pdfs env pdf_links s)
  = match client_fault env (trace s) with Some e => Raise e | None => Ok [] end
  /\ bucket (snd (analyze_pdfs env pdf_links s)) = bucket s.
Proof.
  intros Hnone. rewrite analyze_pdfs_run.
  destruct (client_fault env (trace s)) as [e|]; [done|]. cbn [fst snd].
  assert (Hquiet : (bucket (snd (for_each (take 10 pdf_links) (process_link env) (set_updates [] s))),
                    updates (snd (for_each (take 10 pdf_links) (process_link env) (set_updates [] s))))
                   = (bucket (set_updates [] s), updates (set_updates [] s))).
  { apply (quiet_for_each (fun s => (bucket s, updates s))). intros u s1.
    rewrite process_link_run. cbn [snd].
    destruct (fst (file_already_processed env u s1)) as [[]|e]; try done.
    apply (analyze_link_no_text u Hnone (log_event (EvHead (processed_key u)) s1)). }
  cbn [bucket updates set_updates] in Hquiet. injection Hquiet as Hb Hu.
  by rewrite Hb, Hu.
Qed.

(** X13: unless a write to a temporary file fails, [analyze_pdfs] and the
    whole run leave the disk as they found it: every temporary file is
    removed again. *)
Theorem disk_restored (pdf_links : list string) (s : State) :
  (forall tr data, write_fault env tr data = None) ->
  disk (snd (analyze_pdfs env pdf_links s)) = disk s
  /\ disk (snd (lambda_handler env s)) = disk s.
Proof.
  intros Hwrite. split; [by apply analyze_pdfs_disk | by apply lambda_handler_disk].
Qed.

End Archives.

(** ** File names *)

Lemma contains_slash_cons (a : ascii) (s : string) :
  Str.contains "/" (String a s) = Ascii.eqb a "/" || Str.contains "/" s.
Proof.
  rewrite contains_cons. f_equal. cbn [String.prefix].
  destruct (ascii_dec "/" a) as [<-|Hne].
  - by destruct s.
  - symmetry. apply Ascii.eqb_neq. congruence.
Qed.

Lemma after_last_slash (path : string) : Str.contains "/" (basename path) = false.
Proof.
  unfold basename. induction path as [|a path IH]; [done|].
  cbn [Str.after_last]. destruct (Ascii.eqb a "/") eqn:Ha; [exact IH|].
  destruct (Str.contains "/" path) eqn:Hc; [exact IH|].
  by rewrite contains_slash_cons, Ha, Hc.
Qed.

(** X16: the file name taken from a link is never empty and has no
    slash in it; when the path of the link ends in a slash, or is empty,
    the name is documento.pdf. *)
Theorem pdf_name_of_spec (env : Env) (pdf_url : string) :
  pdf_name_of env pdf_url <> ""
  /\ Str.contains "/" (pdf_name_of env pdf_url) = false
  /\ (basename (urlparse_path env pdf_url) = "" -> pdf_name_of env pdf_url = "documento.pdf")
  /\ (forall dir, urlparse_path env pdf_url = dir +:+ "/" ->
        pdf_name_of env pdf_url = "documento.pdf").
Proof.
  unfold pdf_name_of.
  pose proof (after_last_slash (urlparse_path env pdf_url)) as Hslash.
  split_and!.
  - destruct (basename (urlparse_path env pdf_url)); done.
  - destruct (basename (urlparse_path env pdf_url)); done.
  - by intros ->.
  - intros dir ->. 
    assert (Hb : basename (dir +:+ "/") = "").
    { unfold basename. induction dir as [|a dir IH]; [done|].
      change (String a dir +:+ "/") with (String a (dir +:+ "/")).
      cbn [Str.after_last]. rewrite IH.
      destruct (Ascii.eqb a "/"); [done|].
      assert (Hc : Str.contains "/" (dir +:+ "/") = true).
      { apply contains_spec. exists dir, "". by rewrite append_nil_r. }
      by rewrite Hc. }
    by rewrite Hb.
Qed.

(** ** The calls of a whole run *)

Section Calls.

Variable env : Env.

(** Where the body of the [try] of [lambda_handler] may stop. *)
Lemma monitoring_stops (t0 : Z) (s : State) :
  (exists e, monitoring env t0 s = (Raise e, s))
  \/ (exists e s1, scrape_boletines env s = (Raise e, s1)
                   /\ monitoring env t0 s = (Raise e, s1))
  \/ (exists links s1 e,
        scrape_boletines env s = (Ok links, s1)
        /\ monitoring env t0 s = (Raise e, set_updates [] s1))
  \/ (exists links s1 ups s2 e s3,
        scrape_boletines env s = (Ok links, s1)
        /\ analyze_pdfs env links s1 = (Ok ups, s2)
        /\ send_email env ups s2 = (Raise e, s3)
        /\ monitoring env t0 s = (Raise e, s3))
  \/ (exists links s1 ups s2 s3 v,
        scrape_boletines env s = (Ok links, s1)
        /\ analyze_pdfs env links s1 = (Ok ups, s2)
        /\ send_email env ups s2 = (Ok tt, s3)
        /\ monitoring env t0 s
           = (Ok v, snd (save_log env (success_log env (clock env (trace s3 ++ [EvNow]))
                                         (clock env (trace s3) - t0) links ups)
                           "success" (log_event EvNow (log_event EvNow s3))))).
Proof.
  pose proof (validate_environment_state env s) as Hst.
  destruct (validate_environment env s) as [[[]|e0] s0] eqn:Hv; cbn [snd] in Hst; subst s0.
  2:{ left. exists e0. unfold monitoring, bind at 1. by rewrite Hv. }
  destruct (client_fault env (trace s)) as [ec|] eqn:Hc.
  { left. exists ec. unfold monitoring, bind at 1. rewrite Hv.
    unfold bind at 1. by rewrite boto3_client_run, Hc. }
  right.
  destruct (scrape_boletines env s) as [[links|e1] s1] eqn:Hs.
  2:{ left. exists e1, s1. split; [done|].
      unfold monitoring, bind at 1. rewrite Hv. unfold bind at 1.
      rewrite boto3_client_run, Hc. unfold bind at 1. by rewrite Hs. }
  right.
  pose proof (analyze_pdfs_run env links s1) as Ha.
  destruct (client_fault env (trace s1)) as [ea|] eqn:Hca.
  { left. exists links, s1, ea. split; [done|].
    unfold monitoring, bind at 1. rewrite Hv. unfold bind at 1.
    rewrite boto3_client_run, Hc. unfold bind at 1. rewrite Hs.
    unfold bind at 1. by rewrite Ha. }
  right.
  set (ups := updates (snd (for_each (take 10 links) (process_link env) (set_updates [] s1)))) in Ha.
  set (s2 := snd (for_each (take 10 links) (process_link env) (set_updates [] s1))) in Ha.
  destruct (send_email env ups s2) as [[[]|e3] s3] eqn:He.
  - right. exists links, s1, ups, s2, s3. eexists. split_and!; try done.
    eapply monitoring_success; try done. by rewrite Hv.
  - left. exists links, s1, ups, s2, e3, s3. split_and!; try done.
    unfold monitoring, bind at 1. rewrite Hv. unfold bind at 1.
    rewrite boto3_client_run, Hc. unfold bind at 1. rewrite Hs.
    unfold bind at 1. rewrite Ha. unfold bind at 1. by rewrite He.
Qed.

Lemma scrape_boletines_calls (s : State) :
  exists evs,
    trace (snd (scrape_boletines env s)) = trace s ++ evs
    /\ forall k, count k evs <= match k with KGet => 3 | KSleep => 2 | _ => 0 end.
Proof.
  rewrite scrape_boletines_state.
  destruct (get_with_retries_costs env (fun _ => True) SAT_URL I (fun _ => I) s)
    as (evs & Ht & _ & Hb).
  by exists evs.
Qed.

Lemma send_email_calls (ups : list Update) (s : State) :
  exists evs,
    trace (snd (send_email env ups s)) = trace s ++ evs
    /\ forall k, count k evs <= match k with KSendmail => 1 | _ => 0 end.
Proof.
  destruct ups as [|u ups].
  - exists []. rewrite send_email_nil, app_nil_r. split; [done|]. intros []; cbn; lia.
  - rewrite send_email_run by done. destruct (smtp_fault env _ _ _).
    + exists []. rewrite app_nil_r. split; [done|]. intros []; cbn; lia.
    + eexists [_]. split; [done|]. intros []; cbn; lia.
Qed.

(** The calls up to the notification. *)
Lemma monitoring_calls (s s1 s2 s3 : State) (links : list string) (ups : list Update)
    (r : result unit) :
  scrape_boletines env s = (Ok links, s1) ->
  analyze_pdfs env links s1 = (Ok ups, s2) ->
  send_email env ups s2 = (r, s3) ->
  exists evs,
    trace s3 = trace s ++ evs
    /\ forall k, count k evs + match k with KNow => 4 | KPut => 1 | _ => 0 end <= run_budget k.
Proof.
  intros Hs Ha He.
  destruct (scrape_boletines_calls s) as (e1 & Ht1 & Hb1). rewrite Hs in Ht1.
  destruct (analyze_pdfs_costs env links s1) as (e2 & Ht2 & _ & Hb2). rewrite Ha in Ht2.
  destruct (send_email_calls ups s2) as (e3 & Ht3 & Hb3). rewrite He in Ht3.
  cbn [snd] in *. exists (e1 ++ e2 ++ e3). split.
  - by rewrite Ht3, Ht2, Ht1, <- !app_assoc.
  - intros k. rewrite !count_app.
    specialize (Hb1 k). specialize (Hb2 k). specialize (Hb3 k).
    destruct k; cbn [link_budget run_budget] in *; lia.
Qed.

(** X19: a run makes at most 33 requests and pauses at most 22 times,
    looks up at most 10 markers, uploads at most 10 documents, writes at
    most 11 objects (ten markers and one log entry), creates, writes and
    removes at most 10 temporary files, reads the clock at most 34 times
    and sends at most one mail. *)
Theorem run_calls (s : State) :
  exists evs,
    trace (snd (lambda_handler env s)) = trace s ++ evs
    /\ forall k, count k evs <= run_budget k.
Proof.
  set (s0 := log_event EvNow s).
  assert (Herr : forall e sm evs,
            monitoring env (clock env (trace s)) s0 = (Raise e, sm) ->
            trace sm = trace s0 ++ evs ->
            (forall k, count k evs + match k with KNow => 3 | KPut => 1 | _ => 0 end
                       <= run_budget k) ->
            exists evs', trace (snd (lambda_handler env s)) = trace s ++ evs'
                         /\ forall k, count k evs' <= run_budget k).
  { intros e sm evs Hrun Ht Hb.
    destruct (lambda_handler_error env s sm e Hrun) as (s' & Hl & (key & body & Ht') & _).
    rewrite Hl. cbn [snd].
    exists ([EvNow] ++ evs ++ EvNow :: match client_fault env (trace sm ++ [EvNow]) with
                                      | Some _ => []
                                      | None => [EvNow; EvPut key body]
                                      end).
    split.
    - rewrite Ht', Ht. unfold s0. cbn [trace log_event]. by rewrite <- !app_assoc.
    - intros k. rewrite !count_app. specialize (Hb k).
      destruct (client_fault env (trace sm ++ [EvNow]));
        destruct k; cbn [run_budget] in *; cbn; lia. }
  destruct (monitoring_stops (clock env (trace s)) s0)
    as [(e & Hrun)|[(e & s1 & Hs & Hrun)|[(links & s1 & e & Hs & Hrun)
       |[(links & s1 & ups & s2 & e & s3 & Hs & Ha & He & Hrun)
       |(links & s1 & ups & s2 & s3 & v & Hs & Ha & He & Hrun)]]]].
  - apply (Herr e s0 [] Hrun); [by rewrite app_nil_r|]. intros []; cbn; lia.
  - destruct (scrape_boletines_calls s0) as (e1 & Ht1 & Hb1). rewrite Hs in Ht1.
    apply (Herr e s1 e1 Hrun Ht1). intros k. specialize (Hb1 k).
    destruct k; cbn [run_budget]; lia.
  - destruct (scrape_boletines_calls s0) as (e1 & Ht1 & Hb1). rewrite Hs in Ht1.
    apply (Herr e (set_updates [] s1) e1 Hrun Ht1). intros k. specialize (Hb1 k).
    destruct k; cbn [run_budget]; lia.
  - destruct (monitoring_calls s0 s1 s2 s3 links ups _ Hs Ha He) as (evs & Ht & Hb).
    apply (Herr e s3 evs Hrun Ht). intros k. specialize (Hb k).
    destruct k; cbn [run_budget] in *; lia.
  - destruct (monitoring_calls s0 s1 s2 s3 links ups _ Hs Ha He) as (evs & Ht & Hb).
    rewrite (lambda_handler_ok env s _ v Hrun). cbn [snd].
    destruct (save_log_trace env (success_log env (clock env (trace s3 ++ [EvNow]))
                (clock env (trace s3) - clock env (trace s)) links ups) "success"
                (log_event EvNow (log_event EvNow s3))) as [key Hk].
    exists ([EvNow] ++ evs ++ [EvNow; EvNow; EvNow; EvPut key
              (success_log env (clock env (trace s3 ++ [EvNow]))
                 (clock env (trace s3) - clock env (trace s)) links ups)]).
    split.
    + rewrite Hk. cbn [trace log_event]. rewrite Ht. unfold s0. cbn [trace log_event].
      by rewrite <- !app_assoc.
    + intros k. rewrite !count_app. specialize (Hb k).
      destruct k; cbn [run_budget] in *; cbn; lia.
Qed.

End Calls.

(** ** More runs *)

(** X2 in a world where EMAIL_SENDER is unset and EMAIL_PASSWORD is
    empty. *)
Lemma misconfigured_run_witness :
  exists s' key body,
    lambda_handler Worlds.no_password (Scenario.start ∅)
    = (Ok (error_response "Variables de entorno faltantes: EMAIL_SENDER, EMAIL_PASSWORD"), s')
    /\ trace s' = [EvNow; EvNow; EvNow; EvPut key body].
Proof.
  destruct (misconfigured_run Worlds.no_password (Scenario.start ∅)
              (SATMonitorError "Variables de entorno faltantes: EMAIL_SENDER, EMAIL_PASSWORD"))
    as (s' & key & body & Hl & _ & Ht & _).
  - vm_compute. reflexivity.
  - exists s', key, body. split; [exact Hl | exact Ht].
Defined.

(** X4 in a world where every request times out. *)
Lemma page_down_run_witness :
  exists s' key body,
    lambda_handler Worlds.offline (Scenario.start ∅)
    = (Ok (error_response
             ("Error al extraer boletines: Error al descargar " +:+ SAT_URL
              +:+ " después de 3 intentos: timed out")), s')
    /\ trace s' = [EvNow; EvGet SAT_URL; EvSleep 2; EvGet SAT_URL; EvSleep 2;
                   EvGet SAT_URL; EvNow; EvNow; EvPut key body].
Proof.
  destruct (page_down_run Worlds.offline (Scenario.start ∅) "timed out")
    as (s' & key & body & Hl & Ht & _).
  - vm_compute. reflexivity.
  - intros tr. reflexivity.
  - intros tr. reflexivity.
  - exists s', key, body. split; [exact Hl | exact Ht].
Defined.

(** X22 in a world where no S3 client can be built: the answer is the
    generic one, and the run reads the clock twice and does nothing else. *)
Lemma client_down_run_witness :
  exists s',
    lambda_handler Worlds.no_client (Scenario.start ∅)
    = (Ok (error_response "Error interno del servidor"), s')
    /\ trace s' = [EvNow; EvNow]
    /\ disk s' = ∅.
Proof.
  destruct (client_down_run Worlds.no_client (Scenario.start ∅)
              (OtherException "You must specify a region."))
    as (s' & key & body & Hl & Ht & Hd & _).
  - vm_compute. reflexivity.
  - reflexivity.
  - exists s'. split; [exact Hl|]. split; [exact Ht | exact Hd].
Defined.

(** X5 for the first document of the page, on an empty bucket. *)
Lemma mark_then_check_witness :
  fst (file_already_processed Worlds.plain (Scenario.host +:+ "/boletin/a.pdf")
         (snd (mark_as_processed Worlds.plain (Scenario.host +:+ "/boletin/a.pdf")
                 (Scenario.start ∅)))) = Ok true.
Proof.
  apply (mark_then_check Worlds.plain (Scenario.host +:+ "/boletin/a.pdf") (Scenario.start ∅));
    reflexivity.
Defined.

(** X10 in the world of the twenty-five documents. *)
Lemma updates_found_bound_witness :
  exists found analyzed : nat,
    (item "body" Worlds.answer25 ≫= item "updates_found") = Some (VInt (Z.of_nat found))
    /\ (item "body" Worlds.answer25 ≫= item "pdfs_analyzed") = Some (VInt (Z.of_nat analyzed))
    /\ found <= 10 /\ found <= analyzed.
Proof.
  apply (updates_found_bound (Scenario.world Scenario.anchors25 0 true true) (Scenario.start ∅)
           (snd (lambda_handler (Scenario.world Scenario.anchors25 0 true true)
                   (Scenario.start ∅)))
           Worlds.answer25).
  - apply run_eq. vm_compute. reflexivity.
  - reflexivity.
Defined.

(** X11 for the page, which is served with status 200. *)
Lemma get_with_retries_status_witness :
  fst (get_with_retries Worlds.plain SAT_URL MAX_RETRIES (Scenario.start ∅))
  = Ok (Some Worlds.page)
  /\ ~ (400 <= status_code Worlds.page < 600)%Z.
Proof.
  assert (H : fst (get_with_retries Worlds.plain SAT_URL MAX_RETRIES (Scenario.start ∅))
              = Ok (Some Worlds.page)) by (vm_compute; reflexivity).
  split; [exact H|].
  exact (get_with_retries_status Worlds.plain SAT_URL MAX_RETRIES (Scenario.start ∅)
           Worlds.page H).
Defined.

(** X13 in a world where the disk works. *)
Lemma disk_restored_witness :
  disk (snd (analyze_pdfs Worlds.plain Scenario.links2 (Scenario.start ∅))) = disk (Scenario.start ∅)
  /\ disk (snd (lambda_handler Worlds.plain (Scenario.start ∅))) = disk (Scenario.start ∅).
Proof.
  apply (disk_restored Worlds.plain Scenario.links2 (Scenario.start ∅)).
  intros tr data. reflexivity.
Defined.

(** X14 for the first document of the page, on an empty bucket. *)
Lemma marked_after_archived_witness :
  exists day data,
    bucket (snd (process_link Worlds.plain (Scenario.host +:+ "/boletin/a.pdf") (Scenario.start ∅)))
      !! ("boletines/" +:+ day +:+ "/"
          +:+ pdf_name_of Worlds.plain (Scenario.host +:+ "/boletin/a.pdf"))
    = Some data.
Proof.
  apply (marked_after_archived Worlds.plain (Scenario.host +:+ "/boletin/a.pdf") (Scenario.start ∅)).
  - vm_compute. reflexivity.
  - eexists. vm_compute. reflexivity.
Defined.

(** X15 in a world where the documents are scans. *)
Lemma no_text_no_marker_witness :
  fst (analyze_pdfs Worlds.scanned Scenario.links2 (Scenario.start ∅)) = Ok []
  /\ bucket (snd (analyze_pdfs Worlds.scanned Scenario.links2 (Scenario.start ∅)))
     = bucket (Scenario.start ∅).
Proof.
  apply (no_text_no_marker Worlds.scanned Scenario.links2 (Scenario.start ∅)).
  intros data pages H. injection H as <-. reflexivity.
Defined.

(** ** The body of the loop *)

Section Body.

Variable env : Env.

(** X17: the body of the loop never raises.  It looks up the marker of
    the link; when the marker is there, or when the lookup fails with
    anything but a 404, it does nothing more for this link; when there is
    no marker, or the lookup fails with a 404, it goes on to fetch and
    analyse the document. *)
Theorem process_link_cases (u : string) (s : State) :
  let key := processed_key u in
  let s1 := log_event (EvHead key) s in
  process_link env u s
  = (Ok tt,
     match s3_fault env (trace s) (EvHead key) with
     | None =>
         if bool_decide (is_Some (bucket s !! key)) then s1
         else snd (analyze_link env u s1)
     | Some e =>
         if is_ClientError e && String.eqb (error_code e) "404"
         then snd (analyze_link env u s1) else s1
     end).
Proof.
  intros key s1. rewrite process_link_run, file_already_processed_run. cbn [fst].
  fold key. fold s1.
  destruct (s3_fault env (trace s) (EvHead key)) as [e|].
  - by destruct (is_ClientError e && String.eqb (error_code e) "404").
  - by destruct (bool_decide (is_Some (bucket s !! key))).
Qed.

(** X18: when a link is not marked and every request for its document
    fails with a [RequestException], the body of the loop asks three
    times, pausing two seconds twice, and gives the link up: it creates no
    file, writes nothing to the bucket and adds no entry, so the link is
    still unmarked for the next run. *)
Theorem document_down (u msg : string) (s : State) :
  fst (file_already_processed env u s) = Ok false ->
  (forall tr, http_get env tr u = HttpRaise (RequestException msg)) ->
  process_link env u s
  = (Ok tt,
     add_events [EvHead (processed_key u); EvGet u; EvSleep 2; EvGet u; EvSleep 2; EvGet u] s).
Proof.
  intros Hnew Hdown. rewrite process_link_run, Hnew.
  unfold analyze_link, bind at 1. rewrite (get_with_retries_down env u msg) by done.
  cbn [snd]. by rewrite log_event_add, add_events_app.
Qed.

End Body.

(** X18 for the first document of the page when the server is down. *)
Lemma document_down_witness :
  process_link Worlds.offline (Scenario.host +:+ "/boletin/a.pdf") (Scenario.start ∅)
  = (Ok tt,
     add_events [EvHead (processed_key (Scenario.host +:+ "/boletin/a.pdf"));
                 EvGet (Scenario.host +:+ "/boletin/a.pdf"); EvSleep 2;
                 EvGet (Scenario.host +:+ "/boletin/a.pdf"); EvSleep 2;
                 EvGet (Scenario.host +:+ "/boletin/a.pdf")] (Scenario.start ∅)).
Proof.
  apply (document_down Worlds.offline (Scenario.host +:+ "/boletin/a.pdf") "timed out").
  - vm_compute. reflexivity.
  - intros tr. reflexivity.
Defined.

(** ** A document that downloads *)

Section Download.

Variable env : Env.

Lemma truthy_false (t : string) : Str.truthy t = false -> t = "".
Proof. by destruct t. Qed.

Lemma get_with_retries_first (u : string) (r : Response) (s : State) :
  attempt_outcome env (trace s) u = Ok r ->
  get_with_retries env u MAX_RETRIES s = (Ok (Some r), add_events [EvGet u] s).
Proof.
  intros Hout. unfold get_with_retries. change (range MAX_RETRIES) with [0; 1; 2]%Z.
  cbn [retry_loop]. unfold try_except at 1. by rewrite attempt_run, Hout.
Qed.

(** The loop body up to the upload, when the document downloads at once,
    the temporary file can be made and written, and the text is not
    empty. *)
Lemma analyze_link_to_upload (u : string) (r : Response) (s : State) :
  (forall tr, http_get env tr u = HttpAnswer r) ->
  http_error u r = None ->
  (forall tr, disk s !! (mkstemp env tr +:+ ".pdf") = None) ->
  (forall tr data, write_fault env tr data = None) ->
  text_of env (content r) <> "" ->
  exists name s6 t today,
    analyze_link env u s
    = try_finally (upload_file env name (archive_key env (strftime env "%Y%m%d" today) u) ;;
                   mark_as_processed env u)
                  (cleanup name) s6
    /\ disk s !! name = None
    /\ disk s6 = <[name := content r]> (disk s)
    /\ bucket s6 = bucket s
    /\ updates s6 = updates s ++ entries env u (text_of env (content r)) t.
Proof.
  intros Hget Hstatus Hfree Hwrite Htext.
  set (s1 := add_events [EvGet u] s).
  set (name := mkstemp env (trace s1) +:+ ".pdf").
  set (s4 := set_disk (<[name := content r]> (disk s))
               (add_events [EvGet u; EvTmpCreate name; EvTmpWrite name] s)).
  set (text := text_of env (content r)).
  set (s5 := match find_keywords (lower env) KEYWORDS text [] with
             | [] => s4
             | _ => set_updates (updates s ++ [entry env u text (clock env (trace s4))])
                                (log_event EvNow s4)
             end).
  exists name, (log_event EvNow s5), (clock env (trace s4)), (clock env (trace s5)).
  assert (Hdisk5 : disk s5 = <[name := content r]> (disk s)).
  { unfold s5. by destruct (find_keywords (lower env) KEYWORDS text []). }
  assert (Hbucket5 : bucket s5 = bucket s).
  { unfold s5. by destruct (find_keywords (lower env) KEYWORDS text []). }
  assert (Hupd5 : updates s5 = updates s ++ entries env u text (clock env (trace s4))).
  { unfold s5, entries. destruct (find_keywords (lower env) KEYWORDS text []); [|done].
    cbn. by rewrite app_nil_r. }
  split_and!; [|apply Hfree | exact Hdisk5 | exact Hbucket5 | exact Hupd5].
  unfold analyze_link, bind at 1.
  rewrite (get_with_retries_first u r s)
    by (unfold attempt_outcome; by rewrite Hget, Hstatus).
  fold s1. unfold bind at 1, NamedTemporaryFile. fold name.
  replace (disk s1 !! name) with (@None string) by (symmetry; apply Hfree).
  unfold bind at 1, attr, ret at 1. unfold bind at 1, file_write. rewrite Hwrite.
  assert (Hs4 : set_disk (<[name := content r]>
                            (disk (set_disk (<[name := ""]> (disk s1)) (log_event (EvTmpCreate name) s1))))
                  (log_event (EvTmpWrite name)
                     (set_disk (<[name := ""]> (disk s1)) (log_event (EvTmpCreate name) s1)))
                = s4).
  { unfold s4, set_disk, log_event, add_events, s1. cbn. f_equal.
    - by rewrite <- !app_assoc.
    - apply insert_insert_eq. }
  rewrite Hs4. unfold try_finally. fold (cleanup name).
  assert (Hbody : forall k : unit -> M unit,
            bind (extract_text_from_pdf env name)
              (fun text0 =>
                 if negb (Str.truthy text0) then ret tt
                 else bind (match find_keywords (lower env) KEYWORDS text0 [] with
                            | [] => ret tt
                            | _ => t <- now env ;;
                                   append_update {| pdf := pdf_name_of env u;
                                                    keywords := find_keywords (lower env) KEYWORDS text0 [];
                                                    url := u;
                                                    processed_at := isoformat env t |}
                            end) k) s4
            = k tt s5).
  { intros k. unfold bind at 1. rewrite extract_text_from_pdf_run.
    replace (disk s4 !! name) with (Some (content r))
      by (symmetry; apply lookup_insert_eq).
    fold (text_of env (content r)). fold text.
    destruct (Str.truthy text) eqn:Htr; [|exfalso; exact (Htext (truthy_false _ Htr))].
    cbn [negb]. unfold bind at 1, s5, entry.
    by destruct (find_keywords (lower env) KEYWORDS text []). }
  rewrite Hbody. unfold bind at 1, now. done.
Qed.

(** What the [finally] block leaves on disk. *)
Lemma cleanup_after (name data : string) (d : gmap string string) (s : State) :
  d !! name = None -> disk s = <[name := data]> d ->
  disk (snd (cleanup name s)) = d.
Proof.
  intros Hfree Hdisk. unfold cleanup. rewrite cleanup_run, Hdisk.
  by apply delete_insert_id.
Qed.

Lemma cleanup_keeps (name : string) (s : State) :
  bucket (snd (cleanup name s)) = bucket s /\ updates (snd (cleanup name s)) = updates s.
Proof.
  unfold cleanup, bind, path_exists, get_state, ret, unlink, bind, emit, modify.
  by destruct (bool_decide _).
Qed.

Lemma try_finally_state {A} (c : M A) (f : M unit) (s : State) :
  snd (try_finally c f s) = snd (f (snd (c s))).
Proof.
  unfold try_finally. destruct (c s) as [r s1]. cbn [snd].
  by destruct (f s1) as [[[]|e] s2].
Qed.

(** X20: when a link is not marked, its document downloads at the first
    request with some text in it, the temporary file can be made and
    written, and S3 takes every call, the body of the loop leaves the
    downloaded bytes in the bucket under boletines/<day>/<file name>, the
    marker of the link beside it, every other key as it was, no file on
    disk, and in the list one more entry if the text has keywords and none
    if it has not. *)
Theorem document_processed (u : string) (r : Response) (s : State) :
  bucket s !! processed_key u = None ->
  (forall tr call, s3_fault env tr call = None) ->
  (forall tr, http_get env tr u = HttpAnswer r) ->
  http_error u r = None ->
  (forall tr, disk s !! (mkstemp env tr +:+ ".pdf") = None) ->
  (forall tr data, write_fault env tr data = None) ->
  text_of env (content r) <> "" ->
  let s' := snd (process_link env u s) in
  exists day t,
    bucket s' !! archive_key env day u = Some (content r)
    /\ is_Some (bucket s' !! processed_key u)
    /\ (forall k, k <> archive_key env day u -> k <> processed_key u ->
                  bucket s' !! k = bucket s !! k)
    /\ disk s' = disk s
    /\ updates s' = updates s ++ entries env u (text_of env (content r)) t.
Proof.
  intros Hnew Hs3 Hget Hstatus Hfree Hwrite Htext s'.
  set (s1 := log_event (EvHead (processed_key u)) s).
  destruct (analyze_link_to_upload u r s1 Hget Hstatus Hfree Hwrite Htext)
    as (name & s6 & t & today & Hrun & Hname & Hdisk & Hbucket & Hupd).
  set (day := strftime env "%Y%m%d" today) in *.
  assert (Hst : exists st marker,
            s' = snd (cleanup name st)
            /\ disk st = disk s6 /\ updates st = updates s6
            /\ bucket st = <[processed_key u := marker]>
                             (<[archive_key env day u := content r]> (bucket s6))).
  { eexists _, _. split.
    - unfold s'. rewrite process_link_run, file_already_processed_run. cbn [fst]. rewrite Hs3.
      rewrite bool_decide_eq_false_2 by (rewrite Hnew; by intros [x Hx]).
      fold s1. rewrite Hrun. apply try_finally_state.
    - unfold bind. rewrite upload_file_run, Hdisk, lookup_insert_eq, Hs3.
      rewrite mark_as_processed_run, Hs3. cbn [snd]. done. }
  destruct Hst as (st & marker & -> & Hd & Hu & Hb).
  rewrite <- Hd in Hdisk.
  pose proof (cleanup_after name (content r) (disk s1) st Hname Hdisk) as Hd'.
  destruct (cleanup_keeps name st) as [Hb' Hu'].
  exists day, t. rewrite Hb', Hu', Hd', Hb, Hu, Hbucket, Hupd. cbn [bucket disk updates log_event s1].
  split_and!; try done.
  - rewrite lookup_insert_ne by (intros H; symmetry in H; by apply archive_key_processed_key in H).
    apply lookup_insert_eq.
  - rewrite lookup_insert_eq. by eexists.
  - intros k Hk1 Hk2. by rewrite !lookup_insert_ne.
Qed.

(** X21: when the document of a link downloads and its text has
    keywords, but S3 refuses the upload, the entry of the link stays in
    the list, so the mail reports the match, while the bucket has neither
    the document nor the marker and the temporary file is gone: the next
    run meets the link unmarked. *)
Theorem upload_refused (u : string) (r : Response) (e : exn) (s : State) :
  fst (file_already_processed env u s) = Ok false ->
  (forall tr path key, s3_fault env tr (EvUpload path key) = Some e) ->
  (forall tr, http_get env tr u = HttpAnswer r) ->
  http_error u r = None ->
  (forall tr, disk s !! (mkstemp env tr +:+ ".pdf") = None) ->
  (forall tr data, write_fault env tr data = None) ->
  text_of env (content r) <> "" ->
  find_keywords (lower env) KEYWORDS (text_of env (content r)) [] <> [] ->
  let s' := snd (process_link env u s) in
  exists t,
    updates s' = updates s ++ [entry env u (text_of env (content r)) t]
    /\ bucket s' = bucket s
    /\ disk s' = disk s.
Proof.
  intros Hnew Hs3 Hget Hstatus Hfree Hwrite Htext Hfound s'.
  set (s1 := log_event (EvHead (processed_key u)) s).
  destruct (analyze_link_to_upload u r s1 Hget Hstatus Hfree Hwrite Htext)
    as (name & s6 & t & today & Hrun & Hname & Hdisk & Hbucket & Hupd).
  assert (Hst : exists st,
            s' = snd (cleanup name st)
            /\ disk st = disk s6 /\ updates st = updates s6 /\ bucket st = bucket s6).
  { eexists. split.
    - unfold s'. rewrite process_link_run, Hnew. fold s1. rewrite Hrun.
      apply try_finally_state.
    - unfold bind. rewrite upload_file_run, Hdisk, lookup_insert_eq, Hs3. done. }
  destruct Hst as (st & -> & Hd & Hu & Hb).
  rewrite <- Hd in Hdisk.
  pose proof (cleanup_after name (content r) (disk s1) st Hname Hdisk) as Hd'.
  destruct (cleanup_keeps name st) as [Hb' Hu'].
  exists t. rewrite Hb', Hu', Hd', Hb, Hu, Hbucket, Hupd. cbn [bucket disk updates log_event s1].
  split_and!; try done. unfold entries.
  by destruct (find_keywords (lower env) KEYWORDS (text_of env (content r)) []).
Qed.

End Download.

(** X20 for the first document of the page, on an empty bucket and an
    empty disk. *)
Lemma document_processed_witness :
  exists day t,
    bucket (snd (process_link Worlds.plain (Scenario.host +:+ "/boletin/a.pdf") (Scenario.start ∅)))
      !! archive_key Worlds.plain day (Scenario.host +:+ "/boletin/a.pdf")
    = Some (content Worlds.page)
    /\ disk (snd (process_link Worlds.plain (Scenario.host +:+ "/boletin/a.pdf")
                    (Scenario.start ∅)))
       = disk (Scenario.start ∅)
    /\ updates (snd (process_link Worlds.plain (Scenario.host +:+ "/boletin/a.pdf")
                       (Scenario.start ∅)))
       = updates (Scenario.start ∅)
         ++ entries Worlds.plain (Scenario.host +:+ "/boletin/a.pdf")
              (text_of Worlds.plain (content Worlds.page)) t.
Proof.
  destruct (document_processed Worlds.plain (Scenario.host +:+ "/boletin/a.pdf") Worlds.page
              (Scenario.start ∅))
    as (day & t & Ha & _ & _ & Hd & Hu).
  - reflexivity.
  - intros tr call. reflexivity.
  - intros tr. reflexivity.
  - vm_compute. reflexivity.
  - intros tr. apply lookup_empty.
  - intros tr data. reflexivity.
  - vm_compute. discriminate.
  - exists day, t. split; [exact Ha|]. split; [exact Hd | exact Hu].
Defined.

(** X21 for the first document of the page when S3 refuses uploads. *)
Lemma upload_refused_witness :
  exists t,
    updates (snd (process_link Worlds.no_upload (Scenario.host +:+ "/boletin/a.pdf")
                    (Scenario.start ∅)))
    = updates (Scenario.start ∅)
      ++ [entry Worlds.no_upload (Scenario.host +:+ "/boletin/a.pdf")
            (text_of Worlds.no_upload (content Worlds.page)) t]
    /\ bucket (snd (process_link Worlds.no_upload (Scenario.host +:+ "/boletin/a.pdf")
                      (Scenario.start ∅)))
       = bucket (Scenario.start ∅).
Proof.
  destruct (upload_refused Worlds.no_upload (Scenario.host +:+ "/boletin/a.pdf") Worlds.page
              (OtherException "S3UploadFailedError") (Scenario.start ∅))
    as (t & Hu & Hb & _).
  - vm_compute. reflexivity.
  - intros tr path key. reflexivity.
  - intros tr. reflexivity.
  - vm_compute. reflexivity.
  - intros tr. apply lookup_empty.
  - intros tr data. reflexivity.
  - vm_compute. discriminate.
  - vm_compute. discriminate.
  - exists t. split; [exact Hu | exact Hb].
Defined.
